(** * repo-health: dependency readers and dashboard utilities

    A shallow embedding of

    - [repo_health/check_dependencies.py]: the Python and JavaScript
      dependency readers and the aggregator [get_dependencies];
    - [repo_health_dashboard/utils/utils.py]: [squash_dict],
      [get_superset_of_keys], [standardize_metadata_by_repo] and
      [write_squashed_metadata_to_csv];

    followed by the properties of the specification that speak about them.

    Conventions.  A Python [str] is a [string] whose characters are code
    points below 256.  A Python [int] is a [Z].  A Python [dict] is an
    association list in insertion order ([PyDict]); a Python [set] of
    strings is a [gset string], whose iteration order ([elements]) is some
    fixed order nothing below relies on.  Exceptions and output (log records,
    CSV rows) are threaded by the monad [Eff]. *)

From Stdlib Require Import ZArith Ascii.
From stdpp Require Import gmap strings list sorting pretty.

Local Open Scope Z_scope.

(** ** Python strings *)

Module PyStr.

(** [bool(s)]: a string is truthy when it is not empty. *)
Definition truthy (s : string) : bool :=
  match s with
  | EmptyString => false
  | String _ _ => true
  end.

(** [s.startswith(p)] *)
Fixpoint startswith (s p : string) : bool :=
  match p, s with
  | EmptyString, _ => true
  | String _ _, EmptyString => false
  | String a p', String b s' => Ascii.eqb a b && startswith s' p'
  end.

(** [s.endswith(p)] *)
Definition endswith (s p : string) : bool :=
  startswith (String.rev s) (String.rev p).

(** [s.endswith(ps)] for a tuple [ps] of suffixes. *)
Definition endswith_any (s : string) (ps : list string) : bool :=
  existsb (endswith s) ps.

(** [sub in s] *)
Fixpoint contains (s sub : string) : bool :=
  startswith s sub ||
  match s with
  | EmptyString => false
  | String _ s' => contains s' sub
  end.

(** [x in xs] for a list of strings. *)
Definition mem (x : string) (xs : list string) : bool :=
  existsb (String.eqb x) xs.

(** [s.replace('-e ', "")]: every occurrence, scanning left to right. *)
Fixpoint replace_dash_e (s : string) : string :=
  match s with
  | String "-" (String "e" (String " " rest)) => replace_dash_e rest
  | String c rest => String c (replace_dash_e rest)
  | EmptyString => EmptyString
  end.

(** Does [s] consist of zero or more spaces followed by [#]?  Used for the
    lookahead of [' +#'] once a first space has been seen. *)
Fixpoint spaces_then_hash (s : string) : bool :=
  match s with
  | String " " rest => spaces_then_hash rest
  | String "#" _ => true
  | _ => false
  end.

(** [re.sub(r' +#.*', "", s)].  A match starts at a space whose run of
    spaces is followed by [#]; [.*] then runs up to, and not including,
    the next line feed.  [skipping] is true inside a match. *)
Fixpoint re_sub_comment_from (skipping : bool) (s : string) : string :=
  match s with
  | EmptyString => EmptyString
  | String c rest =>
      if skipping then
        if Ascii.eqb c "010" then String c (re_sub_comment_from false rest)
        else re_sub_comment_from true rest
      else if Ascii.eqb c " " && spaces_then_hash rest
           then re_sub_comment_from true rest
           else String c (re_sub_comment_from false rest)
  end.

Definition re_sub_comment (s : string) : string :=
  re_sub_comment_from false s.

(** [re.match(r'^git\+.*', s)] is a match exactly when [s] starts with
    [git+]: [.*] also matches the empty string. *)
Definition re_match_git (s : string) : bool := startswith s "git+".

(** [sep.join(xs)] *)
Fixpoint join (sep : string) (xs : list string) : string :=
  match xs with
  | [] => EmptyString
  | [x] => x
  | x :: rest => x +:+ sep +:+ join sep rest
  end.

End PyStr.

(** ** Python dictionaries: association lists in insertion order *)

Module PyDict.

Definition pydict (V : Type) : Type := list (string * V).

Section ops.
Context {V : Type}.

(** [d[k]] and [d.get(k)]: [None] stands for a missing key. *)
Fixpoint get (k : string) (d : pydict V) : option V :=
  match d with
  | [] => None
  | (k', v) :: d' => if String.eqb k' k then Some v else get k d'
  end.

(** [d[k] = v]: an existing key keeps its position. *)
Fixpoint set (k : string) (v : V) (d : pydict V) : pydict V :=
  match d with
  | [] => [(k, v)]
  | (k', v') :: d' =>
      if String.eqb k' k then (k', v) :: d' else (k', v') :: set k v d'
  end.

(** [d.update(other)] *)
Definition update (d other : pydict V) : pydict V :=
  fold_left (λ acc kv, set kv.1 kv.2 acc) other d.

(** [d.keys()] *)
Definition keys (d : pydict V) : list string := d.*1.

(** [k in d] *)
Definition has_key (k : string) (d : pydict V) : bool :=
  PyStr.mem k (keys d).

(** [len(d)] *)
Definition len (d : pydict V) : Z := Z.of_nat (length d).

(** [bool(d)] *)
Definition truthy (d : pydict V) : bool :=
  match d with
  | [] => false
  | _ :: _ => true
  end.

(** The invariant of a Python dictionary: no key occurs twice. *)
Definition wf (d : pydict V) : Prop := NoDup (keys d).
End ops.

End PyDict.

Abbreviation pydict := PyDict.pydict.

(** ** Values, exceptions, effects *)

(** The loosely typed values the checks produce and [json] reads and writes
    (floating point numbers are left out). *)
#[warnings="-register-all"] Inductive value : Type :=
  | VNone
  | VBool (b : bool)
  | VInt (n : Z)
  | VStr (s : string)
  | VList (l : list value)
  | VDict (d : list (string * value)).

Inductive exn : Type :=
  | KeyError (k : string)
  | TypeError
  | FileNotFoundError
  | JSONDecodeError.

Inductive result (A : Type) : Type :=
  | Ok (a : A)
  | Raise (e : exn).
Arguments Ok {A} a.
Arguments Raise {A} e.

(** A computation that emits output of type [W] (log records, CSV rows) and
    then returns or raises; what was emitted before an exception stays. *)
Definition Eff (W A : Type) : Type := list W * result A.

Definition eff_ret {W A} (a : A) : Eff W A := ([], Ok a).

Definition eff_bind {W A B} (f : A → Eff W B) (m : Eff W A) : Eff W B :=
  match m with
  | (out, Ok a) => let '(out', r) := f a in (out ++ out', r)
  | (out, Raise e) => (out, Raise e)
  end.

Definition emit {W} (w : W) : Eff W unit := ([w], Ok tt).

Definition raise {W A} (e : exn) : Eff W A := ([], Raise e).

#[global] Instance eff_mret {W} : MRet (Eff W) := @eff_ret W.
#[global] Instance eff_mbind {W} : MBind (Eff W) := @eff_bind W.

(** [for x in xs: acc = body(acc, x)] *)
Fixpoint for_each {W A S} (xs : list A) (body : S → A → Eff W S) (acc : S)
  : Eff W S :=
  match xs with
  | [] => mret acc
  | x :: rest => acc' ← body acc x; for_each rest body acc'
  end.

(** ** [json.dumps] *)

Module Json.

Definition hex_digit (n : N) : ascii :=
  match n with
  | 0 => "0" | 1 => "1" | 2 => "2" | 3 => "3" | 4 => "4" | 5 => "5"
  | 6 => "6" | 7 => "7" | 8 => "8" | 9 => "9" | 10 => "a" | 11 => "b"
  | 12 => "c" | 13 => "d" | 14 => "e" | _ => "f"
  end%N%char.

Definition backslash : ascii := "092".
Definition dquote : ascii := "034".

(** One character of a string under [ensure_ascii]: the two-character
    escapes of the encoder's table, the character itself between space and
    tilde, and a [\u00xx] escape otherwise. *)
Definition escape_char (c : ascii) : string :=
  let n := N_of_ascii c in
  if Ascii.eqb c backslash then String backslash (String backslash EmptyString)
  else if Ascii.eqb c dquote then String backslash (String dquote EmptyString)
  else if Ascii.eqb c "008" then String backslash "b"
  else if Ascii.eqb c "012" then String backslash "f"
  else if Ascii.eqb c "010" then String backslash "n"
  else if Ascii.eqb c "013" then String backslash "r"
  else if Ascii.eqb c "009" then String backslash "t"
  else if (32 <=? n)%N && (n <=? 126)%N then String c EmptyString
  else String backslash
         (String "u" (String "0" (String "0"
            (String (hex_digit (n / 16)) (String (hex_digit (n mod 16)) EmptyString))))).

Fixpoint escape (s : string) : string :=
  match s with
  | EmptyString => EmptyString
  | String c rest => escape_char c +:+ escape rest
  end.

Definition encode_basestring_ascii (s : string) : string :=
  String dquote (escape s +:+ String dquote EmptyString).

(** [json.dumps(v)] with the default separators. *)
Fixpoint dumps (v : value) : string :=
  match v with
  | VNone => "null"
  | VBool b => if b then "true" else "false"
  | VInt n => pretty n
  | VStr s => encode_basestring_ascii s
  | VList l => "[" +:+ PyStr.join ", " (map dumps l) +:+ "]"
  | VDict d =>
      "{" +:+
      PyStr.join ", "
        (map (λ kv, encode_basestring_ascii kv.1 +:+ ": " +:+ dumps kv.2) d)
      +:+ "}"
  end.

(** The text of a JSON file, as far as the checks can tell: empty, not
    well-formed, or well-formed with [data] what [json.loads] makes of it. *)
Inductive text (A : Type) : Type :=
  | Empty
  | Invalid
  | Valid (data : A).
Arguments Empty {A}.
Arguments Invalid {A}.
Arguments Valid {A} data.

(** [bool(content)] *)
Definition truthy {A} (content : text A) : bool :=
  match content with
  | Empty => false
  | _ => true
  end.

(** [json.loads(content)] *)
Definition loads {W A} (content : text A) : Eff W A :=
  match content with
  | Empty | Invalid => raise JSONDecodeError
  | Valid data => mret data
  end.

End Json.

(** ** The repository on disk *)

(** What [json.loads] makes of [package.json]: the two objects the reader
    looks at, each absent or a dictionary from package name to version
    range. *)
Record package_json_data : Type := {
  pj_dependencies : option (pydict value);
  pj_devDependencies : option (pydict value)
}.

(** What [json.loads] makes of [package-lock.json]: its [dependencies]
    object, absent or a dictionary from package name to the details object
    of that package. *)
Record package_lock_data : Type := {
  pl_dependencies : option (pydict (pydict value))
}.

(** The part of a checked-out repository the dependency check reads. *)
Record repository : Type := {
  (** the path handed to the check *)
  repo_path : string;
  (** [None] when [<repo_path>/requirements] does not exist; otherwise the
      paths [rglob('*.txt')] yields under it, in enumeration order *)
  requirements : option (list string);
  (** the lines of the text files, by path *)
  text_lines : gmap string (list string);
  (** [<repo_path>/package.json], [None] when there is no such file *)
  package_json : option (Json.text package_json_data);
  (** [<repo_path>/package-lock.json], [None] when there is no such file *)
  package_lock : option (Json.text package_lock_data)
}.

(** Modelled from the spec: [get_file_lines] of the package's [__init__.py],
    which is not among the sources.  "read a file's [...] lines; return an
    empty/absent value if the file does not exist". *)
Definition get_file_lines (repo : repository) (path : string) : list string :=
  default [] (text_lines repo !! path).

(** Modelled from the spec: [get_file_content] of the package's
    [__init__.py], which is not among the sources.  "read a file's full
    text [...]; return an empty/absent value if the file does not exist". *)
Definition get_file_content {A} (f : option (Json.text A)) : Json.text A :=
  default Json.Empty f.

(** [open(path, 'r').read()] *)
Definition open_read {W A} (f : option (Json.text A)) : Eff W (Json.text A) :=
  match f with
  | None => raise FileNotFoundError
  | Some content => mret content
  end.

(** [os.path.exists(path)] *)
Definition path_exists {A} (f : option A) : bool :=
  match f with
  | None => false
  | Some _ => true
  end.

(** ** [repo_health/check_dependencies.py] *)

(** [list(set(xs))]: the distinct elements of [xs], in the set's order. *)
Definition list_of_set (xs : list string) : list string :=
  elements (list_to_set xs : gset string).

(** [len(set(xs))] *)
Definition len_set (xs : list string) : Z :=
  Z.of_nat (size (list_to_set xs : gset string)).

(** [json.dumps(xs)] for a list of strings. *)
Definition dumps_strings (xs : list string) : string :=
  Json.dumps (VList (VStr <$> xs)).

(** A [{"count": ..., "list": ...}] sub-group. *)
Definition group (count : Z) (list : string) : value :=
  VDict [("count", VInt count); ("list", VStr list)].

Definition default_output : pydict value :=
  [ ("count", VInt 0);
    ("github", group 0 EmptyString);
    ("pypi_all", group 0 EmptyString);
    ("pypi", group 0 EmptyString);
    ("js", group 0 EmptyString);
    ("js.dev", group 0 EmptyString);
    ("js.all", group 0 EmptyString) ].

(** The abstract class: a reader is its [read] method.  Log records are the
    messages handed to [logger.error]. *)
Record DependencyReader : Type := {
  reader_read : repository → Eff string (pydict value)
}.

Module JavascriptDependencyReader.

Definition _is_js_repo (repo : repository) : bool :=
  path_exists (package_json repo).

(** The loop over the lockfile's [dependencies]:
    [js_dependencies_all[dependency] = details["version"]]. *)
Definition lock_step (js_dependencies_all : pydict value)
    (item : string * pydict value) : Eff string (pydict value) :=
  let '(dependency, details) := item in
  match PyDict.get "version" details with
  | Some version => mret (PyDict.set dependency version js_dependencies_all)
  | None => raise (KeyError "version")
  end.

Definition _read_dependencies (repo : repository)
  : Eff string (pydict value) :=
  package_json_content ← open_read (package_json repo);
  package_json_data ← Json.loads package_json_content;
  let js_dependencies := default [] (pj_dependencies package_json_data) in
  let js_dev_dependencies :=
    default [] (pj_devDependencies package_json_data) in
  let js_dependencies_count := PyDict.len js_dependencies in
  let js_dev_dependencies_count := PyDict.len js_dev_dependencies in
  let package_lock_content := get_file_content (package_lock repo) in
  js_dependencies_all ←
    (if Json.truthy package_lock_content then
       package_lock_data ← Json.loads package_lock_content;
       for_each (default [] (pl_dependencies package_lock_data)) lock_step []
     else mret []);
  mret
    [ ("count", VInt (js_dependencies_count + js_dev_dependencies_count));
      ("js", group js_dependencies_count (Json.dumps (VDict js_dependencies)));
      ("js.dev", group js_dev_dependencies_count
                   (Json.dumps (VDict js_dev_dependencies)));
      ("js.all", group (PyDict.len js_dependencies_all)
                   (Json.dumps (VDict js_dependencies_all))) ].

Definition read (repo : repository) : Eff string (pydict value) :=
  if negb (_is_js_repo repo) then mret [] else _read_dependencies repo.

Definition reader : DependencyReader := {| reader_read := read |}.

End JavascriptDependencyReader.

Module PythonDependencyReader.

Definition _is_python_repo (repo : repository) : bool :=
  path_exists (requirements repo).

Definition constraints_files : list string := ["constraints.txt"; "pins.txt"].

Definition priority_list : list string :=
  ["production.txt"; "base.txt"; "development.txt"; "dev.txt"].

(** The comprehension that [_read_dependencies] and [cleanup_lines] both
    start with:
    [[re.sub(r' +#.*', "", line).replace('-e ', "")
      for line in lines if line and not line.startswith("#")]]. *)
Definition strip_lines (lines : list string) : list string :=
  map (λ line, PyStr.replace_dash_e (PyStr.re_sub_comment line))
    (List.filter (λ line, PyStr.truthy line && negb (PyStr.startswith line "#"))
       lines).

(** The dictionary [cleanup_lines] returns. *)
Record cleaned : Type := {
  github : list string;
  pypi : list string
}.

Definition cleanup_lines (lines : list string) : cleaned :=
  let stripped_lines := strip_lines lines in
  let github_packages := List.filter PyStr.re_match_git stripped_lines in
  {| github := github_packages;
     pypi := List.filter
               (λ line, negb (PyStr.mem line github_packages)
                        && PyStr.contains line "==")
               stripped_lines |}.

(** The body of the first loop, over all requirement files: both lists grow,
    and the membership test looks at all github lines seen so far. *)
Definition scan_file (repo : repository)
    (acc : list string * list string) (file_path : string)
  : list string * list string :=
  let '(github_packages, pypi_packages) := acc in
  let lines := get_file_lines repo file_path in
  let stripped_lines := strip_lines lines in
  let github_packages :=
    github_packages ++ List.filter PyStr.re_match_git stripped_lines in
  let pypi_packages :=
    pypi_packages ++
    List.filter
      (λ line, negb (PyStr.mem line github_packages)
               && PyStr.contains line "==")
      stripped_lines in
  (github_packages, pypi_packages).

(** The loop over [priority_list] with its [break]; [requirement_files] is
    the variable the loop rebinds, holding on entry what it held before. *)
Fixpoint select_files (files : list string) (names : list string)
    (requirement_files : list string) : list string :=
  match names with
  | [] => requirement_files
  | file_name :: rest =>
      let requirement_files :=
        List.filter (λ file, PyStr.endswith file file_name) files in
      match requirement_files with
      | _ :: _ => requirement_files
      | [] => select_files files rest requirement_files
      end
  end.

(** The body of the second loop, over the production files. *)
Definition scan_production (repo : repository)
    (production_packages : list string) (file_path : string) : list string :=
  let lines := get_file_lines repo file_path in
  let stripped_lines := cleanup_lines lines in
  production_packages ++ pypi stripped_lines.

Definition no_production_message (repo : repository) : string :=
  "No production.txt or base.txt files found for this repo " +:+ repo_path repo.

Definition _read_dependencies (repo : repository)
  : Eff string (pydict value) :=
  let files := default [] (requirements repo) in
  let requirement_files :=
    List.filter (λ file, negb (PyStr.endswith_any file constraints_files))
      files in
  let '(github_packages, pypi_packages) :=
    fold_left (scan_file repo) requirement_files ([], []) in
  let github_dependencies := list_of_set github_packages in
  let pypi_dependencies := list_of_set pypi_packages in
  let requirement_files := select_files files priority_list requirement_files in
  _ ← match requirement_files with
      | [] => emit (no_production_message repo)
      | _ :: _ => mret tt
      end;
  let production_packages :=
    list_of_set (fold_left (scan_production repo) requirement_files []) in
  mret
    [ ("github", group (len_set github_dependencies)
                   (dumps_strings github_packages));
      ("pypi_all", group (len_set pypi_dependencies)
                     (dumps_strings pypi_dependencies));
      ("pypi", group (len_set production_packages)
                 (dumps_strings production_packages));
      ("count", VInt (len_set pypi_dependencies + len_set github_dependencies)) ].

Definition read (repo : repository) : Eff string (pydict value) :=
  if negb (_is_python_repo repo) then mret [] else _read_dependencies repo.

Definition reader : DependencyReader := {| reader_read := read |}.

End PythonDependencyReader.

(** [DependencyReader.__subclasses__()]: in the order of definition. *)
Definition subclasses : list DependencyReader :=
  [JavascriptDependencyReader.reader; PythonDependencyReader.reader].

(** [n + v] for an [int] [n]: defined when [v] is an [int] or a [bool]. *)
Definition int_add {W} (n : Z) (v : value) : Eff W Z :=
  match v with
  | VInt m => mret (n + m)
  | VBool b => mret (n + (if b then 1 else 0))
  | _ => raise TypeError
  end.

(** The body of the loop of [get_dependencies]. *)
Definition aggregate_step (repo : repository) (acc : Z * pydict value)
    (reader : DependencyReader) : Eff string (Z * pydict value) :=
  let '(dependencies_count, dependencies_output) := acc in
  result ← reader_read reader repo;
  if negb (PyDict.truthy result) then mret (dependencies_count, dependencies_output)
  else
    dependencies_count ←
      int_add dependencies_count (default (VInt 0) (PyDict.get "count" result));
    let dependencies_output := PyDict.update dependencies_output result in
    let dependencies_output :=
      PyDict.update dependencies_output [("count", VInt dependencies_count)] in
    mret (dependencies_count, dependencies_output).

Definition get_dependencies (repo : repository) : Eff string (pydict value) :=
  acc ← for_each subclasses (aggregate_step repo) (0, default_output);
  mret acc.2.

(** ** [repo_health_dashboard/utils/utils.py] *)

(** [d[k]] as an expression: a missing key raises. *)
Definition subscript {W V} (d : pydict V) (k : string) : Eff W V :=
  match PyDict.get k d with
  | Some v => mret v
  | None => raise (KeyError k)
  end.

(** [[f(x) for x in xs]], evaluated left to right. *)
Fixpoint comprehension {W A B} (f : A → Eff W B) (xs : list A)
  : Eff W (list B) :=
  match xs with
  | [] => mret []
  | x :: rest => y ← f x; ys ← comprehension f rest; mret (y :: ys)
  end.

(** The default of the [delimiter] parameter of [squash_dict]. *)
Definition default_delimiter : string := ".".

(** [squash_dict(input, delimiter)] for the dictionary [input] held by [v].
    The recursive call passes no delimiter, so it runs with the default. *)
Fixpoint squash_dict_value (v : value) (delimiter : string) {struct v}
  : pydict value :=
  match v with
  | VDict input =>
      fold_left
        (λ output item,
           match item.2 with
           | VDict _ =>
               let temp_output := squash_dict_value item.2 default_delimiter in
               fold_left
                 (λ output item2,
                    let temp_key := item.1 +:+ delimiter +:+ item2.1 in
                    PyDict.set temp_key item2.2 output)
                 temp_output output
           | _ => PyDict.set item.1 item.2 output
           end)
        input []
  | _ => []
  end.

Definition squash_dict (input : pydict value) (delimiter : string)
  : pydict value :=
  squash_dict_value (VDict input) delimiter.

Definition get_superset_of_keys {V} (dicts : pydict (pydict V)) : gset string :=
  fold_left
    (λ output_set item, output_set ∪ list_to_set (PyDict.keys item.2))
    dicts ∅.

(** [{k: None for k in superset_keys}] *)
Definition defaults_of (superset_keys : gset string) : pydict value :=
  fold_left (λ d k, PyDict.set k VNone d) (elements superset_keys) [].

Definition standardize_metadata_by_repo (metadata_by_repo : pydict (pydict value))
  : pydict (pydict value) :=
  let superset_keys := get_superset_of_keys metadata_by_repo in
  let defaults := defaults_of superset_keys in
  fold_left
    (λ output entry,
       let superset_output := defaults in
       let superset_output := PyDict.update superset_output entry.2 in
       PyDict.set entry.1 superset_output output)
    metadata_by_repo [].

(** The loop replaces each entry of [metadata_by_repo] in place. *)
Definition squash_and_standardize_metadata_by_repo
    (metadata_by_repo : pydict (pydict value)) : pydict (pydict value) :=
  let metadata_by_repo :=
    fold_left
      (λ m entry, PyDict.set entry.1 (squash_dict entry.2 default_delimiter) m)
      metadata_by_repo metadata_by_repo in
  standardize_metadata_by_repo metadata_by_repo.

Record configuration : Type := {
  check_order : list string;
  key_aliases : pydict string
}.

(** [sorted(xs)] on strings. *)
Definition sorted (xs : list string) : list string :=
  merge_sort String.le xs.

(** The local [sorted_keys] of [write_squashed_metadata_to_csv]: the first
    three statements of its body. *)
Definition sorted_keys (metadata_by_repo : pydict (pydict value))
    (configuration : configuration) : list string :=
  let superset_keys := get_superset_of_keys metadata_by_repo in
  let superset_keys :=
    fold_left (λ keys key, keys ∖ {[key]}) (check_order configuration)
      superset_keys in
  check_order configuration ++ sorted (elements superset_keys).

(** The local [sorted_aliased_keys]. *)
Definition sorted_aliased_keys (configuration : configuration)
    (sorted_keys : list string) : list string :=
  fold_left
    (λ aliased key,
       match PyDict.get key (key_aliases configuration) with
       | Some alias => aliased ++ [alias]
       | None => aliased ++ [key]
       end)
    sorted_keys [].

(** The body of the loop over the repositories: one row. *)
Definition write_row (sorted_keys : list string) (_ : unit)
    (entry : string * pydict value) : Eff (list value) unit :=
  cells ← comprehension (subscript entry.2) sorted_keys;
  emit (VStr entry.1 :: cells).

(** The rows handed to [writer.writerow] are the output: the file opened
    for writing starts empty and holds them in order, also when a later row
    raises. *)
Definition write_squashed_metadata_to_csv
    (metadata_by_repo : pydict (pydict value)) (filename : string)
    (configuration : configuration) : Eff (list value) unit :=
  let sorted_keys := sorted_keys metadata_by_repo configuration in
  let sorted_aliased_keys := sorted_aliased_keys configuration sorted_keys in
  let csv_header := "repo_name" :: sorted_aliased_keys in
  _ ← emit (VStr <$> csv_header);
  for_each metadata_by_repo (write_row sorted_keys) tt.

(** ** Names for the statements about the readers *)

(** The locals of [PythonDependencyReader._read_dependencies]. *)
Module PyLocals.
Import PythonDependencyReader.

(** [files]: every [*.txt] under [requirements/]. *)
Definition files (repo : repository) : list string :=
  default [] (requirements repo).

(** [requirement_files] of the first loop: [files] without the constraint
    files. *)
Definition candidate_files (repo : repository) : list string :=
  List.filter (λ file, negb (PyStr.endswith_any file constraints_files))
    (files repo).

(** [[file for file in files if file.endswith(file_name)]] *)
Definition matching (files : list string) (file_name : string) : list string :=
  List.filter (λ file, PyStr.endswith file file_name) files.

(** [github_packages] and [pypi_packages] when the first loop is over. *)
Definition scanned (repo : repository) : list string * list string :=
  fold_left (scan_file repo) (candidate_files repo) ([], []).

(** [requirement_files] when the loop over [priority_list] is over. *)
Definition production_files (repo : repository) : list string :=
  select_files (files repo) priority_list (candidate_files repo).

(** [production_packages] when the second loop is over. *)
Definition production_packages (repo : repository) : list string :=
  fold_left (scan_production repo) (production_files repo) [].

(** A stripped line that goes to the pypi lists: not a github line, and
    pinned with [==]. *)
Definition is_pinned (line : string) : bool :=
  negb (PyStr.re_match_git line) && PyStr.contains line "==".

(** What the lines of one file add to the github and to the pypi lists. *)
Definition github_of (lines : list string) : list string :=
  List.filter PyStr.re_match_git (strip_lines lines).

Definition pypi_of (lines : list string) : list string :=
  List.filter is_pinned (strip_lines lines).

(** What [logger.error] has been handed when the method returns. *)
Definition logged (repo : repository) : list string :=
  match production_files repo with
  | [] => [no_production_message repo]
  | _ :: _ => []
  end.

End PyLocals.

(** The locals of [JavascriptDependencyReader._read_dependencies]. *)
Module JsLocals.

(** [package_lock_data.get('dependencies', {})] *)
Definition locked (package_lock_data : package_lock_data)
  : pydict (pydict value) :=
  default [] (pl_dependencies package_lock_data).

(** Every package of the lockfile has a [version]. *)
Definition versions_given (package_lock_data : package_lock_data) : bool :=
  forallb (λ item : string * pydict value, PyDict.has_key "version" item.2)
    (locked package_lock_data).

(** [package-lock.json] is missing or empty. *)
Definition no_lockfile (repo : repository) : bool :=
  negb (Json.truthy (get_file_content (package_lock repo))).

End JsLocals.

(** The JSON files the check reads are there to be read: [package.json],
    when there is one, is well-formed; then [package-lock.json] is missing,
    empty, or well-formed with a version for every package. *)
Definition json_readable (repo : repository) : bool :=
  match package_json repo with
  | None => true
  | Some (Json.Valid _) =>
      match package_lock repo with
      | None | Some Json.Empty => true
      | Some (Json.Valid package_lock_data) =>
          JsLocals.versions_given package_lock_data
      | Some Json.Invalid => false
      end
  | Some _ => false
  end.

(** The repository [repo] with the lines of the file at [path] replaced. *)
Definition with_lines (repo : repository) (path : string) (lines : list string)
  : repository :=
  {| repo_path := repo_path repo;
     requirements := requirements repo;
     text_lines := <[path := lines]> (text_lines repo);
     package_json := package_json repo;
     package_lock := package_lock repo |}.

(** [count] of the sub-group [name] of a reader's or the aggregator's
    output. *)
Definition group_count (name : string) (out : pydict value) : option Z :=
  match PyDict.get name out with
  | Some (VDict g) =>
      match PyDict.get "count" g with
      | Some (VInt n) => Some n
      | _ => None
      end
  | _ => None
  end.

(** ** The wording of the specification, where it differs from the code *)

Module Wording.

Definition slash : ascii := "/".
Definition tab : ascii := "009".
Definition line_feed : ascii := "010".

(** The name of the file at [path]: what follows the last slash. *)
Fixpoint file_name_from (name path : string) : string :=
  match path with
  | EmptyString => name
  | String c rest =>
      if Ascii.eqb c slash then file_name_from rest rest
      else file_name_from name rest
  end.

Definition file_name (path : string) : string := file_name_from path path.

(** "all files with that exact name" *)
Definition named (name path : string) : bool :=
  String.eqb (file_name path) name.

(** "use the first name in that priority order for which at least one
    matching file exists, and use all files with that exact name"; no file
    at all when no name has one. *)
Fixpoint files_by_name (files names : list string) : list string :=
  match names with
  | [] => []
  | name :: rest =>
      match List.filter (named name) files with
      | [] => files_by_name files rest
      | found => found
      end
  end.

(** The characters the regular expression class [\s] matches, among the
    code points below 256. *)
Definition is_space (c : ascii) : bool :=
  let n := N_of_ascii c in
  ((9 <=? n) && (n <=? 13) || (28 <=? n) && (n <=? 32)
   || (n =? 133) || (n =? 160))%N.

(** "blank": nothing but white space. *)
Fixpoint blank (line : string) : bool :=
  match line with
  | EmptyString => true
  | String c rest => is_space c && blank rest
  end.

(** The line matches [^\s*#]. *)
Fixpoint comment_regex (line : string) : bool :=
  match line with
  | EmptyString => false
  | String c rest =>
      Ascii.eqb c "#" || (is_space c && comment_regex rest)
  end.

(** What it is for [line] to contribute no identifier: wherever it stands
    in a file, the github and the pypi lines of the file are what they are
    without it. *)
Definition excluded (line : string) : Prop :=
  ∀ before after : list string,
    PyLocals.github_of (before ++ line :: after)
    = PyLocals.github_of (before ++ after)
    ∧ PyLocals.pypi_of (before ++ line :: after)
      = PyLocals.pypi_of (before ++ after).

(** "lines matching [^\s*#] or blank are excluded from every produced
    set" *)
Definition comment_or_blank_excluded (line : string) : Prop :=
  blank line || comment_regex line = true → excluded line.


(** "[js.all.count >= js.count] when a lockfile is present [...];
    [js.all.count == 0] when no lockfile exists" *)
Definition lockfile_dominates (repo : repository) : Prop :=
  ∀ log out,
    JavascriptDependencyReader.read repo = (log, Ok out) →
    if path_exists (package_lock repo)
    then ∃ all js, group_count "js.all" out = Some all
                   ∧ group_count "js" out = Some js ∧ js ≤ all
    else group_count "js.all" out = Some 0.

(** The reading of the production files as the specification words it: the
    files are chosen by exact name, and when no file has one of the names
    an error is logged and the production subset is empty. *)
Definition production_by_exact_name (repo : repository) : Prop :=
  PyLocals.production_files repo
  = files_by_name (PyLocals.files repo) PythonDependencyReader.priority_list
  ∧ (files_by_name (PyLocals.files repo) PythonDependencyReader.priority_list = [] →
     ∃ out,
       PythonDependencyReader.read repo
       = ([PythonDependencyReader.no_production_message repo], Ok out)
       ∧ group_count "pypi" out = Some 0).

End Wording.

(** ** Names for the statements about the dashboard utilities *)

(** The leaves of a nested mapping, each with the keys that lead to it: a
    leaf is a value that is not a mapping. *)
Fixpoint leaves (v : value) : list (list string * value) :=
  match v with
  | VDict d =>
      flat_map
        (λ item : string * value,
           match item.2 with
           | VDict _ =>
               (λ leaf : list string * value, (item.1 :: leaf.1, leaf.2))
               <$> leaves item.2
           | _ => [([item.1], item.2)]
           end)
        d
  | _ => []
  end.

(** The leaves below one item of a mapping. *)
Definition item_leaves (item : string * value) : list (list string * value) :=
  match item.2 with
  | VDict _ =>
      (λ leaf : list string * value, (item.1 :: leaf.1, leaf.2))
      <$> leaves item.2
  | _ => [([item.1], item.2)]
  end.

(** The body of the loop of [squash_dict]. *)
Definition squash_step (delimiter : string) (output : pydict value)
    (item : string * value) : pydict value :=
  match item.2 with
  | VDict _ =>
      let temp_output := squash_dict_value item.2 default_delimiter in
      fold_left
        (λ output (item2 : string * value),
           let temp_key := item.1 +:+ delimiter +:+ item2.1 in
           PyDict.set temp_key item2.2 output)
        temp_output output
  | _ => PyDict.set item.1 item.2 output
  end.

(** The key [squash_dict] makes of a path: the given delimiter after the
    first key, the default delimiter further down. *)
Definition flat_key (delimiter : string) (path : list string) : string :=
  match path with
  | [] => EmptyString
  | [key] => key
  | key :: rest => key +:+ delimiter +:+ PyStr.join default_delimiter rest
  end.

(** What [squash_dict] is to be for the value [v]: its keys are the
    flattened paths to the leaves of [v], and each entry holds the leaf at
    such a path. *)
Definition squashes (v : value) : Prop :=
  ∀ delimiter,
    (∀ k, k ∈ PyDict.keys (squash_dict_value v delimiter)
          ↔ ∃ path leaf, (path, leaf) ∈ leaves v ∧ k = flat_key delimiter path)
    ∧ (∀ k leaf, (k, leaf) ∈ squash_dict_value v delimiter →
         ∃ path, (path, leaf) ∈ leaves v ∧ k = flat_key delimiter path).

(** The header cell of a column: [key_aliases[key]] when there is one. *)
Definition alias_of (configuration : configuration) (key : string) : string :=
  default key (PyDict.get key (key_aliases configuration)).

(** The header row. *)
Definition csv_header (metadata_by_repo : pydict (pydict value))
    (configuration : configuration) : list value :=
  VStr <$> ("repo_name"
            :: (alias_of configuration
                <$> sorted_keys metadata_by_repo configuration)).

(** The mapping [item] has every key of [keys]. *)
Definition complete (keys : list string) (entry : string * pydict value) : Prop :=
  ∀ k, k ∈ keys → k ∈ PyDict.keys entry.2.

(** Every mapping has every key of the superset, as after
    [standardize_metadata_by_repo]. *)
Definition standardized (metadata_by_repo : pydict (pydict value)) : Prop :=
  Forall (complete (elements (get_superset_of_keys metadata_by_repo)))
    metadata_by_repo.

(** ** Names for the statements about requirement lines *)

(** The lines the code leaves out whatever they hold: blank lines, and
    lines where zero or more spaces are followed by [#]. *)
Definition ignored (line : string) : bool :=
  Wording.blank line || PyStr.spaces_then_hash line.

(** The line holds no line feed, as the lines of a file do. *)
Definition single_line (line : string) : bool :=
  negb (PyStr.contains line (String Wording.line_feed EmptyString)).

(** ** Names for further statements about the dashboard utilities *)

(** [isinstance(value, dict)] *)
Definition is_dict (v : value) : bool :=
  match v with
  | VDict _ => true
  | _ => false
  end.

(** A mapping of one level: no value of it is a mapping. *)
Definition flat (d : pydict value) : Prop :=
  Forall (λ item : string * value, is_dict item.2 = false) d.

(** The value a loop of assignments [output[key(x)] = val(x)] leaves at the
    key [k], when [acc] is what was there before: that of the last [x]
    assigned to [k]. *)
Definition last_assigned {A V} (key : A → string) (val : A → V) (k : string)
    (xs : list A) (acc : option V) : option V :=
  fold_left (λ acc x, if String.eqb (key x) k then Some (val x) else acc) xs acc.

(** The leaf of the last path that [squash_dict] flattens to the key [k]. *)
Definition last_leaf (delimiter k : string) (ls : list (list string * value))
  : option value :=
  last_assigned (λ leaf : list string * value, flat_key delimiter leaf.1)
    (λ leaf : list string * value, leaf.2) k ls None.


(** What follows the prefix [p] in [k], when [k] starts with [p]. *)
Fixpoint strip_prefix (p k : string) : option string :=
  match p, k with
  | EmptyString, _ => Some k
  | String _ _, EmptyString => None
  | String a p', String b k' => if Ascii.eqb a b then strip_prefix p' k' else None
  end.

(** What [squash_dict] is to leave at every key of the value [v]. *)
Definition last_wins (v : value) : Prop :=
  ∀ delimiter k,
    PyDict.get k (squash_dict_value v delimiter)
    = last_leaf delimiter k (leaves v).

(** What [standardize_metadata_by_repo] makes of one repository's mapping
    in [metadata_by_repo]: the defaults over the superset, updated. *)
Definition standardized_item (metadata_by_repo : pydict (pydict value))
    (entry : string * pydict value) : string * pydict value :=
  (entry.1,
   PyDict.update (defaults_of (get_superset_of_keys metadata_by_repo)) entry.2).

(** An entry with its mapping flattened. *)
Definition squashed_item (entry : string * pydict value)
  : string * pydict value :=
  (entry.1, squash_dict entry.2 default_delimiter).

(** ** Names for further statements about the dependency check *)

Definition module_dict_key : string := "dependencies".

(** [check_dependencies(repo_path, all_results)]:
    [all_results[module_dict_key] = get_dependencies(repo_path)]. *)
Definition check_dependencies (repo : repository) (all_results : pydict value)
  : Eff string (pydict value) :=
  dependencies ← get_dependencies repo;
  mret (PyDict.set module_dict_key (VDict dependencies) all_results).

(** The [count] a reader returns, 0 when it returns none. *)
Definition count_of (result : pydict value) : Z :=
  match PyDict.get "count" result with
  | Some (VInt n) => n
  | _ => 0
  end.

(** The sub-group [name] after the aggregator's update with [result]: that
    of [result] when the reader returned one, the default otherwise. *)
Definition merged_group (name : string) (result : pydict value) : option value :=
  if PyDict.truthy result then PyDict.get name result
  else PyDict.get name default_output.

(** The version the lockfile gives for a package. *)
Definition locked_version (item : string * pydict value) : string * value :=
  (item.1, default VNone (PyDict.get "version" item.2)).

(** The line [line] with the editable marker before it. *)
Definition editable (line : string) : string := "-e " +:+ line.

(** Two lines add the same to the github and the pypi lists, wherever they
    stand in a file. *)
Definition same_contribution (line line' : string) : Prop :=
  ∀ before after : list string,
    PyLocals.github_of (before ++ line :: after)
    = PyLocals.github_of (before ++ line' :: after)
    ∧ PyLocals.pypi_of (before ++ line :: after)
      = PyLocals.pypi_of (before ++ line' :: after).

(** The columns the dependency check gives the report, once flattened. *)
Definition dependency_columns : list string :=
  ["dependencies.count";
   "dependencies.github.count"; "dependencies.github.list";
   "dependencies.pypi_all.count"; "dependencies.pypi_all.list";
   "dependencies.pypi.count"; "dependencies.pypi.list";
   "dependencies.js.count"; "dependencies.js.list";
   "dependencies.js.dev.count"; "dependencies.js.dev.list";
   "dependencies.js.all.count"; "dependencies.js.all.list"].

(** ** Regular expressions, as far as [repo_health/utils.py] uses them *)

(** The patterns of the requirement parsers are sequences of atoms: one
    character or a character class, once or under a greedy [*] or [+].
    Matching is by backtracking, as [re] does it: a repetition takes as many
    characters as it can and gives them back one at a time while the rest of
    the pattern fails. *)
Module Re.

Inductive quant : Type := One | Star | Plus.

Record atom : Type := Atom {
  accepts : ascii → bool;
  quantifier : quant
}.

(** A character that stands for itself. *)
Definition lit (c : ascii) : atom := Atom (Ascii.eqb c) One.

(** [.]: any character but the line feed. *)
Definition dot (c : ascii) : bool := negb (Ascii.eqb c "010").

(** [[...]]: one of the characters of [cs]. *)
Fixpoint one_of (cs : string) (c : ascii) : bool :=
  match cs with
  | EmptyString => false
  | String c' cs' => Ascii.eqb c c' || one_of cs' c
  end.

(** [[^...]]: none of the characters of [cs]. *)
Definition none_of (cs : string) (c : ascii) : bool := negb (one_of cs c).

(** The literal characters of [s], one atom each. *)
Fixpoint lits (s : string) : list atom :=
  match s with
  | EmptyString => []
  | String c s' => lit c :: lits s'
  end.

(** What a match is: the text each atom took, and the text left over. *)
Definition matched : Type := list string * string.

(** The repetition takes nothing (more): the rest of the pattern goes on. *)
Definition stop (k : string → option matched) (s : string) : option matched :=
  match k s with
  | Some (parts, rest) => Some (EmptyString :: parts, rest)
  | None => None
  end.

(** The match [m] of the rest, with [c] taken by the repetition before. *)
Definition take (c : ascii) (m : option matched) : option matched :=
  match m with
  | Some (part :: parts, rest) => Some (String c part :: parts, rest)
  | _ => None
  end.

(** A greedy repetition followed by the rest of the pattern [k]. *)
Fixpoint repeat (accepts : ascii → bool) (k : string → option matched)
    (s : string) : option matched :=
  match s with
  | EmptyString => stop k s
  | String c s' =>
      if accepts c then
        match take c (repeat accepts k s') with
        | Some m => Some m
        | None => stop k s
        end
      else stop k s
  end.

(** [pattern.match(s)]: the pattern at the start of [s]. *)
Fixpoint match_here (pattern : list atom) (s : string) : option matched :=
  match pattern with
  | [] => Some ([], s)
  | a :: pattern' =>
      match quantifier a with
      | Star => repeat (accepts a) (match_here pattern') s
      | Plus =>
          match s with
          | String c s' =>
              if accepts a c
              then take c (repeat (accepts a) (match_here pattern') s')
              else None
          | EmptyString => None
          end
      | One =>
          match s with
          | String c s' =>
              if accepts a c
              then take c (stop (match_here pattern') s')
              else None
          | EmptyString => None
          end
      end
  end.

(** [pattern.search(s)]: the match at the first position that has one. *)
Fixpoint search (pattern : list atom) (s : string) : option matched :=
  match match_here pattern s with
  | Some m => Some m
  | None =>
      match s with
      | EmptyString => None
      | String _ s' => search pattern s'
      end
  end.

(** The text of some parts of a match, end to end. *)
Fixpoint text (parts : list string) : string :=
  match parts with
  | [] => EmptyString
  | part :: parts' => part +:+ text parts'
  end.

(** The number of characters a match took. *)
Definition taken (m : matched) : nat := String.length (text m.1).

(** [pattern.sub("", s)]: every match taken out, scanning from the left;
    [skip] counts the characters of the match at hand that are still to be
    left out. *)
Fixpoint sub_from (pattern : list atom) (skip : nat) (s : string) : string :=
  match s with
  | EmptyString => EmptyString
  | String c s' =>
      match skip with
      | S n => sub_from pattern n s'
      | O =>
          match match_here pattern s with
          | Some m =>
              match taken m with
              | S n => sub_from pattern n s'
              | O => String c (sub_from pattern 0 s')
              end
          | None => String c (sub_from pattern 0 s')
          end
      end
  end.

Definition sub (pattern : list atom) (s : string) : string :=
  sub_from pattern 0 s.

(** The group made of the atoms [from] to [from + count - 1]. *)
Definition group (from count : nat) (m : matched) : string :=
  text (firstn count (skipn from m.1)).

(** Every character of [s] is in the class. *)
Fixpoint all_chars (accepts : ascii → bool) (s : string) : bool :=
  match s with
  | EmptyString => true
  | String c s' => accepts c && all_chars accepts s'
  end.

(** The text [part] is one the atom [a] can take. *)
Definition part_ok (a : atom) (part : string) : Prop :=
  all_chars (accepts a) part = true
  ∧ match quantifier a with
    | One => String.length part = 1%nat
    | Plus => part ≠ EmptyString
    | Star => True
    end.

(** [m] splits [s] along the pattern: a part for each atom, and the rest. *)
Definition splits (pattern : list atom) (s : string) (m : matched) : Prop :=
  Forall2 part_ok pattern m.1 ∧ s = text m.1 +:+ m.2.

End Re.

(** ** [repo_health/utils.py]: the patterns, and the origin of a checkout *)

(** [r"github.com[/:]"]: the host of a github address, and what ends it. *)
Definition HOST : list Re.atom :=
  Re.lits "github" ++ [Re.Atom Re.dot Re.One] ++ Re.lits "com"
  ++ [Re.Atom (Re.one_of "/:") Re.One].

(** [r"github.com[/:](?P<org_name>[^/]+)/(?P<repo_name>[^/]+)"], the start
    of [GITHUB_URL_PATTERN] and of [URL_PATTERN]. *)
Definition ORG_AND_REPO : list Re.atom :=
  HOST
  ++ [Re.Atom (Re.none_of "/") Re.Plus;
      Re.lit "/";
      Re.Atom (Re.none_of "/") Re.Plus].

(** [r"github.com[/:](?P<org_name>[^/]+)/(?P<repo_name>[^/]+).*#egg="],
    the part of [GITHUB_URL_PATTERN] before the group [package]. *)
Definition BEFORE_PACKAGE : list Re.atom :=
  (ORG_AND_REPO ++ [Re.Atom Re.dot Re.Star]) ++ Re.lits "#egg=".

(** [r"github.com[/:](?P<org_name>[^/]+)/(?P<repo_name>[^/]+).*#egg=(?P<package>[^\/]+).*"] *)
Definition GITHUB_URL_PATTERN : list Re.atom :=
  BEFORE_PACKAGE
  ++ [Re.Atom (Re.none_of "/") Re.Plus;
      Re.Atom Re.dot Re.Star].

(** [r"(?P<package_name>[^\/]+)==(?P<version>[^\/]+)"] *)
Definition PYPI_PACKAGE_PATTERN : list Re.atom :=
  [Re.Atom (Re.none_of "/") Re.Plus; Re.lit "="; Re.lit "=";
   Re.Atom (Re.none_of "/") Re.Plus].

(** [r"github.com[/:](?P<org_name>[^/]+)/(?P<repo_name>[^/]+).git"] *)
Definition URL_PATTERN : list Re.atom :=
  ORG_AND_REPO ++ [Re.Atom Re.dot Re.One] ++ Re.lits "git".

(** [github_org_repo(git_origin_url)]: the groups [org_name] and
    [repo_name] of the match; [None] stands for the [AssertionError] raised
    when there is no match. *)
Definition github_org_repo (git_origin_url : string) : option (string * string) :=
  match Re.search URL_PATTERN git_origin_url with
  | Some m => Some (Re.group (length HOST) 1 m, Re.group (length HOST + 2) 1 m)
  | None => None
  end.

(** The text has no slash. *)
Definition no_slash (s : string) : bool := Re.all_chars (Re.none_of "/") s.

(** The text has no hash sign. *)
Definition no_hash (s : string) : bool := Re.all_chars (Re.none_of "#") s.

(** The origin of a checkout from github: what is [before] the host, the
    host, a slash or a colon, the organisation, a slash, the repository
    and [.git]. *)
Definition origin_url (before sep org repo : string) : string :=
  before +:+ "github.com" +:+ sep +:+ org +:+ "/" +:+ repo +:+ ".git".

(** ** [repo_health/utils.py]: the Django dependency reader *)

Module DjangoDependencyReader.

(** [r' +[;#].*'] *)
Definition COMMENT_PATTERN : list Re.atom :=
  [Re.Atom (Ascii.eqb " ") Re.Plus; Re.Atom (Re.one_of ";#") Re.One;
   Re.Atom Re.dot Re.Star].

(** [^[#-]]: without the multi-line flag, [^] is the start of the string. *)
Definition OPTION_PATTERN : list Re.atom := [Re.Atom (Re.one_of "#-") Re.One].

Definition _is_python_repo (repo : repository) : bool :=
  path_exists (requirements repo).

Definition strip_requirement (line : string) : option string :=
  if PyStr.truthy line
     && negb (bool_decide (is_Some (Re.match_here OPTION_PATTERN line)))
  then Some (PyStr.replace_dash_e (Re.sub COMMENT_PATTERN line))
  else None.

(** The group [package] is the atom after [BEFORE_PACKAGE]. *)
Definition extract_from_github_link (github_dep : string) : string * string :=
  match Re.search GITHUB_URL_PATTERN github_dep with
  | Some m => (Re.group (length BEFORE_PACKAGE) 1 m, EmptyString)
  | None => (EmptyString, EmptyString)
  end.

(** ["".join(s.split())]: [s] without its white space. *)
Fixpoint join_split (s : string) : string :=
  match s with
  | EmptyString => EmptyString
  | String c s' =>
      if Wording.is_space c then join_split s' else String c (join_split s')
  end.

Definition extract_from_pypi_package (pypi_dependency : string)
  : string * string :=
  let pypi_dependency := join_split pypi_dependency in
  match Re.match_here PYPI_PACKAGE_PATTERN pypi_dependency with
  | Some m => (Re.group 0 1 m, Re.group 3 1 m)
  | None => (EmptyString, EmptyString)
  end.

(** The body of the loop over the lines of a file. *)
Definition read_line (dependencies : pydict string) (line : string)
  : pydict string :=
  match strip_requirement line with
  | Some (String _ _ as stripped_line) =>
      let '(name, version) :=
        if PyStr.contains stripped_line "git+http"
        then extract_from_github_link stripped_line
        else extract_from_pypi_package stripped_line in
      PyDict.set name version dependencies
  | _ => dependencies
  end.

Definition _read_dependencies (repo : repository) (dependencies : pydict string)
  : pydict string :=
  let requirement_files :=
    List.filter (λ file, negb (PyStr.contains file "constraints"))
      (default [] (requirements repo)) in
  fold_left
    (λ dependencies file_path,
       fold_left read_line (get_file_lines repo file_path) dependencies)
    requirement_files dependencies.

(** [read] on a reader just made: [self.dependencies] is empty. *)
Definition read (repo : repository) : pydict string :=
  if negb (_is_python_repo repo) then [] else _read_dependencies repo [].

(** A name or a version as the pypi pattern can tell it: not empty, and
    without slash and equals sign. *)
Definition plain (s : string) : bool :=
  PyStr.truthy s && Re.all_chars (Re.none_of "/=") s.

(** A github link: what is [before] the host, the host, a slash or a colon,
    the organisation, a slash, the [rest] of the address, and the package
    after [#egg=]. *)
Definition github_link (before sep org rest package : string) : string :=
  before +:+ "github.com" +:+ sep +:+ org +:+ "/" +:+ rest
  +:+ "#egg=" +:+ package.

(** The address after the organisation: a repository name and what follows
    it, on one line. *)
Definition address_rest (rest : string) : bool :=
  match rest with
  | EmptyString => false
  | String c rest' => Re.none_of "/" c && Re.all_chars Re.dot rest'
  end.

(** What the extractors can return: a name and a version without slash,
    and no version without a name. *)
Definition entry_ok (entry : string * string) : Prop :=
  no_slash entry.1 = true ∧ no_slash entry.2 = true
  ∧ (entry.1 = EmptyString → entry.2 = EmptyString).

(** The line is one [strip_requirement] drops: empty, a comment, or an
    option such as [-r], [-c] and [-e]. *)
Definition dropped (line : string) : bool :=
  negb (PyStr.truthy line) || PyStr.startswith line "#"
  || PyStr.startswith line "-".

End DjangoDependencyReader.

(** ** [setup.py]: the requirements of the package *)

Module Setup.

(** [s.lstrip()] *)
Fixpoint lstrip (s : string) : string :=
  match s with
  | EmptyString => EmptyString
  | String c s' => if Wording.is_space c then lstrip s' else s
  end.

(** [s.rstrip()] *)
Fixpoint rstrip (s : string) : string :=
  match s with
  | EmptyString => EmptyString
  | String c s' =>
      match rstrip s' with
      | EmptyString => if Wording.is_space c then EmptyString else String c EmptyString
      | stripped => String c stripped
      end
  end.

(** [s.strip()] *)
Definition strip (s : string) : string := lstrip (rstrip s).

(** [s.split("#")[0]]: [s] up to its first hash sign. *)
Fixpoint split_hash_0 (s : string) : string :=
  match s with
  | EmptyString => EmptyString
  | String c s' => if Ascii.eqb c "#" then EmptyString else String c (split_hash_0 s')
  end.

(** [s.startswith(ps)] for a tuple [ps] of prefixes. *)
Definition startswith_any (s : string) (ps : list string) : bool :=
  existsb (PyStr.startswith s) ps.

(** [is_requirement(line)], as a truth value: the function returns [line]
    itself when it is empty. *)
Definition is_requirement (line : string) : bool :=
  PyStr.truthy line
  && negb (startswith_any line ["-r"; "#"; "-e"; "git+"; "-c"]).

(** [open(path, encoding="utf8").readlines()], in a file system that holds
    the lines of its text files by path. *)
Definition readlines {W} (files : gmap string (list string)) (path : string)
  : Eff W (list string) :=
  match files !! path with
  | None => raise FileNotFoundError
  | Some lines => mret lines
  end.

(** The generator handed to [requirements.update]. *)
Definition requirements_of (lines : list string) : list string :=
  (λ line, strip (split_hash_0 line))
    <$> List.filter (λ line, is_requirement (strip line)) lines.

(** [load_requirements] with the paths [requirements_paths]; the set
    [requirements] is the set of the elements of the list the loop builds. *)
Definition load_requirements (files : gmap string (list string))
    (requirements_paths : list string) : Eff string (list string) :=
  requirements ←
    for_each requirements_paths
      (λ requirements path,
         lines ← readlines files path;
         mret (requirements ++ requirements_of lines))
      [];
  mret (list_of_set requirements).

(** No white space at either end. *)
Definition stripped (s : string) : Prop := strip s = s.

End Setup.

(** ** Example repositories and inputs *)

Definition two_base_files : repository :=
  {| repo_path := "/r";
     requirements := Some ["/r/requirements/dev.txt";
                           "/r/requirements/base.txt";
                           "/r/requirements/docs/base.txt"];
     text_lines := {[ "/r/requirements/dev.txt" := ["pytest==6.2.4"];
                      "/r/requirements/base.txt" := ["django==2.2.20"];
                      "/r/requirements/docs/base.txt" := ["sphinx==3.5.4"] ]};
     package_json := None;
     package_lock := None |}.

Definition only_database_txt : repository :=
  {| repo_path := "/r";
     requirements := Some ["/r/requirements/database.txt"];
     text_lines := {[ "/r/requirements/database.txt" := ["psycopg2==2.8.6"] ]};
     package_json := None;
     package_lock := None |}.

Definition credentials_themes : string :=
  "git+https://github.com/edx/credentials-themes.git@0.1.62#egg=edx_credentials_themes==0.1.62".

Definition shared_github_line : repository :=
  {| repo_path := "/r";
     requirements := Some ["/r/requirements/base.txt";
                           "/r/requirements/production.txt"];
     text_lines := {[ "/r/requirements/base.txt" :=
                        ["django==2.2.20"; credentials_themes];
                      "/r/requirements/production.txt" :=
                        ["gunicorn==20.1.0"; credentials_themes] ]};
     package_json := None;
     package_lock := None |}.

(** A comment indented with a tab. *)
Definition tab_comment : string := String Wording.tab "# was==1.0".

Definition with_tab_comment : repository :=
  {| repo_path := "/r";
     requirements := Some ["/r/requirements/base.txt"];
     text_lines := {[ "/r/requirements/base.txt" :=
                        ["django==2.2.20"; tab_comment] ]};
     package_json := None;
     package_lock := None |}.

(** A manifest with two dependencies and a lockfile that lists one
    package. *)
Definition short_lockfile : repository :=
  {| repo_path := "/r";
     requirements := None;
     text_lines := ∅;
     package_json :=
       Some (Json.Valid
               {| pj_dependencies :=
                    Some [("react", VStr "^16.9.0"); ("redux", VStr "^4.0.4")];
                  pj_devDependencies := Some [("jest", VStr "^24.9.0")] |});
     package_lock :=
       Some (Json.Valid
               {| pl_dependencies :=
                    Some [("react", [("version", VStr "16.9.0");
                                     ("dev", VBool false)])] |}) |}.

(** A manifest without a lockfile. *)
Definition manifest_only : repository :=
  {| repo_path := "/r";
     requirements := None;
     text_lines := ∅;
     package_json :=
       Some (Json.Valid
               {| pj_dependencies := Some [("react", VStr "^16.9.0")];
                  pj_devDependencies := None |});
     package_lock := None |}.

(** Neither [requirements/] nor [package.json]. *)
Definition bare_repository : repository :=
  {| repo_path := "/r";
     requirements := None;
     text_lines := ∅;
     package_json := None;
     package_lock := None |}.

(** Three levels of nesting. *)
Definition three_levels : pydict value :=
  [("a", VDict [("b", VDict [("c", VInt 1)])])].

(** The example of the docstring of [squash_dict]. *)
Definition docstring_input : pydict value :=
  [("a", VDict [("b", VStr "1");
                ("c", VDict [("d", VStr "2")]);
                ("f", VList [VInt 1; VInt 2; VInt 3])]);
   ("e", VInt 2)].

(** Two repositories, with the keys [a], [b] and [a], [c]. *)
Definition two_repositories : pydict (pydict value) :=
  [("first", [("a", VInt 1); ("b", VInt 2)]);
   ("second", [("a", VInt 3); ("c", VInt 4)])].


(** A configuration whose [check_order] names a key no repository has. *)
Definition unknown_check : configuration :=
  {| check_order := ["c"; "owner"]; key_aliases := [("a", "Alpha")] |}.

Definition known_checks : configuration :=
  {| check_order := ["c"]; key_aliases := [("a", "Alpha")] |}.

(** A mapping of one level, with a list among its values. *)
Definition flat_result : pydict value :=
  [("a.b", VStr "1"); ("a.f", VList [VInt 1; VInt 2]); ("e", VNone)].

(** A nested branch and a literal key that flatten to the same key. *)
Definition colliding : pydict value :=
  [("a", VDict [("b", VInt 1)]); ("a.b", VInt 2); ("c", VInt 3)].

(** Two repositories with nested results. *)
Definition nested_repositories : pydict (pydict value) :=
  [("first", [("readme", VDict [("security", VBool true)]);
              ("dependencies", VDict [("count", VInt 3)])]);
   ("second", [("dependencies", VDict [("count", VInt 0)])])].


(** Requirement files and a manifest with a lockfile. *)
Definition python_js_repository : repository :=
  {| repo_path := "/r";
     requirements := Some ["/r/requirements/base.txt";
                           "/r/requirements/constraints.txt"];
     text_lines := {[ "/r/requirements/base.txt" :=
                        ["django==2.2.20"; editable credentials_themes;
                         "-r other.txt"];
                      "/r/requirements/constraints.txt" := ["celery==4.4.7"] ]};
     package_json :=
       Some (Json.Valid
               {| pj_dependencies := Some [("react", VStr "^16.9.0")];
                  pj_devDependencies := Some [("jest", VStr "^24.9.0")] |});
     package_lock :=
       Some (Json.Valid
               {| pl_dependencies :=
                    Some [("react", [("version", VStr "16.9.0")]);
                          ("scheduler", [("version", VStr "0.15.0")])] |}) |}.

(** A file system with a requirements file as [setup.py] reads it. *)
Definition base_in : gmap string (list string) :=
  {[ "requirements/base.in" :=
       [ "# Core requirements" +:+ String Wording.line_feed EmptyString;
         "-c constraints.txt" +:+ String Wording.line_feed EmptyString;
         String Wording.line_feed EmptyString;
         "  click>=7.0  # command line" +:+ String Wording.line_feed EmptyString;
         "pyyaml" +:+ String Wording.line_feed EmptyString;
         "click>=7.0" ] ]}.

(** * Properties *)

(** ** Strings *)

Section string_facts.

Lemma mem_elem_of (x : string) (xs : list string) :
  PyStr.mem x xs = true ↔ x ∈ xs.
Proof.
  unfold PyStr.mem. rewrite existsb_exists. split.
  - intros (y & Hy & Heq). apply String.eqb_eq in Heq. subst.
    by apply list_elem_of_In.
  - intros Hx. exists x. split; [by apply list_elem_of_In|apply String.eqb_refl].
Qed.

Lemma mem_false_not_elem_of (x : string) (xs : list string) :
  PyStr.mem x xs = false ↔ x ∉ xs.
Proof.
  rewrite <- mem_elem_of. destruct (PyStr.mem x xs); split; congruence.
Qed.

Lemma startswith_empty (s : string) : PyStr.startswith s EmptyString = true.
Proof. by destruct s. Qed.

(** Two prefixes of one string are prefixes of one another. *)
Lemma startswith_chain (s a b : string) :
  PyStr.startswith s a = true → PyStr.startswith s b = true →
  PyStr.startswith a b = true ∨ PyStr.startswith b a = true.
Proof.
  revert a b. induction s as [|c s IH]; intros [|x a] [|y b]; simpl; auto;
    try discriminate.
  intros [Hx Ha]%andb_prop [Hy Hb]%andb_prop.
  apply Ascii.eqb_eq in Hx, Hy. subst x y.
  rewrite Ascii.eqb_refl. simpl. auto.
Qed.

Lemma endswith_chain (s a b : string) :
  PyStr.endswith s a = true → PyStr.endswith s b = true →
  PyStr.endswith a b = true ∨ PyStr.endswith b a = true.
Proof. unfold PyStr.endswith. apply startswith_chain. Qed.

(** No path ends with a production name and with a constraint name. *)
Lemma production_name_not_constraint (file name : string) :
  name ∈ PythonDependencyReader.priority_list →
  PyStr.endswith file name = true →
  PyStr.endswith_any file PythonDependencyReader.constraints_files = false.
Proof.
  intros Hname Hend.
  destruct (PyStr.endswith_any file PythonDependencyReader.constraints_files)
    eqn:Hany; [|done].
  exfalso. unfold PyStr.endswith_any in Hany.
  apply existsb_exists in Hany as (c & Hc%list_elem_of_In & Hcend).
  destruct (endswith_chain _ _ _ Hend Hcend) as [H|H]; revert H;
    unfold PythonDependencyReader.priority_list,
      PythonDependencyReader.constraints_files in *;
    set_unfold; destruct_or!; subst; by vm_compute.
Qed.

End string_facts.

(** ** Effects *)

Section effects.
Context {W : Type}.

Lemma bind_ok {A B} (out : list W) (a : A) (f : A → Eff W B) :
  ((out, Ok a) : Eff W A) ≫= f = (out ++ (f a).1, (f a).2).
Proof.
  unfold mbind, eff_mbind, eff_bind. by destruct (f a).
Qed.

Lemma bind_ret {A B} (a : A) (f : A → Eff W B) : mret a ≫= f = f a.
Proof.
  unfold mret, eff_mret, eff_ret. rewrite bind_ok. by destruct (f a).
Qed.

Lemma bind_raise {A B} (out : list W) (e : exn) (f : A → Eff W B) :
  ((out, Raise e) : Eff W A) ≫= f = (out, Raise e).
Proof. reflexivity. Qed.

Lemma for_each_cons {A S} (x : A) (xs : list A) (body : S → A → Eff W S) acc :
  for_each (x :: xs) body acc = body acc x ≫= for_each xs body.
Proof. reflexivity. Qed.

End effects.

(** ** The Python reader *)

Section python_reader.
Import PythonDependencyReader PyLocals.

Implicit Types (repo : repository) (line : string) (lines : list string).

Lemma cleanup_lines_github lines : github (cleanup_lines lines) = github_of lines.
Proof. reflexivity. Qed.

(** In the membership test against github lines, a stripped line of the
    file at hand is found exactly when it is a github line itself. *)
Lemma pinned_filter (seen stripped : list string) :
  Forall (λ l, PyStr.re_match_git l = true) seen →
  List.filter
    (λ line, negb (PyStr.mem line (seen ++ List.filter PyStr.re_match_git stripped))
             && PyStr.contains line "==") stripped
  = List.filter is_pinned stripped.
Proof.
  intros Hseen. apply List.filter_ext_in. intros line Hin. unfold is_pinned.
  f_equal. f_equal.
  destruct (PyStr.re_match_git line) eqn:Hgit.
  - apply mem_elem_of, elem_of_app. right.
    apply list_elem_of_In, List.filter_In. auto.
  - apply mem_false_not_elem_of. intros [Hl|Hr]%elem_of_app.
    + rewrite Forall_forall in Hseen. specialize (Hseen _ Hl). congruence.
    + apply list_elem_of_In, List.filter_In in Hr as [_ Hr]. congruence.
Qed.

Lemma cleanup_lines_pypi lines : pypi (cleanup_lines lines) = pypi_of lines.
Proof. apply (pinned_filter [] (strip_lines lines)). constructor. Qed.

Lemma filter_git_Forall (xs : list string) :
  Forall (λ l, PyStr.re_match_git l = true) (List.filter PyStr.re_match_git xs).
Proof.
  apply Forall_forall. intros x Hx%list_elem_of_In.
  by apply List.filter_In in Hx as [_ ?].
Qed.

(** The first loop: each file adds its github lines and its pinned lines. *)
Lemma scan_file_fold repo (fs gh py : list string) :
  Forall (λ l, PyStr.re_match_git l = true) gh →
  fold_left (scan_file repo) fs (gh, py)
  = (gh ++ flat_map (λ f, github_of (get_file_lines repo f)) fs,
     py ++ flat_map (λ f, pypi_of (get_file_lines repo f)) fs).
Proof.
  revert gh py. induction fs as [|f fs IH]; intros gh py Hgh; simpl.
  - by rewrite !app_nil_r.
  - rewrite pinned_filter by done. rewrite IH.
    + by rewrite <- !app_assoc.
    + apply Forall_app. split; [done|apply filter_git_Forall].
Qed.

Lemma scanned_eq repo :
  scanned repo
  = (flat_map (λ f, github_of (get_file_lines repo f)) (candidate_files repo),
     flat_map (λ f, pypi_of (get_file_lines repo f)) (candidate_files repo)).
Proof. unfold scanned. by rewrite scan_file_fold. Qed.

(** The second loop: each production file adds its pinned lines. *)
Lemma scan_production_fold repo (fs acc : list string) :
  fold_left (scan_production repo) fs acc
  = acc ++ flat_map (λ f, pypi_of (get_file_lines repo f)) fs.
Proof.
  revert acc. induction fs as [|f fs IH]; intros acc; simpl.
  - by rewrite app_nil_r.
  - rewrite IH. unfold scan_production at 1. rewrite cleanup_lines_pypi.
    by rewrite <- app_assoc.
Qed.

Lemma production_packages_eq repo :
  production_packages repo
  = flat_map (λ f, pypi_of (get_file_lines repo f)) (production_files repo).
Proof. unfold production_packages. by rewrite scan_production_fold. Qed.

(** The method, in terms of its locals. *)
Lemma read_dependencies_eq repo :
  _read_dependencies repo
  = (logged repo,
     Ok [ ("github", group (len_set (list_of_set (scanned repo).1))
                       (dumps_strings (scanned repo).1));
          ("pypi_all", group (len_set (list_of_set (scanned repo).2))
                         (dumps_strings (list_of_set (scanned repo).2)));
          ("pypi", group (len_set (list_of_set (production_packages repo)))
                     (dumps_strings (list_of_set (production_packages repo))));
          ("count", VInt (len_set (list_of_set (scanned repo).2)
                          + len_set (list_of_set (scanned repo).1))) ]).
Proof.
  unfold _read_dependencies.
  change (default [] (requirements repo)) with (files repo).
  change (List.filter _ (files repo)) with (candidate_files repo).
  change (select_files _ _ _) with (production_files repo).
  change (fold_left (scan_file repo) _ _) with (scanned repo).
  unfold logged, production_packages.
  destruct (scanned repo) as [gh py]. by destruct (production_files repo).
Qed.

Lemma list_of_set_NoDup (xs : list string) : NoDup (list_of_set xs).
Proof. unfold list_of_set. apply NoDup_elements. Qed.

Lemma elem_of_list_of_set (x : string) (xs : list string) :
  x ∈ list_of_set xs ↔ x ∈ xs.
Proof. unfold list_of_set. rewrite elem_of_elements. set_solver. Qed.

Lemma list_to_set_list_of_set (xs : list string) :
  list_to_set (list_of_set xs) = (list_to_set xs : gset string).
Proof. apply set_eq. intros x. rewrite !elem_of_list_to_set. apply elem_of_list_of_set. Qed.

(** [len(set(list(set(xs))))] is [len(set(xs))], the length of
    [list(set(xs))]. *)
Lemma len_set_list_of_set (xs : list string) :
  len_set (list_of_set xs) = len_set xs.
Proof. unfold len_set. by rewrite list_to_set_list_of_set. Qed.

Lemma len_set_mono (xs ys : list string) :
  xs ⊆ ys → len_set xs ≤ len_set ys.
Proof.
  intros Hsub. unfold len_set. apply inj_le, subseteq_size.
  intros x. rewrite !elem_of_list_to_set. apply Hsub.
Qed.

End python_reader.

(** ** The production files *)

Section production_files.
Import PythonDependencyReader PyLocals.

Implicit Types (repo : repository) (fs names : list string).

Lemma select_files_first fs (before : list string) name after init :
  (∀ n, n ∈ before → matching fs n = []) →
  matching fs name ≠ [] →
  select_files fs (before ++ name :: after) init = matching fs name.
Proof.
  intros Hbefore Hname. revert init.
  induction before as [|b before IH]; intros init; simpl.
  - fold (matching fs name). by destruct (matching fs name).
  - fold (matching fs b). rewrite (Hbefore b) by left.
    apply IH. intros n Hn. apply Hbefore. by right.
Qed.

Lemma select_files_none fs names init :
  names ≠ [] →
  (∀ n, n ∈ names → matching fs n = []) →
  select_files fs names init = [].
Proof.
  revert init. induction names as [|n names IH]; intros init Hne Hall; [done|].
  simpl. fold (matching fs n). rewrite (Hall n) by left.
  destruct names as [|n' names]; [done|].
  apply IH; [done|]. intros m Hm. apply Hall. by right.
Qed.

Lemma select_files_cases fs names init :
  names ≠ [] →
  select_files fs names init = []
  ∨ ∃ n, n ∈ names ∧ select_files fs names init = matching fs n.
Proof.
  revert init. induction names as [|n names IH]; intros init Hne; [done|].
  simpl. fold (matching fs n). destruct (matching fs n) as [|f found] eqn:Hm.
  - destruct names as [|n' names]; [by left|].
    destruct (IH [] ltac:(done)) as [H|(m & Hm' & H)]; [by left|].
    right. exists m. split; [by right|done].
  - right. exists n. split; [by left|]. by rewrite Hm.
Qed.

(** Every production file is one of the candidate files of the first loop. *)
Lemma production_files_candidates repo :
  production_files repo ⊆ candidate_files repo.
Proof.
  unfold production_files.
  destruct (select_files_cases (files repo) priority_list (candidate_files repo))
    as [->|(n & Hn & ->)]; [done|set_solver|].
  intros f Hf. unfold matching in Hf.
  apply list_elem_of_In, List.filter_In in Hf as [Hf Hend].
  apply list_elem_of_In, List.filter_In. split; [done|].
  by rewrite (production_name_not_constraint f n).
Qed.

Lemma read_with_requirements repo fs :
  requirements repo = Some fs → read repo = _read_dependencies repo.
Proof. intros H. unfold read, _is_python_repo. by rewrite H. Qed.

(** C2, as the code has it.  For a repository with a [requirements/]
    directory, the production files are all files whose path ends with the
    first of [production.txt], [base.txt], [development.txt], [dev.txt] that
    some path ends with; the read succeeds and its [pypi] group is made of
    the pinned lines of these files; and when no path ends with any of the
    names, the error is logged and the [pypi] group is empty. *)
Theorem production_files_by_suffix repo fs :
  requirements repo = Some fs →
  (∀ before name after,
     priority_list = before ++ name :: after →
     (∀ n, n ∈ before → matching fs n = []) →
     matching fs name ≠ [] →
     production_files repo = matching fs name)
  ∧ (∃ out,
       read repo = (logged repo, Ok out)
       ∧ PyDict.get "pypi" out
         = Some (group (len_set (production_packages repo))
                   (dumps_strings (list_of_set (production_packages repo))))
       ∧ production_packages repo
         = flat_map (λ f, pypi (cleanup_lines (get_file_lines repo f)))
             (production_files repo))
  ∧ ((∀ n, n ∈ priority_list → matching fs n = []) →
     production_files repo = []
     ∧ ∃ out,
         read repo = ([no_production_message repo], Ok out)
         ∧ PyDict.get "pypi" out = Some (group 0 (dumps_strings []))).
Proof.
  intros Hreq.
  assert (Hfiles : files repo = fs) by (unfold files; by rewrite Hreq).
  split; [|split].
  - intros before name after Hsplit Hbefore Hname.
    unfold production_files. rewrite Hfiles, Hsplit.
    by apply select_files_first.
  - eexists. rewrite (read_with_requirements _ _ Hreq), read_dependencies_eq.
    split; [reflexivity|]. split.
    + simpl. by rewrite len_set_list_of_set.
    + rewrite production_packages_eq. apply flat_map_ext. intros f.
      by rewrite cleanup_lines_pypi.
  - intros Hnone.
    assert (Hprod : production_files repo = []).
    { unfold production_files. rewrite Hfiles. by apply select_files_none. }
    split; [done|]. eexists.
    rewrite (read_with_requirements _ _ Hreq), read_dependencies_eq.
    unfold logged, production_packages. rewrite Hprod. simpl.
    split; reflexivity.
Qed.

Lemma production_files_by_suffix_witness :
  production_files two_base_files
  = ["/r/requirements/base.txt"; "/r/requirements/docs/base.txt"].
Proof.
  destruct (production_files_by_suffix two_base_files _ eq_refl) as (Hfirst & _).
  rewrite (Hfirst ["production.txt"] "base.txt" ["development.txt"; "dev.txt"]).
  - reflexivity.
  - reflexivity.
  - intros n Hn. apply list_elem_of_singleton in Hn. subst n. reflexivity.
  - discriminate.
Defined.

(** C2, as the specification words it, fails: [database.txt] is not named
    [base.txt], yet it is read as the production file, no error is logged
    and its pinned line is counted. *)
Lemma database_txt_read_as_base_txt :
  ¬ Wording.production_by_exact_name only_database_txt.
Proof.
  intros [Hfiles _]. vm_compute in Hfiles. discriminate.
Qed.

End production_files.

(** ** Counts and lists of the Python reader *)

Section python_counts.
Import PythonDependencyReader PyLocals.

Implicit Types (repo : repository).

Lemma production_packages_scanned repo :
  production_packages repo ⊆ (scanned repo).2.
Proof.
  rewrite production_packages_eq, scanned_eq. simpl.
  intros line Hline. apply list_elem_of_In, in_flat_map in Hline as (f & Hf & Hline).
  apply list_elem_of_In, in_flat_map. exists f. split; [|done].
  apply list_elem_of_In, production_files_candidates. by apply list_elem_of_In.
Qed.

(** C3.  For a repository with a [requirements/] directory the read
    succeeds, [pypi.count] and [pypi_all.count] are the numbers of distinct
    production lines and of distinct pinned lines, every production line is
    among the pinned lines, and so [pypi.count <= pypi_all.count]. *)
Theorem pypi_count_le_pypi_all repo fs :
  requirements repo = Some fs →
  ∃ log out,
    read repo = (log, Ok out)
    ∧ group_count "pypi" out = Some (len_set (production_packages repo))
    ∧ group_count "pypi_all" out = Some (len_set (scanned repo).2)
    ∧ production_packages repo ⊆ (scanned repo).2
    ∧ len_set (production_packages repo) ≤ len_set (scanned repo).2.
Proof.
  intros Hreq. eexists _, _.
  rewrite (read_with_requirements _ _ Hreq), read_dependencies_eq.
  split; [reflexivity|].
  unfold group_count. simpl. rewrite !len_set_list_of_set.
  repeat split; auto using production_packages_scanned, len_set_mono.
Qed.

Lemma pypi_count_le_pypi_all_witness :
  ∃ log out,
    read shared_github_line = (log, Ok out)
    ∧ group_count "pypi" out = Some 1
    ∧ group_count "pypi_all" out = Some 2.
Proof.
  destruct (pypi_count_le_pypi_all shared_github_line _ eq_refl)
    as (log & out & Hread & Hpypi & Hall & _).
  exists log, out. split; [done|]. split.
  - rewrite Hpypi. by vm_compute.
  - rewrite Hall. by vm_compute.
Defined.

(** The two pypi groups hold what the first sentence of the data model
    asks for: a list without duplicates, and its length as the count. *)
Lemma pypi_groups_deduplicated repo fs :
  requirements repo = Some fs →
  ∃ log out all prod,
    read repo = (log, Ok out)
    ∧ PyDict.get "pypi_all" out
      = Some (group (Z.of_nat (length all)) (dumps_strings all))
    ∧ PyDict.get "pypi" out
      = Some (group (Z.of_nat (length prod)) (dumps_strings prod))
    ∧ NoDup all ∧ NoDup prod.
Proof.
  intros Hreq.
  eexists (logged repo), _, (list_of_set (scanned repo).2),
    (list_of_set (production_packages repo)).
  rewrite (read_with_requirements _ _ Hreq), read_dependencies_eq.
  split; [reflexivity|]. simpl. rewrite !len_set_list_of_set.
  repeat split; auto using list_of_set_NoDup.
Qed.

(** The github group counts the distinct lines of its list, and its list is
    the accumulated one, not the deduplicated one. *)
Lemma github_group_raw repo fs :
  requirements repo = Some fs →
  ∃ log out,
    read repo = (log, Ok out)
    ∧ PyDict.get "github" out
      = Some (group (len_set (scanned repo).1) (dumps_strings (scanned repo).1))
    ∧ (scanned repo).1
      = flat_map (λ f, github (cleanup_lines (get_file_lines repo f)))
          (candidate_files repo).
Proof.
  intros Hreq. eexists _, _.
  rewrite (read_with_requirements _ _ Hreq), read_dependencies_eq.
  split; [reflexivity|]. simpl. rewrite len_set_list_of_set.
  split; [done|]. by rewrite scanned_eq.
Qed.

(** C1 at a repository whose two requirement files share a github line:
    the [github] group counts one identifier and lists it twice (the pypi
    groups next to it list each identifier once, see
    [pypi_groups_deduplicated]). *)
Theorem github_list_keeps_duplicates :
  ∃ out,
    read shared_github_line = ([], Ok out)
    ∧ PyDict.get "github" out
      = Some (group 1 (dumps_strings [credentials_themes; credentials_themes]))
    ∧ ¬ NoDup [credentials_themes; credentials_themes].
Proof.
  eexists. split; [by vm_compute|]. split; [by vm_compute|].
  intros Hnd. apply NoDup_cons in Hnd as [Hnotin _]. apply Hnotin. by left.
Qed.

End python_counts.

(** ** Comment lines and blank lines *)

Section comment_lines.
Import PythonDependencyReader PyLocals.

Implicit Types (repo : repository) (line s : string) (c : ascii).

Lemma replace_dash_e_cons c s :
  c ≠ "-"%char →
  PyStr.replace_dash_e (String c s) = String c (PyStr.replace_dash_e s).
Proof. destruct c as [[] [] [] [] [] [] [] []]; done. Qed.

Lemma is_space_not_dash c : Wording.is_space c = true → c ≠ "-"%char.
Proof. intros H ->. discriminate. Qed.

Lemma is_space_not_hash c : Wording.is_space c = true → Ascii.eqb c "#" = false.
Proof. intros H. destruct (Ascii.eqb_spec c "#"); [subst; discriminate|done]. Qed.

Lemma blank_replace_dash_e s :
  Wording.blank s = true → Wording.blank (PyStr.replace_dash_e s) = true.
Proof.
  induction s as [|c s IH]; [done|].
  intros H. simpl in H. apply andb_prop in H as [Hc Hs].
  rewrite replace_dash_e_cons by by apply is_space_not_dash.
  simpl. by rewrite Hc, IH.
Qed.

(** The spaces-then-[#] lookahead sees a [#]: not on a blank string. *)
Lemma blank_no_hash s :
  Wording.blank s = true → PyStr.spaces_then_hash s = false.
Proof.
  induction s as [|c s IH]; [done|].
  intros H. simpl in H. apply andb_prop in H as [Hc Hs]. specialize (IH Hs).
  destruct c as [[] [] [] [] [] [] [] []]; done.
Qed.

Lemma blank_re_sub_comment s :
  Wording.blank s = true → PyStr.re_sub_comment s = s.
Proof.
  unfold PyStr.re_sub_comment. induction s as [|c s IH]; [done|].
  intros H. simpl in H. apply andb_prop in H as [Hc Hs].
  cbn [PyStr.re_sub_comment_from].
  rewrite (blank_no_hash s Hs), andb_false_r. by rewrite IH.
Qed.

Lemma blank_not_git s : Wording.blank s = true → PyStr.re_match_git s = false.
Proof.
  destruct s as [|c s]; [done|]. intros H. simpl in H.
  apply andb_prop in H as [Hc _].
  unfold PyStr.re_match_git. cbn [PyStr.startswith].
  destruct (Ascii.eqb_spec "g" c); [subst; discriminate|done].
Qed.

Lemma blank_no_pin s : Wording.blank s = true → PyStr.contains s "==" = false.
Proof.
  induction s as [|c s IH]; [done|].
  intros H. simpl in H. apply andb_prop in H as [Hc Hs].
  cbn [PyStr.contains PyStr.startswith]. rewrite (IH Hs), orb_false_r.
  destruct (Ascii.eqb_spec "=" c); [subst; discriminate|done].
Qed.

(** Inside a match, [.*] eats the rest of a line that holds no line feed. *)
Lemma re_sub_comment_skips s :
  single_line s = true → PyStr.re_sub_comment_from true s = EmptyString.
Proof.
  unfold single_line. induction s as [|c s IH]; [done|].
  cbn [PyStr.contains PyStr.startswith PyStr.re_sub_comment_from].
  rewrite !negb_true_iff. intros [Hc Hs]%orb_false_elim.
  rewrite startswith_empty, andb_true_r, Ascii.eqb_sym in Hc.
  change (Ascii.eqb c "010" = false) in Hc. rewrite Hc.
  apply IH. by rewrite Hs.
Qed.

Lemma single_line_tail c s : single_line (String c s) = true → single_line s = true.
Proof.
  unfold single_line. cbn [PyStr.contains]. rewrite !negb_true_iff.
  by intros [_ Hs]%orb_false_elim.
Qed.

(** What a line the code ignores leaves behind: nothing, or one stripped
    line that is neither a github line nor pinned. *)
Lemma strip_ignored line :
  single_line line = true → ignored line = true →
  List.filter PyStr.re_match_git (strip_lines [line]) = []
  ∧ List.filter is_pinned (strip_lines [line]) = [].
Proof.
  intros Hsingle [Hblank|Hhash]%orb_prop.
  - unfold strip_lines. simpl.
    destruct (PyStr.truthy line && negb (PyStr.startswith line "#")); [|done].
    simpl. unfold is_pinned.
    rewrite (blank_re_sub_comment _ Hblank).
    by rewrite (blank_not_git _ (blank_replace_dash_e _ Hblank)),
      (blank_no_pin _ (blank_replace_dash_e _ Hblank)).
  - unfold strip_lines. destruct line as [|c s]; [done|].
    cbn [List.filter PyStr.truthy PyStr.startswith andb].
    rewrite startswith_empty, andb_true_r.
    destruct (Ascii.eqb_spec "#" c) as [<-|Hc]; [done|].
    cbn [negb map List.filter].
    assert (c = " "%char ∧ PyStr.spaces_then_hash s = true) as [-> Hs].
    { simpl in Hhash. destruct c as [[] [] [] [] [] [] [] []]; done. }
    unfold PyStr.re_sub_comment. cbn [PyStr.re_sub_comment_from].
    rewrite Hs. cbn [Ascii.eqb Bool.eqb andb].
    by rewrite (re_sub_comment_skips s (single_line_tail _ _ Hsingle)).
Qed.

Lemma strip_lines_app (xs ys : list string) :
  strip_lines (xs ++ ys) = strip_lines xs ++ strip_lines ys.
Proof. unfold strip_lines. by rewrite List.filter_app, map_app. Qed.

Lemma ignored_excluded line :
  single_line line = true → ignored line = true → Wording.excluded line.
Proof.
  intros Hsingle Hign before after.
  destruct (strip_ignored line Hsingle Hign) as [Hgit Hpin].
  unfold github_of, pypi_of.
  change (line :: after) with ([line] ++ after).
  rewrite !strip_lines_app, !List.filter_app, Hgit, Hpin. done.
Qed.

Lemma get_file_lines_with_lines repo path lines f :
  get_file_lines (with_lines repo path lines) f
  = if decide (path = f) then lines else get_file_lines repo f.
Proof.
  unfold get_file_lines, with_lines. simpl. rewrite lookup_insert.
  by case_decide.
Qed.

(** The read depends on the files only through their github and pinned
    lines. *)
Lemma read_congruence repo1 repo2 :
  repo_path repo1 = repo_path repo2 →
  requirements repo1 = requirements repo2 →
  (∀ f, github_of (get_file_lines repo1 f) = github_of (get_file_lines repo2 f)) →
  (∀ f, pypi_of (get_file_lines repo1 f) = pypi_of (get_file_lines repo2 f)) →
  read repo1 = read repo2.
Proof.
  intros Hpath Hreq Hgit Hpin.
  unfold read, _is_python_repo. rewrite Hreq.
  destruct (negb (path_exists (requirements repo2))); [done|].
  rewrite !read_dependencies_eq, !production_packages_eq, !scanned_eq.
  unfold logged, production_files, candidate_files, files, no_production_message.
  rewrite Hreq, Hpath.
  rewrite (flat_map_ext _ _ Hgit).
  by rewrite !(flat_map_ext _ _ Hpin).
Qed.

(** C4, as the code has it.  A line of a file that is blank, or in which
    zero or more spaces are followed by [#], contributes no identifier: the
    github and pinned lines of the file are what they are without the line,
    and so is all the Python reader returns. *)
Theorem ignored_line_contributes_nothing repo path before line after :
  single_line line = true →
  ignored line = true →
  Wording.excluded line
  ∧ read (with_lines repo path (before ++ line :: after))
    = read (with_lines repo path (before ++ after)).
Proof.
  intros Hsingle Hign.
  pose proof (ignored_excluded line Hsingle Hign) as Hexcl.
  split; [done|].
  apply read_congruence; try done; intros f;
    rewrite !get_file_lines_with_lines; case_decide; try done;
    by destruct (Hexcl before after).
Qed.

Lemma ignored_line_contributes_nothing_witness :
  read (with_lines shared_github_line "/r/requirements/base.txt"
          (["django==2.2.20"] ++ "   # themes" :: [credentials_themes]))
  = read (with_lines shared_github_line "/r/requirements/base.txt"
            (["django==2.2.20"] ++ [credentials_themes])).
Proof.
  apply (ignored_line_contributes_nothing shared_github_line
           "/r/requirements/base.txt" ["django==2.2.20"] "   # themes"
           [credentials_themes]); reflexivity.
Defined.

(** C4, as the specification words it, fails: a comment line indented with
    a tab matches [^\\s*#], and it is kept and counted as a pinned line. *)
Lemma tab_comment_is_counted :
  ¬ Wording.comment_or_blank_excluded tab_comment.
Proof.
  intros Hclaim. destruct (Hclaim eq_refl [] []) as [_ Hpin].
  vm_compute in Hpin. discriminate.
Qed.

(** In a file, next to one pinned line, it makes [pypi_all.count] two. *)
Lemma tab_comment_in_pypi_all :
  ∃ log out,
    read with_tab_comment = (log, Ok out)
    ∧ group_count "pypi_all" out = Some 2.
Proof. eexists _, _. split; by vm_compute. Qed.

End comment_lines.

(** ** Dictionaries *)

Section pydict_facts.
Context {V : Type}.

Implicit Types (d other : pydict V) (k : string) (v : V).

Lemma keys_cons d k v : PyDict.keys ((k, v) :: d) = k :: PyDict.keys d.
Proof. reflexivity. Qed.

Lemma get_None_keys d k : PyDict.get k d = None ↔ k ∉ PyDict.keys d.
Proof.
  induction d as [|[k' v'] d IH]; simpl.
  - split; [intros _; apply not_elem_of_nil|done].
  - destruct (String.eqb_spec k' k) as [->|Hne].
    + split; [done|]. intros H. destruct H. by left.
    + rewrite IH. unfold PyDict.keys. simpl. rewrite not_elem_of_cons.
      split; [by intros ?; split|by intros [_ ?]].
Qed.

Lemma get_Some_keys d k : is_Some (PyDict.get k d) ↔ k ∈ PyDict.keys d.
Proof.
  rewrite <- not_eq_None_Some, get_None_keys.
  destruct (decide (k ∈ PyDict.keys d)); tauto.
Qed.

Lemma get_elem_of d k v : PyDict.get k d = Some v → (k, v) ∈ d.
Proof.
  induction d as [|[k' v'] d IH]; simpl; [done|].
  destruct (String.eqb_spec k' k) as [->|Hne].
  - intros [= ->]. by left.
  - intros H. right. by apply IH.
Qed.

Lemma get_set_eq d k v : PyDict.get k (PyDict.set k v d) = Some v.
Proof.
  induction d as [|[k' v'] d IH]; simpl.
  - by rewrite String.eqb_refl.
  - destruct (String.eqb_spec k' k) as [->|Hne]; simpl.
    + by rewrite String.eqb_refl.
    + by destruct (String.eqb_spec k' k).
Qed.

Lemma get_set_ne d k k' v :
  k ≠ k' → PyDict.get k' (PyDict.set k v d) = PyDict.get k' d.
Proof.
  intros Hne. induction d as [|[k0 v0] d IH]; simpl.
  - by destruct (String.eqb_spec k k').
  - destruct (String.eqb_spec k0 k) as [->|Hne0]; simpl.
    + by destruct (String.eqb_spec k k').
    + by rewrite IH.
Qed.

Lemma get_set d k k' v :
  PyDict.get k' (PyDict.set k v d)
  = if decide (k = k') then Some v else PyDict.get k' d.
Proof.
  case_decide as Hk; [subst; apply get_set_eq|by apply get_set_ne].
Qed.

Lemma elem_of_set d k v (entry : string * V) :
  entry ∈ PyDict.set k v d → entry = (k, v) ∨ entry ∈ d.
Proof.
  induction d as [|[k' v'] d IH]; simpl.
  - intros ->%list_elem_of_singleton. by left.
  - destruct (String.eqb_spec k' k) as [->|Hne].
    + intros [->|Hin]%elem_of_cons; [by left|right; by right].
    + intros [->|Hin]%elem_of_cons; [right; by left|].
      destruct (IH Hin) as [->|?]; [by left|right; by right].
Qed.

(** Assignment keeps the keys when the key is there, and appends it
    otherwise. *)
Lemma keys_set d k v :
  PyDict.keys (PyDict.set k v d)
  = if decide (k ∈ PyDict.keys d) then PyDict.keys d else PyDict.keys d ++ [k].
Proof.
  unfold PyDict.keys. induction d as [|[k' v'] d IH].
  - destruct (decide (k ∈ [])) as [Hk|Hk]; [by apply elem_of_nil in Hk|done].
  - cbn [PyDict.set]. rewrite !fmap_cons. cbn [fst].
    destruct (String.eqb_spec k' k) as [->|Hne].
    + destruct (decide (k ∈ k :: d.*1)) as [Hk|Hk]; [done|].
      destruct Hk. by left.
    + rewrite !fmap_cons, IH. cbn [fst].
      destruct (decide (k ∈ d.*1)) as [Hk|Hk];
        destruct (decide (k ∈ k' :: d.*1)) as [Hk'|Hk']; try done.
      * destruct Hk'. by right.
      * apply elem_of_cons in Hk' as [->|Hk']; done.
Qed.

Lemma elem_of_keys_set d k k' v :
  k' ∈ PyDict.keys (PyDict.set k v d) ↔ k' = k ∨ k' ∈ PyDict.keys d.
Proof.
  rewrite keys_set. case_decide as Hk.
  - split; [tauto|]. by intros [->|?].
  - rewrite elem_of_app, list_elem_of_singleton. tauto.
Qed.

Lemma wf_set d k v : PyDict.wf d → PyDict.wf (PyDict.set k v d).
Proof.
  unfold PyDict.wf. rewrite keys_set. case_decide; [done|].
  intros Hnd. apply NoDup_app. split; [done|]. split.
  - intros x Hx ->%list_elem_of_singleton. done.
  - apply NoDup_singleton.
Qed.

Lemma elem_of_keys_update d other k :
  k ∈ PyDict.keys (PyDict.update d other)
  ↔ k ∈ PyDict.keys d ∨ k ∈ PyDict.keys other.
Proof.
  unfold PyDict.update. revert d.
  induction other as [|[k' v'] other IH]; intros d; simpl.
  - change (PyDict.keys (V:=V) []) with (@nil string).
    rewrite elem_of_nil. tauto.
  - rewrite IH, elem_of_keys_set, elem_of_cons. tauto.
Qed.

Lemma wf_update d other : PyDict.wf d → PyDict.wf (PyDict.update d other).
Proof.
  unfold PyDict.update. revert d.
  induction other as [|[k' v'] other IH]; intros d Hd; simpl; [done|].
  apply IH. by apply wf_set.
Qed.

(** Keys that [other] does not hold keep their value. *)
Lemma get_update_other d other k :
  k ∉ PyDict.keys other → PyDict.get k (PyDict.update d other) = PyDict.get k d.
Proof.
  unfold PyDict.update. revert d.
  induction other as [|[k' v'] other IH]; intros d Hk; simpl; [done|].
  rewrite keys_cons in Hk. apply not_elem_of_cons in Hk as [Hne Hk].
  rewrite IH by done. by apply get_set_ne.
Qed.

(** Updating with a dictionary in good order: its values win. *)
Lemma get_update_wf d other k v :
  PyDict.wf other → PyDict.get k other = Some v →
  PyDict.get k (PyDict.update d other) = Some v.
Proof.
  unfold PyDict.update, PyDict.wf, PyDict.keys. revert d.
  induction other as [|[k' v'] other IH]; intros d Hwf; simpl; [done|].
  apply NoDup_cons in Hwf as [Hnotin Hwf].
  destruct (String.eqb_spec k' k) as [->|Hne].
  - intros [= ->]. fold (PyDict.update (PyDict.set k v d) other).
    rewrite get_update_other by done. apply get_set_eq.
  - intros Hget. by apply IH.
Qed.

(** The number of entries of a dictionary in good order is the number of
    its distinct keys. *)
Lemma len_wf d :
  PyDict.wf d → PyDict.len d = len_set (PyDict.keys d).
Proof.
  intros Hwf. unfold PyDict.len, len_set, PyDict.keys. f_equal.
  rewrite <- (length_fmap fst d).
  rewrite <- (size_list_to_set (C:=gset string) (d.*1)); done.
Qed.

End pydict_facts.

(** ** The JavaScript reader *)

Section javascript_reader.
Import JavascriptDependencyReader JsLocals.

Implicit Types (repo : repository).

Lemma has_key_get {V} (k : string) (d : pydict V) :
  PyDict.has_key k d = true ↔ is_Some (PyDict.get k d).
Proof. unfold PyDict.has_key. by rewrite mem_elem_of, get_Some_keys. Qed.

(** The loop over the lockfile, when every package has a version: it
    returns a dictionary that holds the names seen, each once. *)
Lemma lock_loop_ok (deps : pydict (pydict value)) (acc : pydict value) :
  forallb (λ item : string * pydict value, PyDict.has_key "version" item.2) deps
  = true →
  ∃ all,
    for_each deps lock_step acc = (([] : list string), Ok all)
    ∧ (∀ k, k ∈ PyDict.keys all ↔ k ∈ PyDict.keys acc ∨ k ∈ PyDict.keys deps)
    ∧ (PyDict.wf acc → PyDict.wf all).
Proof.
  revert acc. induction deps as [|[name details] deps IH]; intros acc Hall.
  - exists acc. split; [done|]. split; [|done].
    intros k. change (PyDict.keys (V:=pydict value) []) with (@nil string).
    rewrite elem_of_nil. tauto.
  - simpl in Hall. apply andb_prop in Hall as [Hv Hall].
    apply has_key_get in Hv as [version Hv].
    destruct (IH (PyDict.set name version acc) Hall) as (all & Hrun & Hkeys & Hwf).
    exists all. split; [|split].
    + rewrite for_each_cons.
      assert (lock_step acc (name, details)
              = mret (PyDict.set name version acc)) as ->
        by (unfold lock_step; by rewrite Hv).
      by rewrite bind_ret.
    + intros k. rewrite Hkeys, elem_of_keys_set, keys_cons, elem_of_cons. tauto.
    + intros Hacc. by apply Hwf, wf_set.
Qed.


(** The read without a lockfile. *)
Lemma js_read_without_lockfile repo package_json_data :
  package_json repo = Some (Json.Valid package_json_data) →
  no_lockfile repo = true →
  ∃ out,
    read repo = ([], Ok out)
    ∧ PyDict.get "js.all" out = Some (group 0 (Json.dumps (VDict []))).
Proof.
  intros Hpj Hno. unfold read, _is_js_repo, _read_dependencies.
  unfold no_lockfile in Hno. apply negb_true_iff in Hno.
  rewrite Hpj. simpl. rewrite Hno. simpl. eexists. split; reflexivity.
Qed.

(** The read with a lockfile that gives every package a version. *)
Lemma js_read_with_lockfile repo package_json_data package_lock_data :
  package_json repo = Some (Json.Valid package_json_data) →
  package_lock repo = Some (Json.Valid package_lock_data) →
  versions_given package_lock_data = true →
  ∃ out,
    read repo = ([], Ok out)
    ∧ group_count "js.all" out
      = Some (len_set (PyDict.keys (locked package_lock_data)))
    ∧ group_count "js" out
      = Some (PyDict.len (default [] (pj_dependencies package_json_data))).
Proof.
  intros Hpj Hpl Hversions.
  unfold read, _is_js_repo, _read_dependencies. rewrite Hpj, Hpl. simpl.
  destruct (lock_loop_ok _ [] Hversions) as (all & Hrun & Hkeys & Hwf).
  fold (locked package_lock_data). rewrite Hrun. simpl.
  eexists. split; [reflexivity|]. unfold group_count. simpl.
  split; [|done]. f_equal. rewrite len_wf by (apply Hwf, NoDup_nil_2).
  unfold len_set. do 2 f_equal. apply set_eq. intros k.
  rewrite !elem_of_list_to_set, Hkeys.
  change (PyDict.keys (V:=value) []) with (@nil string).
  rewrite elem_of_nil. tauto.
Qed.

(** C5, as the code has it.  For a repository whose [package.json] is
    well-formed: without a lockfile the read succeeds and [js.all] is empty,
    with the count 0; with a lockfile that gives every package a version
    the read succeeds and [js.all.count] is the number of distinct package
    names of the lockfile, while [js.count] is the number of entries of the
    manifest's [dependencies]. *)
Theorem js_all_counts_locked_names repo package_json_data :
  package_json repo = Some (Json.Valid package_json_data) →
  (no_lockfile repo = true →
   ∃ out,
     read repo = ([], Ok out)
     ∧ PyDict.get "js.all" out = Some (group 0 (Json.dumps (VDict [])))
     ∧ group_count "js.all" out = Some 0)
  ∧ (∀ package_lock_data,
       package_lock repo = Some (Json.Valid package_lock_data) →
       versions_given package_lock_data = true →
       ∃ out,
         read repo = ([], Ok out)
         ∧ group_count "js.all" out
           = Some (len_set (PyDict.keys (locked package_lock_data)))
         ∧ group_count "js" out
           = Some (PyDict.len (default [] (pj_dependencies package_json_data)))).
Proof.
  intros Hpj. split.
  - intros Hno.
    destruct (js_read_without_lockfile repo _ Hpj Hno) as (out & Hread & Hall).
    exists out. split; [done|]. split; [done|].
    unfold group_count. by rewrite Hall.
  - intros package_lock_data Hpl Hversions.
    by apply js_read_with_lockfile.
Qed.

Lemma js_all_counts_locked_names_witness :
  (∃ out,
     read short_lockfile = ([], Ok out)
     ∧ group_count "js.all" out = Some 1
     ∧ group_count "js" out = Some 2)
  ∧ (∃ out,
       read manifest_only = ([], Ok out)
       ∧ group_count "js.all" out = Some 0).
Proof.
  destruct (js_all_counts_locked_names short_lockfile _ eq_refl) as [_ Hlock].
  destruct (Hlock _ eq_refl eq_refl) as (out & Hread & Hall & Hjs).
  destruct (js_all_counts_locked_names manifest_only _ eq_refl) as [Hno _].
  destruct (Hno eq_refl) as (out' & Hread' & _ & Hall').
  split.
  - exists out. split; [done|]. split.
    + rewrite Hall. by vm_compute.
    + rewrite Hjs. by vm_compute.
  - by exists out'.
Defined.


(** C5, as the specification words it, fails: the lockfile is present, it
    lists one package, and the manifest has two dependencies. *)
Lemma short_lockfile_not_dominating : ¬ Wording.lockfile_dominates short_lockfile.
Proof.
  intros Hclaim.
  destruct (Hclaim _ _ eq_refl) as (all & js & Hall & Hjs & Hle).
  vm_compute in Hall, Hjs. simplify_eq. lia.
Qed.

(** The [js] and [js.dev] groups hand on the dictionaries of the manifest:
    their counts are the numbers of distinct names when these are in good
    order, as [json.loads] leaves them. *)
Lemma js_groups_count_names repo package_json_data log out :
  package_json repo = Some (Json.Valid package_json_data) →
  read repo = (log, Ok out) →
  PyDict.wf (default [] (pj_dependencies package_json_data)) →
  PyDict.wf (default [] (pj_devDependencies package_json_data)) →
  group_count "js" out
  = Some (len_set (PyDict.keys (default [] (pj_dependencies package_json_data))))
  ∧ group_count "js.dev" out
    = Some (len_set
              (PyDict.keys (default [] (pj_devDependencies package_json_data)))).
Proof.
  intros Hpj Hread Hdeps Hdev. revert Hread.
  unfold read, _is_js_repo, _read_dependencies. rewrite Hpj. simpl.
  destruct (if Json.truthy _ then _ else _) as [log' [all|e]]; simpl;
    [|discriminate].
  intros [= _ <-]. unfold group_count. simpl. by rewrite !len_wf.
Qed.

End javascript_reader.

(** ** The aggregator *)

Section aggregator.

Implicit Types (repo : repository).

(** What the JavaScript reader returns is empty or has its four keys. *)
Lemma js_read_shape repo log out :
  JavascriptDependencyReader.read repo = (log, Ok out) →
  out = []
  ∨ ∃ c js dev all,
      out = [("count", VInt c); ("js", js); ("js.dev", dev); ("js.all", all)].
Proof.
  unfold JavascriptDependencyReader.read,
    JavascriptDependencyReader._read_dependencies,
    JavascriptDependencyReader._is_js_repo.
  destruct (package_json repo) as [[| |package_json_data]|]; simpl;
    try discriminate.
  - destruct (if Json.truthy _ then _ else _) as [log' [all|e]]; simpl;
      [|discriminate].
    intros [= _ <-]. right. eauto 10.
  - intros [= _ <-]. by left.
Qed.

(** What the Python reader returns is empty or has its four keys; it never
    raises. *)
Lemma python_read_shape repo :
  ∃ log out,
    PythonDependencyReader.read repo = (log, Ok out)
    ∧ (out = []
       ∨ ∃ gh all prod c,
           out = [("github", gh); ("pypi_all", all); ("pypi", prod);
                  ("count", VInt c)]).
Proof.
  unfold PythonDependencyReader.read.
  destruct (negb (PythonDependencyReader._is_python_repo repo)).
  - exists [], []. split; [done|by left].
  - rewrite read_dependencies_eq. eexists _, _. split; [done|].
    right. eauto 10.
Qed.

Lemma js_read_total repo :
  json_readable repo = true →
  ∃ out, JavascriptDependencyReader.read repo = ([], Ok out).
Proof.
  unfold json_readable. intros Hok.
  destruct (package_json repo) as [[| |package_json_data]|] eqn:Hpj;
    try discriminate.
  - destruct (package_lock repo) as [[| |package_lock_data]|] eqn:Hpl;
      try discriminate.
    + destruct (js_read_without_lockfile repo _ Hpj) as (out & Hread & _);
        [by unfold JsLocals.no_lockfile; rewrite Hpl|eauto].
    + destruct (js_read_with_lockfile repo _ _ Hpj Hpl Hok) as (out & Hread & _).
      eauto.
    + destruct (js_read_without_lockfile repo _ Hpj) as (out & Hread & _);
        [by unfold JsLocals.no_lockfile; rewrite Hpl|eauto].
  - exists []. unfold JavascriptDependencyReader.read,
      JavascriptDependencyReader._is_js_repo. by rewrite Hpj.
Qed.

(** The aggregator, from what the two readers return. *)
Lemma get_dependencies_eq repo :
  get_dependencies repo
  = acc1 ← aggregate_step repo (0, default_output)
             JavascriptDependencyReader.reader;
    acc2 ← aggregate_step repo acc1 PythonDependencyReader.reader;
    mret acc2.2.
Proof.
  unfold get_dependencies, subclasses. rewrite !for_each_cons.
  cbn [for_each].
  destruct (aggregate_step repo (0, default_output) _) as [log1 [acc1|e]];
    [|done].
  rewrite !bind_ok.
  destruct (aggregate_step repo acc1 _) as [log2 [acc2|e]]; [|done].
  rewrite !bind_ok. simpl. by rewrite !app_nil_r.
Qed.

(** C6.  Whatever [get_dependencies] returns has the keys of the default
    schema, in its order; it does return when the JSON files are there to
    be read; and for a repository with neither [requirements/] nor
    [package.json] it returns the default schema itself. *)
Theorem get_dependencies_schema repo :
  (∀ log out,
     get_dependencies repo = (log, Ok out) →
     PyDict.keys out = PyDict.keys default_output
     ∧ ∀ k, k ∈ PyDict.keys default_output → is_Some (PyDict.get k out))
  ∧ (json_readable repo = true →
     ∃ log out, get_dependencies repo = (log, Ok out))
  ∧ (requirements repo = None → package_json repo = None →
     get_dependencies repo = ([], Ok default_output)).
Proof.
  assert (Hkeys : ∀ log out,
            get_dependencies repo = (log, Ok out) →
            PyDict.keys out = PyDict.keys default_output).
  { intros log out. rewrite get_dependencies_eq.
    unfold aggregate_step, reader_read, JavascriptDependencyReader.reader,
      PythonDependencyReader.reader.
    destruct (JavascriptDependencyReader.read repo) as [logj [outj|e]] eqn:Hjs;
      [|discriminate].
    destruct (python_read_shape repo) as (logp & outp & -> & Hshape).
    apply js_read_shape in Hjs as [->|(c & js & dev & all & ->)];
      destruct Hshape as [->|(gh & pall & prod & cp & ->)];
      rewrite !bind_ok; simpl; by intros [= _ <-]. }
  split; [|split].
  - intros log out Hget. split; [by eapply Hkeys|].
    intros k Hk. apply get_Some_keys. by rewrite (Hkeys _ _ Hget).
  - intros Hok. rewrite get_dependencies_eq.
    unfold aggregate_step, reader_read, JavascriptDependencyReader.reader,
      PythonDependencyReader.reader.
    destruct (js_read_total repo Hok) as (outj & Hjs). rewrite Hjs.
    destruct (python_read_shape repo) as (logp & outp & -> & Hshape).
    apply js_read_shape in Hjs as [->|(c & js & dev & all & ->)];
      destruct Hshape as [->|(gh & pall & prod & cp & ->)];
      rewrite !bind_ok; simpl; eauto.
  - intros Hreq Hpj. rewrite get_dependencies_eq.
    unfold aggregate_step, reader_read, JavascriptDependencyReader.reader,
      PythonDependencyReader.reader, JavascriptDependencyReader.read,
      PythonDependencyReader.read, JavascriptDependencyReader._is_js_repo,
      PythonDependencyReader._is_python_repo.
    by rewrite Hreq, Hpj.
Qed.

Lemma get_dependencies_schema_witness :
  (∃ log out, get_dependencies short_lockfile = (log, Ok out))
  ∧ get_dependencies bare_repository = ([], Ok default_output).
Proof.
  destruct (get_dependencies_schema short_lockfile) as (_ & Htotal & _).
  destruct (get_dependencies_schema bare_repository) as (_ & _ & Hbare).
  split; [by apply Htotal|by apply Hbare].
Defined.

End aggregator.

(** ** Flattening *)

Section flattening.

(** C7 at a mapping nested three deep and the delimiter [/]: the inner
    levels are joined with the default delimiter, because the recursive
    call does not hand the delimiter on. *)
Theorem squash_dict_inner_delimiter :
  squash_dict three_levels "/" = [("a/b.c", VInt 1)]
  ∧ leaves (VDict three_levels) = [(["a"; "b"; "c"], VInt 1)]
  ∧ PyStr.join "/" ["a"; "b"; "c"] = "a/b/c"
  ∧ PyDict.get "a/b/c" (squash_dict three_levels "/") = None
  ∧ squash_dict three_levels "." = [("a.b.c", VInt 1)].
Proof. repeat split; reflexivity. Qed.

(** The example of the docstring: lists are leaves. *)
Lemma squash_dict_docstring :
  squash_dict docstring_input default_delimiter
  = [("a.b", VStr "1"); ("a.c.d", VStr "2");
     ("a.f", VList [VInt 1; VInt 2; VInt 3]); ("e", VInt 2)].
Proof. reflexivity. Qed.

(** Induction on values, through the lists and dictionaries they hold. *)
Lemma value_nested_ind (P : value → Prop) :
  P VNone →
  (∀ b, P (VBool b)) →
  (∀ n, P (VInt n)) →
  (∀ s, P (VStr s)) →
  (∀ l, Forall P l → P (VList l)) →
  (∀ d, Forall (λ item : string * value, P item.2) d → P (VDict d)) →
  ∀ v, P v.
Proof.
  intros HNone HBool HInt HStr HList HDict.
  fix IH 1. intros [| b | n | s | l | d].
  - apply HNone.
  - apply HBool.
  - apply HInt.
  - apply HStr.
  - apply HList. induction l as [|v l IHl]; constructor; [apply IH|apply IHl].
  - apply HDict. induction d as [|[k v] d IHd]; constructor; [apply IH|apply IHd].
Qed.

(** A loop of assignments [output[key(x)] = val(x)]: the entries of the
    result are entries of the start or were assigned, and its keys are the
    keys of both. *)
Lemma assign_fold {A V} (key : A → string) (val : A → V) (xs : list A)
    (output : pydict V) :
  let out := fold_left (λ output x, PyDict.set (key x) (val x) output) xs output in
  (∀ k, k ∈ PyDict.keys out ↔ k ∈ PyDict.keys output ∨ ∃ x, x ∈ xs ∧ k = key x)
  ∧ (∀ k v, (k, v) ∈ out →
       (k, v) ∈ output ∨ ∃ x, x ∈ xs ∧ k = key x ∧ v = val x).
Proof.
  revert output. induction xs as [|x xs IH]; intros output; simpl.
  - split; [|by left]. intros k. split; [by left|].
    intros [?|(x & Hx & _)]; [done|]. by apply elem_of_nil in Hx.
  - destruct (IH (PyDict.set (key x) (val x) output)) as (Hkeys & Hentries).
    split.
    + intros k. rewrite Hkeys, elem_of_keys_set. split.
      * intros [[->|?]|(y & Hy & ->)]; [right|by left|right].
        -- exists x. split; [by left|done].
        -- exists y. split; [by right|done].
      * intros [?|(y & [->|Hy]%elem_of_cons & ->)];
          [by left; right|by left; left|right; eauto].
    + intros k v Hin. destruct (Hentries k v Hin) as [Hset|(y & Hy & -> & ->)].
      * apply elem_of_set in Hset as [[= -> ->]|?]; [right|by left].
        exists x. split; [by left|done].
      * right. exists y. split; [by right|done].
Qed.

Lemma flat_key_default (path : list string) :
  flat_key default_delimiter path = PyStr.join default_delimiter path.
Proof. by destruct path as [|k [|k' path]]. Qed.

Lemma flat_key_cons (delimiter key : string) (path : list string) :
  path ≠ [] →
  flat_key delimiter (key :: path)
  = key +:+ delimiter +:+ flat_key default_delimiter path.
Proof. intros Hne. rewrite flat_key_default. by destruct path. Qed.

Lemma leaves_path_nonempty (v leaf_value : value) (path : list string) :
  (path, leaf_value) ∈ leaves v → path ≠ [].
Proof.
  destruct v as [| | | | |d]; simpl; try by intros ?%elem_of_nil.
  intros Hin%list_elem_of_In%in_flat_map. destruct Hin as ([k child] & _ & Hin).
  apply list_elem_of_In in Hin. simpl in Hin. destruct child;
    try (apply list_elem_of_singleton in Hin; by simplify_eq).
  apply list_elem_of_fmap in Hin as ([p w] & Heq & _). by simplify_eq.
Qed.

(** Lists are leaves, as every value that is not a mapping: no leaf is a
    mapping. *)
Lemma leaves_not_dict (v leaf_value : value) (path : list string) :
  (path, leaf_value) ∈ leaves v → ∀ d, leaf_value ≠ VDict d.
Proof.
  revert path. induction v as [| | | | |d IH] using value_nested_ind;
    intros path; simpl; try by intros ?%elem_of_nil.
  intros Hin%list_elem_of_In%in_flat_map. destruct Hin as ([k child] & Hitem & Hin).
  apply list_elem_of_In in Hin, Hitem. rewrite Forall_forall in IH.
  specialize (IH _ Hitem). simpl in *. destruct child;
    try (apply list_elem_of_singleton in Hin; by simplify_eq).
  apply list_elem_of_fmap in Hin as ([p w] & Heq & Hleaf). simplify_eq.
  by eapply IH.
Qed.

Lemma squash_dict_value_eq (input : pydict value) (delimiter : string) :
  squash_dict_value (VDict input) delimiter
  = fold_left (squash_step delimiter) input [].
Proof. reflexivity. Qed.

Lemma leaves_cons (item : string * value) (input : pydict value) :
  leaves (VDict (item :: input)) = item_leaves item ++ leaves (VDict input).
Proof. reflexivity. Qed.

(** One turn of the loop. *)
Lemma squash_step_spec (delimiter : string) (output : pydict value)
    (item : string * value) :
  squashes item.2 →
  (∀ k, k ∈ PyDict.keys (squash_step delimiter output item)
        ↔ k ∈ PyDict.keys output
          ∨ ∃ path leaf, (path, leaf) ∈ item_leaves item
                         ∧ k = flat_key delimiter path)
  ∧ (∀ k leaf, (k, leaf) ∈ squash_step delimiter output item →
       (k, leaf) ∈ output
       ∨ ∃ path, (path, leaf) ∈ item_leaves item ∧ k = flat_key delimiter path).
Proof.
  destruct item as [key child]. unfold squash_step, item_leaves. simpl.
  intros Hchild.
  assert (Hleaf : ∀ k leaf (o : pydict value),
            (∀ d, child ≠ VDict d) →
            ((k ∈ PyDict.keys (PyDict.set key child o)
              ↔ k ∈ PyDict.keys o
                ∨ ∃ path leaf, (path, leaf) ∈ [([key], child)]
                               ∧ k = flat_key delimiter path)
             ∧ ((k, leaf) ∈ PyDict.set key child o →
                (k, leaf) ∈ o
                ∨ ∃ path, (path, leaf) ∈ [([key], child)]
                          ∧ k = flat_key delimiter path))).
  { intros k leaf o _. split.
    - rewrite elem_of_keys_set. split.
      + intros [->|?]; [right|by left]. exists [key], child.
        split; [by left|done].
      + intros [?|(path & w & Hin & ->)]; [by right|].
        apply list_elem_of_singleton in Hin. simplify_eq. by left.
    - intros [[= -> ->]|?]%elem_of_set; [right|by left].
      exists [key]. split; [by left|done]. }
  destruct child as [| b | n | s | l | d];
    try (split; [intros k; by apply (Hleaf k VNone)
                |intros k leaf; by apply (Hleaf k leaf)]).
  destruct (Hchild default_delimiter) as (Hkeys & Hentries).
  destruct (assign_fold
              (λ item2 : string * value, key +:+ delimiter +:+ item2.1)
              (λ item2 : string * value, item2.2)
              (squash_dict_value (VDict d) default_delimiter) output)
    as (Hk & He).
  split.
  - intros k. rewrite Hk. split.
    + intros [?|([k2 leaf] & Hin & ->)]; [by left|right].
      destruct (Hentries _ _ Hin) as (path & Hpath & ->).
      exists (key :: path), leaf. split.
      * apply list_elem_of_fmap. by exists (path, leaf).
      * cbn [fst snd]. rewrite flat_key_cons; [done|by eapply leaves_path_nonempty].
    + intros [?|(path & leaf & Hin & ->)]; [by left|right].
      apply list_elem_of_fmap in Hin as ([p w] & [= -> ->] & Hleaves).
      assert (flat_key default_delimiter p
              ∈ PyDict.keys (squash_dict_value (VDict d) default_delimiter))
        as Hkey by (apply Hkeys; eauto).
      apply list_elem_of_fmap in Hkey as ([k2 w2] & Hk2 & Hin2). simpl in Hk2.
      exists (k2, w2). split; [done|]. cbn [fst snd]. rewrite <- Hk2.
      rewrite flat_key_cons; [done|by eapply leaves_path_nonempty].
  - intros k leaf Hin. destruct (He k leaf Hin) as [?|([k2 w] & Hin2 & -> & ->)];
      [by left|right].
    destruct (Hentries _ _ Hin2) as (path & Hpath & ->).
    exists (key :: path). split.
    + apply list_elem_of_fmap. by exists (path, w).
    + cbn [fst snd]. rewrite flat_key_cons; [done|by eapply leaves_path_nonempty].
Qed.

(** The loop. *)
Lemma squash_fold (delimiter : string) (input output : pydict value) :
  Forall (λ item : string * value, squashes item.2) input →
  let out := fold_left (squash_step delimiter) input output in
  (∀ k, k ∈ PyDict.keys out
        ↔ k ∈ PyDict.keys output
          ∨ ∃ path leaf, (path, leaf) ∈ leaves (VDict input)
                         ∧ k = flat_key delimiter path)
  ∧ (∀ k leaf, (k, leaf) ∈ out →
       (k, leaf) ∈ output
       ∨ ∃ path, (path, leaf) ∈ leaves (VDict input)
                 ∧ k = flat_key delimiter path).
Proof.
  revert output. induction input as [|item input IH]; intros output Hall.
  - simpl. split.
    + intros k. split; [by left|].
      intros [?|(path & leaf & Hin & _)]; [done|]. by apply elem_of_nil in Hin.
    + intros k leaf Hin. by left.
  - apply Forall_cons in Hall as [Hitem Hall]. cbn [fold_left].
    destruct (IH (squash_step delimiter output item) Hall) as (Hkeys & Hentries).
    destruct (squash_step_spec delimiter output item Hitem) as (Hk1 & He1).
    cbv zeta. split.
    + intros k. rewrite Hkeys, Hk1, leaves_cons. split.
      * intros [[?|(path & leaf & Hin & ->)]|(path & leaf & Hin & ->)];
          [by left|right..]; exists path, leaf;
          (split; [apply elem_of_app; by eauto|done]).
      * intros [?|(path & leaf & [Hin|Hin]%elem_of_app & ->)];
          [by left; left|left; right|right]; eauto.
    + intros k leaf Hin. rewrite leaves_cons.
      destruct (Hentries k leaf Hin) as [Hstep|(path & Hpath & ->)].
      * destruct (He1 k leaf Hstep) as [?|(path & Hpath & ->)]; [by left|right].
        exists path. split; [apply elem_of_app; by left|done].
      * right. exists path. split; [apply elem_of_app; by right|done].
Qed.

Lemma squash_dict_value_squashes (v : value) : squashes v.
Proof.
  induction v as [| | | | |d IH] using value_nested_ind;
    try (intros delimiter; split;
         [intros k; split;
          [by intros ?%elem_of_nil
          |by intros (path & leaf & ?%elem_of_nil & _)]
         |by intros k leaf ?%elem_of_nil]).
  intros delimiter. rewrite squash_dict_value_eq.
  destruct (squash_fold delimiter d [] IH) as (Hkeys & Hentries). split.
  - intros k. rewrite Hkeys.
    change (PyDict.keys (V:=value) []) with (@nil string).
    rewrite elem_of_nil. tauto.
  - intros k leaf Hin. by destruct (Hentries k leaf Hin) as [?%elem_of_nil|?].
Qed.

(** What [squash_dict] returns, for every nested mapping and every
    delimiter: its keys are the paths to the leaves of the input, joined
    with the delimiter after the first key and with the default delimiter
    further down; its values are the leaves at these paths, none of them a
    mapping.  With the default delimiter the keys are the joined paths. *)
Lemma squash_dict_spec (input : pydict value) (delimiter : string) :
  (∀ k, k ∈ PyDict.keys (squash_dict input delimiter)
        ↔ ∃ path leaf, (path, leaf) ∈ leaves (VDict input)
                       ∧ k = flat_key delimiter path)
  ∧ (∀ k leaf, (k, leaf) ∈ squash_dict input delimiter →
       (∀ d, leaf ≠ VDict d)
       ∧ ∃ path, (path, leaf) ∈ leaves (VDict input)
                 ∧ k = flat_key delimiter path)
  ∧ (∀ path, flat_key default_delimiter path = PyStr.join default_delimiter path).
Proof.
  destruct (squash_dict_value_squashes (VDict input) delimiter)
    as (Hkeys & Hentries).
  split; [done|]. split; [|apply flat_key_default].
  intros k leaf Hin. destruct (Hentries k leaf Hin) as (path & Hpath & ->).
  split; [by eapply leaves_not_dict|eauto].
Qed.

End flattening.

(** ** Standardizing *)

Section standardizing.

Implicit Types (metadata : pydict (pydict value)) (d : pydict value)
  (k r : string).

Lemma superset_fold {V} (dicts : pydict (pydict V)) (start : gset string) k :
  k ∈ fold_left
        (λ output_set (item : string * pydict V),
           output_set ∪ list_to_set (PyDict.keys item.2))
        dicts start
  ↔ k ∈ start ∨ ∃ r (item : pydict V), (r, item) ∈ dicts ∧ k ∈ PyDict.keys item.
Proof.
  revert start. induction dicts as [|[r0 item0] dicts IH]; intros start; simpl.
  - split; [by left|]. intros [?|(r & item & Hin & _)]; [done|].
    by apply elem_of_nil in Hin.
  - rewrite IH, elem_of_union, elem_of_list_to_set. split.
    + intros [[?|?]|(r & item & Hin & Hk)]; [by left|right..].
      * exists r0, item0. split; [by left|done].
      * exists r, item. split; [by right|done].
    + intros [?|(r & item & Hin & Hk)]; [by left; left|].
      apply elem_of_cons in Hin as [[= -> ->]|Hin]; [by left; right|].
      right. eauto.
Qed.

(** The superset holds exactly the keys of the mappings. *)
Lemma elem_of_superset {V} (dicts : pydict (pydict V)) k :
  k ∈ get_superset_of_keys dicts
  ↔ ∃ r (item : pydict V), (r, item) ∈ dicts ∧ k ∈ PyDict.keys item.
Proof.
  unfold get_superset_of_keys. rewrite superset_fold, elem_of_empty. tauto.
Qed.

(** The loop of the dictionary comprehension: it adds the keys, and every
    value it leaves is [None] or was there before. *)
Lemma defaults_fold (ks : list string) d :
  let out := fold_left (λ d k, PyDict.set k VNone d) ks d in
  (PyDict.wf d → PyDict.wf out)
  ∧ (∀ k, k ∈ PyDict.keys out ↔ k ∈ PyDict.keys d ∨ k ∈ ks)
  ∧ (∀ k v, PyDict.get k out = Some v → v = VNone ∨ PyDict.get k d = Some v).
Proof.
  revert d. induction ks as [|k0 ks IH]; intros d; simpl.
  - split; [done|]. split; [|by right].
    intros k. rewrite elem_of_nil. tauto.
  - destruct (IH (PyDict.set k0 VNone d)) as (Hwf & Hkeys & Hget).
    split; [|split].
    + intros Hd. by apply Hwf, wf_set.
    + intros k. rewrite Hkeys, elem_of_keys_set, elem_of_cons. tauto.
    + intros k v Hv. destruct (Hget k v Hv) as [?|Hset]; [by left|].
      rewrite get_set in Hset. case_decide; [left; congruence|by right].
Qed.

Lemma defaults_of_spec (keys : gset string) :
  PyDict.wf (defaults_of keys)
  ∧ (∀ k, k ∈ PyDict.keys (defaults_of keys) ↔ k ∈ keys)
  ∧ (∀ k, k ∈ keys → PyDict.get k (defaults_of keys) = Some VNone).
Proof.
  unfold defaults_of.
  destruct (defaults_fold (elements keys) []) as (Hwf & Hkeys & Hget).
  assert (Hk : ∀ k, k ∈ PyDict.keys
                      (fold_left (λ d k, PyDict.set k VNone d) (elements keys) [])
                    ↔ k ∈ keys).
  { intros k. rewrite Hkeys, elem_of_elements.
    change (PyDict.keys (V:=value) []) with (@nil string).
    rewrite elem_of_nil. tauto. }
  split; [apply Hwf, NoDup_nil_2|]. split; [done|].
  intros k Hin. apply Hk, get_Some_keys in Hin as [v Hv].
  by destruct (Hget k v Hv) as [->|?].
Qed.

(** What one repository's mapping becomes: the defaults, updated. *)
Lemma standardized_entry (keys : gset string) (item : pydict value) :
  PyDict.keys item ⊆ elements keys →
  let d := PyDict.update (defaults_of keys) item in
  PyDict.wf d
  ∧ PyDict.len d = Z.of_nat (size keys)
  ∧ (∀ k, k ∈ PyDict.keys d ↔ k ∈ keys)
  ∧ (∀ k, k ∈ keys → k ∉ PyDict.keys item → PyDict.get k d = Some VNone)
  ∧ (PyDict.wf item → ∀ k v, PyDict.get k item = Some v → PyDict.get k d = Some v).
Proof.
  intros Hsub d. destruct (defaults_of_spec keys) as (Hwf & Hkeys & Hget).
  assert (Hd : ∀ k, k ∈ PyDict.keys d ↔ k ∈ keys).
  { intros k. unfold d. rewrite elem_of_keys_update, Hkeys. split; [|tauto].
    intros [?|Hk]; [done|]. by apply elem_of_elements, Hsub. }
  assert (Hwfd : PyDict.wf d) by by apply wf_update.
  split; [done|]. split; [|split; [done|split]].
  - rewrite len_wf by done. unfold len_set. do 2 f_equal.
    apply set_eq. intros k. by rewrite elem_of_list_to_set.
  - intros k Hk Hnotin. unfold d. rewrite get_update_other by done. by apply Hget.
  - intros Hitem k v Hv. by apply get_update_wf.
Qed.

(** The loop of [standardize_metadata_by_repo]: the entries of its output
    come from the entries of its input. *)
Lemma standardize_fold (f : pydict value → pydict value) metadata
    (output : pydict (pydict value)) :
  let out := fold_left
               (λ output (entry : string * pydict value),
                  PyDict.set entry.1 (f entry.2) output)
               metadata output in
  (∀ r, r ∈ PyDict.keys out ↔ r ∈ PyDict.keys output ∨ r ∈ PyDict.keys metadata)
  ∧ (∀ r d, (r, d) ∈ out →
       (r, d) ∈ output ∨ ∃ item, (r, item) ∈ metadata ∧ d = f item).
Proof.
  revert output. induction metadata as [|[r0 item0] metadata IH];
    intros output; simpl.
  - split; [|by left]. intros r.
    change (PyDict.keys (V:=pydict value) []) with (@nil string).
    rewrite elem_of_nil. tauto.
  - destruct (IH (PyDict.set r0 (f item0) output)) as (Hkeys & Hentries).
    split.
    + intros r. rewrite Hkeys, elem_of_keys_set, elem_of_cons. tauto.
    + intros r d Hin. destruct (Hentries r d Hin) as [Hset|(item & Hitem & ->)].
      * apply elem_of_set in Hset as [[= -> ->]|?]; [right|by left].
        exists item0. split; [by left|done].
      * right. exists item. split; [by right|done].
Qed.

(** C8.  The superset holds the keys of all repositories; the output of
    [standardize_metadata_by_repo] has the repositories of its input; and
    every mapping in it is in good order, has exactly the keys of the
    superset, so as many keys as the superset has members, holds [None]
    at the keys the repository's own mapping lacks, and the repository's
    own value at the others. *)
Theorem standardized_same_keys metadata :
  (∀ k, k ∈ get_superset_of_keys metadata
        ↔ ∃ r (item : pydict value),
            (r, item) ∈ metadata ∧ k ∈ PyDict.keys item)
  ∧ (∀ r, r ∈ PyDict.keys (standardize_metadata_by_repo metadata)
          ↔ r ∈ PyDict.keys metadata)
  ∧ (∀ r d,
       (r, d) ∈ standardize_metadata_by_repo metadata →
       PyDict.wf d
       ∧ PyDict.len d = Z.of_nat (size (get_superset_of_keys metadata))
       ∧ (∀ k, k ∈ PyDict.keys d ↔ k ∈ get_superset_of_keys metadata)
       ∧ ∃ item,
           (r, item) ∈ metadata
           ∧ (∀ k, k ∈ get_superset_of_keys metadata → k ∉ PyDict.keys item →
                   PyDict.get k d = Some VNone)
           ∧ (PyDict.wf item →
              ∀ k v, PyDict.get k item = Some v → PyDict.get k d = Some v)).
Proof.
  split; [apply elem_of_superset|].
  unfold standardize_metadata_by_repo.
  destruct (standardize_fold
              (PyDict.update (defaults_of (get_superset_of_keys metadata)))
              metadata []) as (Hkeys & Hentries).
  split.
  - intros r. rewrite Hkeys.
    change (PyDict.keys (V:=pydict value) []) with (@nil string).
    rewrite elem_of_nil. tauto.
  - intros r d Hin.
    destruct (Hentries r d Hin) as [Hnil|(item & Hitem & ->)];
      [by apply elem_of_nil in Hnil|].
    assert (Hsub : PyDict.keys item ⊆ elements (get_superset_of_keys metadata)).
    { intros k Hk. apply elem_of_elements, elem_of_superset. eauto. }
    destruct (standardized_entry _ item Hsub)
      as (Hwf & Hlen & Hks & Hnone & Hkeep).
    repeat split; try done; try by apply Hks. eauto.
Qed.

(** The keys of a standardized mapping are the keys of the superset. *)
Lemma standardized_keys metadata r d :
  (r, d) ∈ standardize_metadata_by_repo metadata →
  ∀ k, k ∈ PyDict.keys d ↔ k ∈ get_superset_of_keys metadata.
Proof.
  unfold standardize_metadata_by_repo. intros Hin.
  destruct (standardize_fold
              (PyDict.update (defaults_of (get_superset_of_keys metadata)))
              metadata []) as (_ & Hentries).
  destruct (Hentries r d Hin) as [Hnil|(item & Hitem & ->)];
    [by apply elem_of_nil in Hnil|].
  apply standardized_entry. intros k Hk.
  apply elem_of_elements, elem_of_superset. eauto.
Qed.


Lemma standardized_same_keys_witness :
  Forall (λ entry : string * pydict value, PyDict.len entry.2 = 3)
    (standardize_metadata_by_repo two_repositories).
Proof.
  apply Forall_forall. intros [r d] Hin.
  destruct (standardized_same_keys two_repositories) as (_ & _ & Hall).
  destruct (Hall r d Hin) as (_ & Hlen & _). simpl. rewrite Hlen. by vm_compute.
Defined.

(** The two repositories of scenario D: the first has no [c], the second
    no [b]. *)
Lemma standardize_two_repositories :
  ∃ first second,
    standardize_metadata_by_repo two_repositories
    = [("first", first); ("second", second)]
    ∧ PyDict.get "c" first = Some VNone
    ∧ PyDict.get "b" second = Some VNone
    ∧ PyDict.get "a" first = Some (VInt 1).
Proof. eexists _, _. split; [by vm_compute|]. by vm_compute. Qed.

End standardizing.

(** ** The report writer *)

Section report_writer.

Implicit Types (metadata : pydict (pydict value)) (cfg : configuration)
  (k : string).

Lemma discard_fold (keys : gset string) (order : list string) :
  fold_left (λ keys key, keys ∖ {[key]}) order keys
  = keys ∖ list_to_set order.
Proof.
  revert keys. induction order as [|key order IH]; intros keys; simpl.
  - apply set_eq. intros k.
    rewrite elem_of_difference, elem_of_empty. tauto.
  - rewrite IH. apply set_eq. intros k.
    rewrite !elem_of_difference, elem_of_union, elem_of_singleton. tauto.
Qed.

Lemma sorted_aliased_keys_fold cfg (keys aliased : list string) :
  fold_left
    (λ aliased key,
       match PyDict.get key (key_aliases cfg) with
       | Some alias => aliased ++ [alias]
       | None => aliased ++ [key]
       end)
    keys aliased
  = aliased ++ (alias_of cfg <$> keys).
Proof.
  revert aliased. induction keys as [|key keys IH]; intros aliased; simpl.
  - by rewrite app_nil_r.
  - rewrite IH. unfold alias_of at 2.
    destruct (PyDict.get key (key_aliases cfg)); simpl; by rewrite <- app_assoc.
Qed.

Lemma sorted_aliased_keys_eq cfg (keys : list string) :
  sorted_aliased_keys cfg keys = alias_of cfg <$> keys.
Proof. unfold sorted_aliased_keys. by rewrite sorted_aliased_keys_fold. Qed.

(** The writer: the header row, then the rows. *)
Lemma write_eq metadata filename cfg :
  write_squashed_metadata_to_csv metadata filename cfg
  = (csv_header metadata cfg
     :: (for_each metadata (write_row (sorted_keys metadata cfg)) tt).1,
     (for_each metadata (write_row (sorted_keys metadata cfg)) tt).2).
Proof.
  unfold write_squashed_metadata_to_csv, emit. rewrite bind_ok. simpl.
  by rewrite sorted_aliased_keys_eq.
Qed.

(** The columns: [check_order], then the rest of the superset, sorted. *)
Lemma sorted_keys_split metadata cfg :
  ∃ rest,
    sorted_keys metadata cfg = check_order cfg ++ rest
    ∧ StronglySorted String.le rest
    ∧ NoDup rest
    ∧ (∀ k, k ∈ rest ↔ k ∈ get_superset_of_keys metadata ∧ k ∉ check_order cfg).
Proof.
  unfold sorted_keys. rewrite discard_fold.
  set (keys := get_superset_of_keys metadata ∖ list_to_set (check_order cfg)).
  assert (Hperm : sorted (elements keys) ≡ₚ elements keys)
    by apply merge_sort_Permutation.
  exists (sorted (elements keys)). split; [done|]. split.
  { apply StronglySorted_merge_sort; apply _. }
  split.
  - rewrite Hperm. apply NoDup_elements.
  - intros k. rewrite Hperm, elem_of_elements. unfold keys.
    rewrite elem_of_difference, elem_of_list_to_set. tauto.
Qed.




(** The comprehension over the columns of one row: it raises at the first
    key the mapping lacks, and is a list of cells when it lacks none. *)
Lemma comprehension_subscript (item : pydict value) (keys : list string) :
  (∃ cells,
     comprehension (subscript item) keys = (([] : list (list value)), Ok cells)
     ∧ ∀ k, k ∈ keys → k ∈ PyDict.keys item)
  ∨ (∃ k,
       comprehension (subscript item) keys
       = (([] : list (list value)), Raise (KeyError k))
       ∧ k ∈ keys ∧ (k ∉ PyDict.keys item)).
Proof.
  induction keys as [|key keys IH].
  - left. exists []. split; [done|]. intros k Hk. by apply elem_of_nil in Hk.
  - cbn [comprehension].
    destruct (PyDict.get key item) as [v|] eqn:Hget.
    + assert (subscript (W:=list value) item key = mret v) as ->
        by (unfold subscript; by rewrite Hget).
      rewrite !bind_ret.
      destruct IH as [(cells & -> & Hall)|(k & -> & Hk & Hnotin)].
      * left. exists (v :: cells). split; [done|].
        intros k [->|Hk]%elem_of_cons; [|by apply Hall].
        apply get_Some_keys. eauto.
      * right. exists k. split; [done|]. split; [by right|done].
    + assert (subscript (W:=list value) item key = raise (KeyError key)) as ->
        by (unfold subscript; by rewrite Hget).
      right. exists key. split; [done|]. split; [by left|].
      by apply get_None_keys.
Qed.

(** One row: written when the mapping has every column. *)
Lemma write_row_cases (keys : list string) (entry : string * pydict value) :
  (∃ cells,
     write_row keys tt entry = ([VStr entry.1 :: cells], Ok tt)
     ∧ complete keys entry)
  ∨ (∃ k,
       write_row keys tt entry = ([], Raise (KeyError k))
       ∧ k ∈ keys ∧ (k ∉ PyDict.keys entry.2)).
Proof.
  unfold write_row.
  destruct (comprehension_subscript entry.2 keys)
    as [(cells & -> & Hall)|(k & -> & Hk & Hnotin)].
  - left. exists cells. by rewrite bind_ok.
  - right. by exists k.
Qed.

(** The loop over the repositories: it writes a row for every repository
    up to the first whose mapping lacks a column, and raises there. *)
Lemma write_rows (keys : list string) metadata :
  (∃ rows,
     for_each metadata (write_row keys) tt = (rows, Ok tt)
     ∧ length rows = length metadata
     ∧ Forall (complete keys) metadata)
  ∨ (∃ rows before entry after k,
       for_each metadata (write_row keys) tt = (rows, Raise (KeyError k))
       ∧ metadata = before ++ entry :: after
       ∧ Forall (complete keys) before
       ∧ k ∈ keys
       ∧ (k ∉ PyDict.keys entry.2)
       ∧ length rows = length before).
Proof.
  induction metadata as [|entry metadata IH].
  - left. exists []. repeat split. constructor.
  - rewrite for_each_cons.
    destruct (write_row_cases keys entry)
      as [(cells & Hrow & Hall)|(k & Hrow & Hk & Hnotin)]; rewrite Hrow.
    + rewrite bind_ok.
      destruct IH as [(rows & -> & Hlen & Hcomplete)
                     |(rows & before & e & after & k & -> & -> & Hbefore
                       & Hk & Hnotin & Hlen)].
      * left. eexists. split; [reflexivity|]. simpl.
        split; [by rewrite Hlen|]. by constructor.
      * right. exists ((VStr entry.1 :: cells) :: rows), (entry :: before),
          e, after, k.
        simpl. repeat split; try done; [by constructor|by rewrite Hlen].
    + right. exists [], [], entry, metadata, k. by repeat split.
Qed.

(** C10.  When some repository's mapping lacks a key of [check_order], the
    writer raises a [KeyError] and does not return: it has written the
    header row and a row for each repository before the first one that
    lacks a column, and the key of the error is a column that repository
    lacks.  On a standardized set this is the first repository, and the key
    is a key of [check_order] that no repository has. *)
Theorem missing_check_raises metadata filename cfg r (item : pydict value) k :
  (r, item) ∈ metadata →
  k ∈ check_order cfg →
  k ∉ PyDict.keys item →
  (∃ rows before entry after k',
     write_squashed_metadata_to_csv metadata filename cfg
     = (csv_header metadata cfg :: rows, Raise (KeyError k'))
     ∧ metadata = before ++ entry :: after
     ∧ Forall (complete (sorted_keys metadata cfg)) before
     ∧ k' ∈ sorted_keys metadata cfg
     ∧ (k' ∉ PyDict.keys entry.2)
     ∧ length rows = length before
     ∧ (standardized metadata →
        before = [] ∧ rows = [] ∧ k' ∈ check_order cfg
        ∧ (k' ∉ get_superset_of_keys metadata)))
  ∧ ∀ rows,
      write_squashed_metadata_to_csv metadata filename cfg ≠ (rows, Ok tt).
Proof.
  intros Hin Hk Hnotin. rewrite write_eq.
  destruct (write_rows (sorted_keys metadata cfg) metadata)
    as [(rows & Hrun & _ & Hcomplete)
       |(rows & before & entry & after & k' & Hrun & Hsplit & Hbefore & Hk'
         & Hnotin' & Hlen)].
  - exfalso. rewrite Forall_forall in Hcomplete.
    apply Hnotin, (Hcomplete (r, item) Hin k).
    unfold sorted_keys. apply elem_of_app. by left.
  - rewrite Hrun. simpl. split; [|by intros rows' [=]].
    exists rows, before, entry, after, k'. repeat (split; [done|]).
    intros Hstd. unfold standardized in Hstd. rewrite Forall_forall in Hstd.
    assert (Hentry : entry ∈ metadata).
    { rewrite Hsplit. apply elem_of_app. right. by left. }
    assert (Hsuper : k' ∉ get_superset_of_keys metadata).
    { intros Hs. apply Hnotin', (Hstd entry Hentry). by apply elem_of_elements. }
    assert (before = []) as ->.
    { destruct before as [|first before]; [done|]. exfalso.
      apply Forall_cons in Hbefore as [Hfirst _]. apply Hsuper.
      apply elem_of_superset. exists first.1, first.2. split; [|by apply Hfirst].
      rewrite Hsplit. destruct first. by left. }
    destruct rows; [|done]. repeat split; try done.
    destruct (sorted_keys_split metadata cfg) as (rest & Heq & _ & _ & Hrest).
    rewrite Heq in Hk'. apply elem_of_app in Hk' as [?|Hr]; [done|].
    by apply Hrest in Hr as [? _].
Qed.

Lemma missing_check_raises_witness :
  write_squashed_metadata_to_csv
    (standardize_metadata_by_repo two_repositories) "report.csv" unknown_check
  = ([VStr <$> ["repo_name"; "c"; "owner"; "Alpha"; "b"]],
     Raise (KeyError "owner")).
Proof.
  destruct (missing_check_raises
              (standardize_metadata_by_repo two_repositories) "report.csv"
              unknown_check "first"
              (default [] (PyDict.get "first"
                             (standardize_metadata_by_repo two_repositories)))
              "owner")
    as [(rows & before & entry & after & k' & Hrun & _) _].
  - vm_compute. by left.
  - right. by left.
  - apply get_None_keys. by vm_compute.
  - by vm_compute.
Defined.

(** The other direction: the writer returns, with a row for every
    repository, when every mapping has every column. *)
Lemma write_returns metadata filename cfg :
  Forall (complete (sorted_keys metadata cfg)) metadata →
  ∃ rows,
    write_squashed_metadata_to_csv metadata filename cfg
    = (csv_header metadata cfg :: rows, Ok tt)
    ∧ length rows = length metadata.
Proof.
  intros Hcomplete. rewrite write_eq.
  destruct (write_rows (sorted_keys metadata cfg) metadata)
    as [(rows & -> & Hlen & _)
       |(rows & before & entry & after & k & _ & Hsplit & _ & Hk & Hnotin & _)].
  - eauto.
  - exfalso. rewrite Forall_forall in Hcomplete. apply Hnotin.
    apply (Hcomplete entry); [|done]. rewrite Hsplit.
    apply elem_of_app. right. by left.
Qed.

Lemma write_two_repositories :
  write_squashed_metadata_to_csv
    (standardize_metadata_by_repo two_repositories) "report.csv" known_checks
  = ([VStr <$> ["repo_name"; "c"; "Alpha"; "b"];
      [VStr "first"; VNone; VInt 1; VInt 2];
      [VStr "second"; VInt 4; VInt 3; VNone]],
     Ok tt).
Proof. by vm_compute. Qed.

End report_writer.

(** ** More on flattening *)

Section flattening_more.

Implicit Types (input d output : pydict value) (delimiter k : string).

(** X1.  For every nested mapping and every delimiter, the keys of what
    [squash_dict] returns are the paths to the leaves of the input, joined
    with the delimiter after the first key and with the default delimiter
    further down; every entry holds the leaf at such a path; and no value
    of the output is a mapping, while a list is kept as it is. *)
Theorem squash_dict_paths input delimiter :
  (∀ k, k ∈ PyDict.keys (squash_dict input delimiter)
        ↔ ∃ path leaf, (path, leaf) ∈ leaves (VDict input)
                       ∧ k = flat_key delimiter path)
  ∧ (∀ k leaf, (k, leaf) ∈ squash_dict input delimiter →
       is_dict leaf = false
       ∧ ∃ path, (path, leaf) ∈ leaves (VDict input)
                 ∧ k = flat_key delimiter path)
  ∧ (∀ path, flat_key default_delimiter path = PyStr.join default_delimiter path).
Proof.
  destruct (squash_dict_value_squashes (VDict input) delimiter)
    as (Hkeys & Hentries).
  split; [done|]. split; [|apply flat_key_default].
  intros k leaf Hin. destruct (Hentries k leaf Hin) as (path & Hpath & ->).
  split; [|eauto].
  destruct leaf; try done. by destruct (leaves_not_dict _ _ _ Hpath d).
Qed.

Lemma set_fresh {V} (dict : pydict V) k (v : V) :
  k ∉ PyDict.keys dict → PyDict.set k v dict = dict ++ [(k, v)].
Proof.
  induction dict as [|[k' v'] dict IH]; [done|].
  rewrite keys_cons. intros [Hne Hk]%not_elem_of_cons. simpl.
  destruct (String.eqb_spec k' k); [congruence|]. by rewrite IH.
Qed.

(** Assignments to keys that are new and distinct append in order. *)
Lemma assign_fresh {V} (xs dict : pydict V) :
  NoDup (PyDict.keys dict ++ PyDict.keys xs) →
  fold_left (λ acc (x : string * V), PyDict.set x.1 x.2 acc) xs dict = dict ++ xs.
Proof.
  revert dict. induction xs as [|[k v] xs IH]; intros dict Hnd; simpl.
  - by rewrite app_nil_r.
  - rewrite keys_cons in Hnd.
    rewrite set_fresh.
    + rewrite IH; [by rewrite <- app_assoc|].
      unfold PyDict.keys in *. rewrite fmap_app. simpl.
      by rewrite <- app_assoc.
    + apply NoDup_app in Hnd as (_ & Hdisj & _). intros Hk.
      apply (Hdisj k Hk). by left.
Qed.

Lemma squash_step_leaf delimiter output (item : string * value) :
  is_dict item.2 = false →
  squash_step delimiter output item = PyDict.set item.1 item.2 output.
Proof. unfold squash_step. by destruct item.2. Qed.

Lemma squash_fold_flat delimiter input output :
  flat input →
  fold_left (squash_step delimiter) input output
  = fold_left (λ acc (x : string * value), PyDict.set x.1 x.2 acc) input output.
Proof.
  revert output. induction input as [|item input IH]; intros output Hflat;
    [done|].
  apply Forall_cons in Hflat as [Hitem Hflat]. simpl.
  rewrite squash_step_leaf by done. by apply IH.
Qed.

Lemma squash_step_wf delimiter output (item : string * value) :
  PyDict.wf output → PyDict.wf (squash_step delimiter output item).
Proof.
  unfold squash_step. destruct item.2; auto using wf_set.
  generalize (squash_dict_value (VDict d) default_delimiter). intros temp.
  revert output. induction temp as [|item2 temp IH]; intros output Hwf; [done|].
  simpl. by apply IH, wf_set.
Qed.

(** What [squash_dict] returns is a dictionary in good order. *)
Lemma squash_dict_wf input delimiter : PyDict.wf (squash_dict input delimiter).
Proof.
  unfold squash_dict. rewrite squash_dict_value_eq.
  assert (H : ∀ output, PyDict.wf output →
                        PyDict.wf (fold_left (squash_step delimiter) input output)).
  { induction input as [|item input IH]; intros output Hwf; [done|].
    simpl. by apply IH, squash_step_wf. }
  apply H, NoDup_nil_2.
Qed.

Lemma squash_dict_is_flat input delimiter : flat (squash_dict input delimiter).
Proof.
  apply Forall_forall. intros [k leaf] Hin. simpl.
  destruct (squash_dict_value_squashes (VDict input) delimiter) as (_ & Hentries).
  destruct (Hentries k leaf Hin) as (path & Hpath & _).
  destruct leaf; try done. by destruct (leaves_not_dict _ _ _ Hpath d).
Qed.

(** X2.  Flattening a mapping of one level, in good order, gives the
    mapping back, whatever the delimiter. *)
Theorem squash_dict_flat_identity input delimiter :
  PyDict.wf input → flat input → squash_dict input delimiter = input.
Proof.
  intros Hwf Hflat. unfold squash_dict.
  rewrite squash_dict_value_eq, squash_fold_flat by done.
  by rewrite assign_fresh.
Qed.

Lemma squash_dict_flat_identity_witness :
  squash_dict flat_result "/" = flat_result.
Proof.
  apply squash_dict_flat_identity.
  - apply (bool_decide_unpack _). by vm_compute.
  - unfold flat, flat_result. repeat constructor.
Defined.

(** X3.  Flattening twice is flattening once: what [squash_dict] returns
    is in good order and of one level, and flattening it again, with any
    delimiter, changes nothing. *)
Theorem squash_dict_idempotent input delimiter delimiter' :
  PyDict.wf (squash_dict input delimiter)
  ∧ flat (squash_dict input delimiter)
  ∧ squash_dict (squash_dict input delimiter) delimiter'
    = squash_dict input delimiter.
Proof.
  split; [apply squash_dict_wf|]. split; [apply squash_dict_is_flat|].
  unfold squash_dict at 1.
  rewrite squash_dict_value_eq, squash_fold_flat by apply squash_dict_is_flat.
  rewrite assign_fresh; [done|]. apply squash_dict_wf.
Qed.

Lemma eqb_app_strip (p s k : string) :
  String.eqb (p +:+ s) k
  = match strip_prefix p k with
    | Some rest => String.eqb s rest
    | None => false
    end.
Proof.
  revert k. induction p as [|a p IH]; intros k; [done|].
  destruct k as [|b k]; [done|].
  change (String a p +:+ s) with (String a (p +:+ s)).
  cbn [String.eqb strip_prefix].
  destruct (Ascii.eqb a b); [apply IH|done].
Qed.

Section last_assigned.
Context {A V : Type}.

Implicit Types (key : A → string) (val : A → V) (xs : list A) (acc : option V).

Lemma get_assign_fold key val xs (dict : pydict V) k :
  PyDict.get k (fold_left (λ out x, PyDict.set (key x) (val x) out) xs dict)
  = last_assigned key val k xs (PyDict.get k dict).
Proof.
  unfold last_assigned. revert dict.
  induction xs as [|x xs IH]; intros dict; [done|].
  simpl. rewrite IH, get_set. f_equal.
  destruct (String.eqb_spec (key x) k); by case_decide.
Qed.

Lemma last_assigned_acc key val k xs acc :
  last_assigned key val k xs acc
  = match last_assigned key val k xs None with
    | Some v => Some v
    | None => acc
    end.
Proof.
  unfold last_assigned. revert acc.
  induction xs as [|x xs IH]; intros acc; [done|]. simpl.
  destruct (String.eqb (key x) k); [|apply IH].
  rewrite IH.
  by destruct (fold_left _ xs None).
Qed.

Lemma last_assigned_app key val k xs ys acc :
  last_assigned key val k (xs ++ ys) acc
  = last_assigned key val k ys (last_assigned key val k xs acc).
Proof. unfold last_assigned. by rewrite fold_left_app. Qed.

Lemma last_assigned_ext key key' val k xs acc :
  (∀ x, x ∈ xs → key x = key' x) →
  last_assigned key val k xs acc = last_assigned key' val k xs acc.
Proof.
  unfold last_assigned. revert acc.
  induction xs as [|x xs IH]; intros acc Heq; [done|]. simpl.
  rewrite (Heq x) by left. apply IH. intros y Hy. apply Heq. by right.
Qed.

Lemma last_assigned_fmap {B} (g : B → A) key val k (ys : list B) acc :
  last_assigned key val k (g <$> ys) acc
  = last_assigned (key ∘ g) (val ∘ g) k ys acc.
Proof.
  unfold last_assigned. revert acc.
  induction ys as [|y ys IH]; intros acc; [done|]. simpl. apply IH.
Qed.

(** Under a common prefix, the key is looked for behind the prefix. *)
Lemma last_assigned_prefix (p : string) key val k xs acc :
  last_assigned (λ x, p +:+ key x) val k xs acc
  = match strip_prefix p k with
    | Some rest => last_assigned key val rest xs acc
    | None => acc
    end.
Proof.
  unfold last_assigned. revert acc.
  induction xs as [|x xs IH]; intros acc; simpl.
  - by destruct (strip_prefix p k).
  - rewrite IH, eqb_app_strip. by destruct (strip_prefix p k).
Qed.

End last_assigned.

(** In a dictionary in good order, the last assignment is the entry. *)
Lemma last_assigned_get {V} (dict : pydict V) k :
  PyDict.wf dict →
  last_assigned (λ x : string * V, x.1) (λ x : string * V, x.2) k dict None
  = PyDict.get k dict.
Proof.
  unfold PyDict.wf. induction dict as [|[k0 v0] dict IH]; intros Hwf; [done|].
  rewrite keys_cons in Hwf. apply NoDup_cons in Hwf as [Hnotin Hwf].
  change ((k0, v0) :: dict) with ([(k0, v0)] ++ dict).
  rewrite last_assigned_app, last_assigned_acc, (IH Hwf). simpl.
  destruct (String.eqb_spec k0 k) as [->|Hne]; simpl.
  - apply get_None_keys in Hnotin. by rewrite Hnotin.
  - by destruct (PyDict.get k dict).
Qed.

(** One turn of the loop of [squash_dict], at the key [k]. *)
Lemma squash_step_get delimiter output (item : string * value) k :
  last_wins item.2 →
  PyDict.get k (squash_step delimiter output item)
  = last_assigned (λ leaf : list string * value, flat_key delimiter leaf.1)
      (λ leaf : list string * value, leaf.2) k (item_leaves item)
      (PyDict.get k output).
Proof.
  destruct item as [key child]. unfold squash_step, item_leaves. simpl.
  intros Hchild.
  destruct child as [| b | n | s | l | c];
    try (rewrite get_set; unfold last_assigned; simpl;
         destruct (String.eqb_spec key k); by case_decide).
  rewrite (get_assign_fold
             (λ item2 : string * value, key +:+ delimiter +:+ item2.1)
             (λ item2 : string * value, item2.2)).
  rewrite last_assigned_fmap.
  rewrite (last_assigned_ext
             (_ ∘ _)
             (λ leaf : list string * value,
                key +:+ delimiter +:+ flat_key default_delimiter leaf.1)).
  2:{ intros [path leaf] Hin. simpl. apply flat_key_cons.
      by eapply leaves_path_nonempty. }
  rewrite (last_assigned_prefix key
             (λ item2 : string * value, delimiter +:+ item2.1)).
  rewrite (last_assigned_prefix key
             (λ leaf : list string * value,
                delimiter +:+ flat_key default_delimiter leaf.1)).
  destruct (strip_prefix key k) as [k1|]; [|done].
  rewrite (last_assigned_prefix delimiter (λ item2 : string * value, item2.1)).
  rewrite (last_assigned_prefix delimiter
             (λ leaf : list string * value, flat_key default_delimiter leaf.1)).
  destruct (strip_prefix delimiter k1) as [k2|]; [|done].
  rewrite last_assigned_acc.
  rewrite last_assigned_get by apply (squash_dict_wf c default_delimiter).
  rewrite (Hchild default_delimiter k2). unfold last_leaf.
  symmetry. apply last_assigned_acc.
Qed.

Lemma squash_fold_get delimiter input output k :
  Forall (λ item : string * value, last_wins item.2) input →
  PyDict.get k (fold_left (squash_step delimiter) input output)
  = last_assigned (λ leaf : list string * value, flat_key delimiter leaf.1)
      (λ leaf : list string * value, leaf.2) k (leaves (VDict input))
      (PyDict.get k output).
Proof.
  revert output. induction input as [|item input IH]; intros output Hall;
    [done|].
  apply Forall_cons in Hall as [Hitem Hall]. cbn [fold_left].
  rewrite (IH _ Hall), leaves_cons, last_assigned_app.
  by rewrite squash_step_get.
Qed.

Lemma squash_dict_value_last_wins (v : value) : last_wins v.
Proof.
  induction v as [| | | | |d IH] using value_nested_ind;
    try (by intros delimiter k).
  intros delimiter k. rewrite squash_dict_value_eq.
  by rewrite squash_fold_get.
Qed.

(** X4.  Where several paths flatten to the same key, the last one wins:
    for every key, what [squash_dict] returns holds the leaf of the last
    path, in the order of the input, that flattens to the key, and nothing
    for a key no path flattens to. *)
Theorem squash_dict_last_wins input delimiter k :
  PyDict.get k (squash_dict input delimiter)
  = last_leaf delimiter k (leaves (VDict input)).
Proof. apply squash_dict_value_last_wins. Qed.

(** A nested branch and a literal key that collide: one entry, with the
    value of the later one. *)
Lemma squash_dict_colliding :
  squash_dict colliding default_delimiter = [("a.b", VInt 2); ("c", VInt 3)].
Proof. reflexivity. Qed.

End flattening_more.

(** ** More on standardizing *)

Section standardizing_more.

Implicit Types (metadata : pydict (pydict value)) (d item : pydict value)
  (k r : string).

(** Two dictionaries in good order with the same keys, in the same order,
    and the same values are the same. *)
Lemma dict_ext {V} (d1 d2 : pydict V) :
  PyDict.wf d1 →
  PyDict.keys d1 = PyDict.keys d2 →
  (∀ k, PyDict.get k d1 = PyDict.get k d2) →
  d1 = d2.
Proof.
  unfold PyDict.wf. revert d2.
  induction d1 as [|[k1 v1] d1 IH]; intros [|[k2 v2] d2] Hwf Hkeys Hget;
    try done.
  rewrite !keys_cons in Hkeys. injection Hkeys as -> Hkeys.
  rewrite keys_cons in Hwf. apply NoDup_cons in Hwf as [Hnotin Hwf].
  pose proof (Hget k2) as Hk2. simpl in Hk2. rewrite String.eqb_refl in Hk2.
  injection Hk2 as ->. f_equal. apply IH; [done..|].
  intros k. destruct (decide (k = k2)) as [->|Hne].
  - transitivity (@None V); [|symmetry]; apply get_None_keys; congruence.
  - specialize (Hget k). simpl in Hget.
    by destruct (String.eqb_spec k2 k); [congruence|].
Qed.

Lemma keys_update_subset {V} (dict other : pydict V) :
  PyDict.keys other ⊆ PyDict.keys dict →
  PyDict.keys (PyDict.update dict other) = PyDict.keys dict.
Proof.
  unfold PyDict.update. revert dict.
  induction other as [|[k v] other IH]; intros dict Hsub; [done|]. simpl.
  assert (Hk : k ∈ PyDict.keys dict) by (apply Hsub; by left).
  assert (Hset : PyDict.keys (PyDict.set k v dict) = PyDict.keys dict).
  { rewrite keys_set. by rewrite decide_True. }
  rewrite IH; [done|]. rewrite Hset. intros k' Hk'. apply Hsub. by right.
Qed.

(** Updating a dictionary with one in good order that has its keys, in its
    order, gives that one. *)
Lemma update_same_keys {V} (dict other : pydict V) :
  PyDict.wf dict → PyDict.wf other →
  PyDict.keys dict = PyDict.keys other →
  PyDict.update dict other = other.
Proof.
  intros Hwf Hother Hkeys. apply dict_ext.
  - by apply wf_update.
  - rewrite keys_update_subset; [done|]. by rewrite Hkeys.
  - intros k. destruct (PyDict.get k other) as [v|] eqn:Hget.
    + by apply get_update_wf.
    + apply get_None_keys in Hget. rewrite get_update_other by done.
      apply get_None_keys. by rewrite Hkeys.
Qed.

(** A loop [output[name] = f(item)] over entries with new and distinct
    names appends them in order. *)
Lemma assign_map_fresh {A V} (f : string * A → V) (xs : pydict A)
    (output : pydict V) :
  NoDup (PyDict.keys output ++ PyDict.keys xs) →
  fold_left (λ out (x : string * A), PyDict.set x.1 (f x) out) xs output
  = output ++ ((λ x : string * A, (x.1, f x)) <$> xs).
Proof.
  revert output. induction xs as [|[k v] xs IH]; intros output Hnd; simpl.
  - by rewrite app_nil_r.
  - rewrite keys_cons in Hnd. rewrite set_fresh.
    + rewrite IH; [by rewrite <- app_assoc|].
      unfold PyDict.keys in *. rewrite fmap_app. simpl.
      by rewrite <- app_assoc.
    + apply NoDup_app in Hnd as (_ & Hdisj & _). intros Hk.
      apply (Hdisj k Hk). by left.
Qed.

Lemma assign_wf {A V} (key : A → string) (val : A → V) (xs : list A)
    (output : pydict V) :
  PyDict.wf output →
  PyDict.wf (fold_left (λ out x, PyDict.set (key x) (val x) out) xs output).
Proof.
  revert output. induction xs as [|x xs IH]; intros output Hwf; [done|].
  simpl. by apply IH, wf_set.
Qed.

Lemma standardize_wf metadata : PyDict.wf (standardize_metadata_by_repo metadata).
Proof.
  unfold standardize_metadata_by_repo.
  apply (assign_wf (λ entry : string * pydict value, entry.1)
           (λ entry : string * pydict value,
              PyDict.update (defaults_of (get_superset_of_keys metadata)) entry.2)).
  apply NoDup_nil_2.
Qed.

(** For repositories with distinct names, the loop is a map. *)
Lemma standardize_map metadata :
  PyDict.wf metadata →
  standardize_metadata_by_repo metadata = standardized_item metadata <$> metadata.
Proof.
  intros Hwf. unfold standardize_metadata_by_repo.
  by rewrite (assign_map_fresh
                (λ entry : string * pydict value,
                   PyDict.update (defaults_of (get_superset_of_keys metadata))
                     entry.2)).
Qed.

Lemma keys_standardized_item metadata (entries : pydict (pydict value)) :
  PyDict.keys (standardized_item metadata <$> entries) = PyDict.keys entries.
Proof.
  unfold PyDict.keys. rewrite <- list_fmap_compose. by apply list_fmap_ext.
Qed.

(** Looking up a name in a dictionary whose values went through [f]. *)
Lemma get_fmap_entry {A B} (f : A → B) (entries : pydict A) key a :
  PyDict.wf entries → (key, a) ∈ entries →
  PyDict.get key ((λ entry : string * A, (entry.1, f entry.2)) <$> entries)
  = Some (f a).
Proof.
  unfold PyDict.wf.
  induction entries as [|[k v] entries IH]; intros Hwf Hin;
    [by apply elem_of_nil in Hin|].
  rewrite keys_cons in Hwf. apply NoDup_cons in Hwf as [Hk Hwf].
  rewrite fmap_cons. cbn [PyDict.get fst snd].
  apply elem_of_cons in Hin as [[= -> ->]|Hin].
  - by rewrite String.eqb_refl.
  - destruct (String.eqb_spec k key) as [->|Hne]; [|by apply IH].
    exfalso. apply Hk. unfold PyDict.keys.
    apply list_elem_of_fmap. by exists (key, a).
Qed.

(** X5.  For repositories with distinct names, [standardize_metadata_by_repo]
    keeps the repositories, in their order: none is lost, merged or moved;
    and the mapping of each is the defaults, a [None] for every key of the
    superset, updated with the mapping it had. *)
Theorem standardize_keeps_repositories metadata :
  PyDict.wf metadata →
  PyDict.keys (standardize_metadata_by_repo metadata) = PyDict.keys metadata
  ∧ ∀ name item,
      (name, item) ∈ metadata →
      PyDict.get name (standardize_metadata_by_repo metadata)
      = Some (PyDict.update (defaults_of (get_superset_of_keys metadata)) item).
Proof.
  intros Hwf. rewrite standardize_map by done.
  split; [apply keys_standardized_item|].
  intros name item Hin.
  by apply (get_fmap_entry
              (PyDict.update (defaults_of (get_superset_of_keys metadata)))).
Qed.

Lemma standardize_keeps_repositories_witness :
  PyDict.keys (standardize_metadata_by_repo two_repositories)
  = ["first"; "second"].
Proof.
  refine (proj1 (standardize_keeps_repositories two_repositories _)).
  apply (bool_decide_unpack _). by vm_compute.
Defined.

(** The mappings of a standardized set have the keys of the defaults, in
    their order. *)
Lemma standardized_keys_list metadata r d :
  (r, d) ∈ standardize_metadata_by_repo metadata →
  PyDict.wf d
  ∧ PyDict.keys d = PyDict.keys (defaults_of (get_superset_of_keys metadata)).
Proof.
  unfold standardize_metadata_by_repo. intros Hin.
  destruct (standardize_fold
              (PyDict.update (defaults_of (get_superset_of_keys metadata)))
              metadata []) as (_ & Hentries).
  destruct (Hentries r d Hin) as [Hnil|(item & Hitem & ->)];
    [by apply elem_of_nil in Hnil|].
  destruct (defaults_of_spec (get_superset_of_keys metadata)) as (Hwf & Hkeys & _).
  split; [by apply wf_update|].
  apply keys_update_subset. intros k Hk. apply Hkeys, elem_of_superset. eauto.
Qed.

Lemma superset_standardize metadata :
  metadata ≠ [] →
  get_superset_of_keys (standardize_metadata_by_repo metadata)
  = get_superset_of_keys metadata.
Proof.
  intros Hne. apply set_eq. intros k. rewrite elem_of_superset. split.
  - intros (r & d & Hin & Hk). by apply (standardized_keys _ _ _ Hin).
  - intros Hk. destruct metadata as [|[r item] metadata]; [done|].
    assert (r ∈ PyDict.keys (standardize_metadata_by_repo ((r, item) :: metadata)))
      as Hr.
    { unfold standardize_metadata_by_repo.
      destruct (standardize_fold
                  (PyDict.update
                     (defaults_of (get_superset_of_keys ((r, item) :: metadata))))
                  ((r, item) :: metadata) []) as (Hkeys & _).
      apply Hkeys. right. by left. }
    apply list_elem_of_fmap in Hr as ([r' d] & -> & Hin). simpl.
    exists r', d. split; [done|]. by apply (standardized_keys _ _ _ Hin).
Qed.

Lemma fold_left_ext_in {A B} (f g : B → A → B) (xs : list A) (b : B) :
  (∀ acc x, x ∈ xs → f acc x = g acc x) →
  fold_left f xs b = fold_left g xs b.
Proof.
  revert b. induction xs as [|x xs IH]; intros b Heq; [done|]. simpl.
  rewrite (Heq b x) by left. apply IH. intros acc y Hy. apply Heq. by right.
Qed.

(** X6.  Standardizing is idempotent: standardizing what
    [standardize_metadata_by_repo] returns gives it back, entry for entry. *)
Theorem standardize_idempotent metadata :
  standardize_metadata_by_repo (standardize_metadata_by_repo metadata)
  = standardize_metadata_by_repo metadata.
Proof.
  destruct (decide (metadata = [])) as [->|Hne]; [done|].
  set (std := standardize_metadata_by_repo metadata).
  unfold standardize_metadata_by_repo at 1. fold std.
  rewrite (fold_left_ext_in _
             (λ out (x : string * pydict value), PyDict.set x.1 x.2 out)).
  - rewrite assign_fresh; [done|]. apply standardize_wf.
  - intros out [r d] Hin. simpl. f_equal.
    unfold std. rewrite superset_standardize by done.
    destruct (standardized_keys_list _ _ _ Hin) as (Hwf & Hkeys).
    apply update_same_keys; [|done..].
    apply defaults_of_spec.
Qed.

End standardizing_more.

(** ** Flattening, standardizing and writing together *)

Section pipeline.

Implicit Types (metadata : pydict (pydict value)) (d item : pydict value)
  (cfg : configuration) (k r : string).

(** The loop that replaces each mapping in place, for repositories with
    distinct names: a map. *)
Lemma replace_in_place {V} (f : V → V) (seen rest : pydict V) :
  NoDup (PyDict.keys seen ++ PyDict.keys rest) →
  fold_left (λ m (entry : string * V), PyDict.set entry.1 (f entry.2) m)
    rest (seen ++ rest)
  = seen ++ ((λ entry : string * V, (entry.1, f entry.2)) <$> rest).
Proof.
  revert seen. induction rest as [|[name v] rest IH]; intros seen Hnd; [done|].
  simpl. rewrite keys_cons in Hnd.
  assert (Hname : name ∉ PyDict.keys seen).
  { apply NoDup_app in Hnd as (_ & Hdisj & _). intros Hk.
    apply (Hdisj name Hk). by left. }
  assert (Hset : PyDict.set name (f v) (seen ++ (name, v) :: rest)
                 = (seen ++ [(name, f v)]) ++ rest).
  { clear Hnd IH. induction seen as [|[k' v'] seen IHs]; simpl.
    - by rewrite String.eqb_refl.
    - rewrite keys_cons in Hname. apply not_elem_of_cons in Hname as [Hne Hname].
      destruct (String.eqb_spec k' name); [congruence|]. by rewrite IHs. }
  rewrite Hset, IH.
  - by rewrite <- app_assoc.
  - unfold PyDict.keys in *. rewrite fmap_app. simpl. by rewrite <- app_assoc.
Qed.

Lemma squash_and_standardize_eq metadata :
  PyDict.wf metadata →
  squash_and_standardize_metadata_by_repo metadata
  = standardize_metadata_by_repo (squashed_item <$> metadata).
Proof.
  intros Hwf. unfold squash_and_standardize_metadata_by_repo.
  by rewrite (replace_in_place (λ v, squash_dict v default_delimiter) []).
Qed.

Lemma keys_squashed metadata :
  PyDict.keys (squashed_item <$> metadata) = PyDict.keys metadata.
Proof.
  unfold PyDict.keys. rewrite <- list_fmap_compose. by apply list_fmap_ext.
Qed.

Lemma defaults_entries (keys : gset string) k (v : value) :
  (k, v) ∈ defaults_of keys → v = VNone.
Proof.
  unfold defaults_of. intros Hin.
  destruct (assign_fold (λ x : string, x) (λ _ : string, VNone)
              (elements keys) []) as (_ & Hentries).
  destruct (Hentries k v Hin) as [Hnil|(x & _ & _ & ->)];
    [by apply elem_of_nil in Hnil|done].
Qed.

Lemma update_entries {V} (dict other : pydict V) k (v : V) :
  (k, v) ∈ PyDict.update dict other → (k, v) ∈ dict ∨ (k, v) ∈ other.
Proof.
  unfold PyDict.update. intros Hin.
  destruct (assign_fold (λ x : string * V, x.1) (λ x : string * V, x.2)
              other dict) as (_ & Hentries).
  destruct (Hentries k v Hin) as [?|([k' v'] & Hx & -> & ->)]; [by left|by right].
Qed.

(** X7.  For repositories with distinct names,
    [squash_and_standardize_metadata_by_repo] keeps the repositories in
    their order, and every mapping it returns is in good order, of one
    level, and has as its keys the joined paths to the leaves of all the
    repositories' results. *)
Theorem squash_and_standardize_keys metadata :
  PyDict.wf metadata →
  PyDict.keys (squash_and_standardize_metadata_by_repo metadata)
  = PyDict.keys metadata
  ∧ ∀ r d,
      (r, d) ∈ squash_and_standardize_metadata_by_repo metadata →
      PyDict.wf d ∧ flat d
      ∧ ∀ k, k ∈ PyDict.keys d
             ↔ ∃ r' item path leaf,
                 (r', item) ∈ metadata
                 ∧ (path, leaf) ∈ leaves (VDict item)
                 ∧ k = PyStr.join default_delimiter path.
Proof.
  intros Hwf. rewrite squash_and_standardize_eq by done.
  assert (Hwf' : PyDict.wf (squashed_item <$> metadata)).
  { unfold PyDict.wf. by rewrite keys_squashed. }
  split; [by rewrite standardize_map, keys_standardized_item, keys_squashed|].
  intros r d Hin.
  destruct (standardized_keys_list _ _ _ Hin) as (Hd & _).
  split; [done|]. split.
  - apply Forall_forall. intros [k v] Hkv. simpl.
    rewrite standardize_map in Hin by done.
    apply list_elem_of_fmap in Hin as ([r0 d0] & [= -> ->] & Hin). simpl in *.
    apply list_elem_of_fmap in Hin as ([r1 item] & [= -> ->] & Hin). simpl in *.
    apply update_entries in Hkv as [Hdef|Hsq].
    + by rewrite (defaults_entries _ _ _ Hdef).
    + pose proof (squash_dict_is_flat item default_delimiter) as Hflat.
      unfold flat in Hflat. rewrite Forall_forall in Hflat. apply (Hflat _ Hsq).
  - intros k. rewrite (standardized_keys _ _ _ Hin), elem_of_superset. split.
    + intros (r' & d' & Hin' & Hk).
      apply list_elem_of_fmap in Hin' as ([r1 item] & [= -> ->] & Hin'). simpl in *.
      destruct (squash_dict_value_squashes (VDict item) default_delimiter)
        as (Hkeys & _).
      apply Hkeys in Hk as (path & leaf & Hleaf & ->).
      exists r1, item, path, leaf. by rewrite flat_key_default.
    + intros (r' & item & path & leaf & Hin' & Hleaf & ->).
      exists r', (squash_dict item default_delimiter). split.
      * apply list_elem_of_fmap. by exists (r', item).
      * destruct (squash_dict_value_squashes (VDict item) default_delimiter)
          as (Hkeys & _).
        apply Hkeys. exists path, leaf. by rewrite flat_key_default.
Qed.

Lemma squash_and_standardize_keys_witness :
  PyDict.keys (squash_and_standardize_metadata_by_repo nested_repositories)
  = ["first"; "second"].
Proof.
  destruct (squash_and_standardize_keys nested_repositories) as [Hkeys _].
  - apply (bool_decide_unpack _). by vm_compute.
  - by rewrite Hkeys.
Defined.






End pipeline.

(** ** More on the aggregator *)

Section aggregator_more.

Implicit Types (repo : repository) (out result : pydict value).

Lemma aggregate_step_eq repo (count : Z) (output : pydict value)
    (reader : DependencyReader) log result :
  reader_read reader repo = (log, Ok result) →
  (result = [] ∨ ∃ c, PyDict.get "count" result = Some (VInt c)) →
  aggregate_step repo (count, output) reader
  = (log,
     Ok (if PyDict.truthy result
         then (count + count_of result,
               PyDict.update (PyDict.update output result)
                 [("count", VInt (count + count_of result))])
         else (count, output))).
Proof.
  intros Hread Hcount. unfold aggregate_step. rewrite Hread, bind_ok.
  destruct Hcount as [->|(c & Hc)]; simpl; [by rewrite app_nil_r|].
  destruct result as [|entry result]; [done|]. simpl PyDict.truthy.
  cbn [negb]. unfold count_of. rewrite Hc. simpl. by rewrite app_nil_r.
Qed.

Lemma js_read_count repo log result :
  JavascriptDependencyReader.read repo = (log, Ok result) →
  result = [] ∨ ∃ c, PyDict.get "count" result = Some (VInt c).
Proof.
  intros [->|(c & js & dev & all & ->)]%js_read_shape; [by left|right].
  by exists c.
Qed.

Lemma python_read_count repo log result :
  PythonDependencyReader.read repo = (log, Ok result) →
  result = [] ∨ ∃ c, PyDict.get "count" result = Some (VInt c).
Proof.
  intros Hread.
  destruct (python_read_shape repo) as (log' & out & Hread' & Hshape).
  rewrite Hread in Hread'. injection Hread' as _ <-.
  destruct Hshape as [->|(gh & all & prod & c & ->)]; [by left|right].
  by exists c.
Qed.

(** The aggregator, when the JavaScript reader returns. *)
Lemma get_dependencies_ok repo logj outj logp outp :
  JavascriptDependencyReader.read repo = (logj, Ok outj) →
  PythonDependencyReader.read repo = (logp, Ok outp) →
  get_dependencies repo
  = (logj ++ logp,
     Ok (let after_js :=
           if PyDict.truthy outj
           then (count_of outj,
                 PyDict.update (PyDict.update default_output outj)
                   [("count", VInt (count_of outj))])
           else (0, default_output) in
         if PyDict.truthy outp
         then PyDict.update (PyDict.update after_js.2 outp)
                [("count", VInt (after_js.1 + count_of outp))]
         else after_js.2)).
Proof.
  intros Hjs Hpy. rewrite get_dependencies_eq.
  rewrite (aggregate_step_eq repo 0 default_output
             JavascriptDependencyReader.reader logj outj Hjs
             (js_read_count _ _ _ Hjs)).
  rewrite bind_ok.
  destruct (PyDict.truthy outj); cbv beta;
    rewrite (aggregate_step_eq repo _ _ PythonDependencyReader.reader
               logp outp Hpy (python_read_count _ _ _ Hpy));
    rewrite bind_ok; simpl; rewrite ?app_nil_r;
    by destruct (PyDict.truthy outp).
Qed.

(** The aggregator, when the JavaScript reader raises. *)
Lemma get_dependencies_raise repo logj e :
  JavascriptDependencyReader.read repo = (logj, Raise e) →
  get_dependencies repo = (logj, Raise e).
Proof.
  intros Hjs. rewrite get_dependencies_eq. unfold aggregate_step at 1.
  simpl. by rewrite Hjs.
Qed.

(** X9.  [get_dependencies] merges what the two readers return: it logs
    what they log; its [count] is the sum of their counts; and each
    sub-group is the one of the reader that returns it, or the default when
    that reader does not apply. *)
Theorem get_dependencies_merges repo logj outj logp outp :
  JavascriptDependencyReader.read repo = (logj, Ok outj) →
  PythonDependencyReader.read repo = (logp, Ok outp) →
  ∃ out,
    get_dependencies repo = (logj ++ logp, Ok out)
    ∧ PyDict.get "count" out = Some (VInt (count_of outj + count_of outp))
    ∧ (∀ name, name ∈ ["js"; "js.dev"; "js.all"] →
               PyDict.get name out = merged_group name outj)
    ∧ (∀ name, name ∈ ["github"; "pypi_all"; "pypi"] →
               PyDict.get name out = merged_group name outp).
Proof.
  intros Hjs Hpy. eexists. split; [by apply get_dependencies_ok|].
  pose proof (js_read_shape _ _ _ Hjs) as Hshapej.
  destruct (python_read_shape repo) as (log' & out' & Hread' & Hshapep).
  rewrite Hpy in Hread'. injection Hread' as _ <-.
  unfold merged_group.
  destruct Hshapej as [->|(c & js & dev & all & ->)];
    destruct Hshapep as [->|(gh & pall & prod & cp & ->)];
    (split; [cbn -[Z.add]; do 2 f_equal; lia|]);
    split; intros name Hname; set_unfold; destruct_or!; subst; done.
Qed.

Lemma get_dependencies_merges_witness :
  ∃ out,
    get_dependencies python_js_repository = ([], Ok out)
    ∧ PyDict.get "count" out = Some (VInt 4)
    ∧ group_count "github" out = Some 1
    ∧ group_count "js.all" out = Some 2.
Proof.
  destruct (JavascriptDependencyReader.read python_js_repository)
    as [logj [outj|]] eqn:Hjs; [|by vm_compute in Hjs].
  destruct (PythonDependencyReader.read python_js_repository)
    as [logp [outp|]] eqn:Hpy; [|by vm_compute in Hpy].
  destruct (get_dependencies_merges _ _ _ _ _ Hjs Hpy)
    as (out & Hget & Hcount & Hjsg & Hpyg).
  vm_compute in Hjs, Hpy. simplify_eq.
  exists out. split; [done|]. split; [by rewrite Hcount|].
  unfold group_count.
  rewrite (Hpyg "github") by (by left).
  rewrite (Hjsg "js.all") by (do 2 right; by left).
  by vm_compute.
Defined.




End aggregator_more.

(** ** More on the Python reader *)

Section python_reader_more.
Import PythonDependencyReader PyLocals.

Implicit Types (repo : repository) (line : string) (lines : list string).

Lemma scanned_github repo x :
  x ∈ (scanned repo).1 → PyStr.startswith x "git+" = true.
Proof.
  rewrite scanned_eq. simpl.
  intros (f & _ & Hx)%list_elem_of_In%in_flat_map.
  unfold github_of in Hx. by apply List.filter_In in Hx as [_ Hx].
Qed.

Lemma scanned_pypi repo x :
  x ∈ (scanned repo).2 →
  PyStr.startswith x "git+" = false ∧ PyStr.contains x "==" = true.
Proof.
  rewrite scanned_eq. simpl.
  intros (f & _ & Hx)%list_elem_of_In%in_flat_map.
  unfold pypi_of in Hx. apply List.filter_In in Hx as [_ Hx].
  unfold is_pinned, PyStr.re_match_git in Hx.
  apply andb_prop in Hx as [Hgit Hpin]. by apply negb_true_iff in Hgit.
Qed.

Lemma len_set_app_disjoint (xs ys : list string) :
  (∀ x, x ∈ xs → x ∉ ys) →
  len_set (xs ++ ys) = len_set xs + len_set ys.
Proof.
  intros Hdisj. unfold len_set. rewrite list_to_set_app_L, size_union.
  - apply Nat2Z.inj_add.
  - intros x Hx Hy. apply elem_of_list_to_set in Hx, Hy. by apply (Hdisj x).
Qed.

(** X11.  For a repository with a [requirements/] directory, every
    identifier of the github list starts with [git+], every identifier of
    the pypi lists holds [==] and does not start with [git+], and the
    reader's [count] is the number of distinct identifiers of both lists
    together. *)
Theorem python_identifiers repo fs :
  requirements repo = Some fs →
  ∃ log out,
    read repo = (log, Ok out)
    ∧ PyDict.get "count" out
      = Some (VInt (len_set ((scanned repo).1 ++ (scanned repo).2)))
    ∧ (∀ x, x ∈ (scanned repo).1 → PyStr.startswith x "git+" = true)
    ∧ (∀ x, x ∈ (scanned repo).2 ∨ x ∈ production_packages repo →
            PyStr.startswith x "git+" = false ∧ PyStr.contains x "==" = true).
Proof.
  intros Hreq. eexists _, _.
  rewrite (read_with_requirements _ _ Hreq), read_dependencies_eq.
  split; [reflexivity|]. split; [|split].
  - simpl. rewrite !len_set_list_of_set, len_set_app_disjoint.
    + do 2 f_equal. lia.
    + intros x Hgit Hpy. apply (scanned_github repo) in Hgit.
      apply (scanned_pypi repo) in Hpy as [Hnot _]. congruence.
  - apply (scanned_github repo).
  - intros x [Hx|Hx]; [by apply (scanned_pypi repo)|].
    by apply (scanned_pypi repo), production_packages_scanned.
Qed.

Lemma python_identifiers_witness :
  ∃ log out,
    read python_js_repository = (log, Ok out)
    ∧ PyDict.get "count" out = Some (VInt 2).
Proof.
  destruct (python_identifiers python_js_repository _ eq_refl)
    as (log & out & Hread & Hcount & _).
  exists log, out. split; [done|]. rewrite Hcount. by vm_compute.
Defined.

(** X12.  For a repository with a [requirements/] directory, the
    [pypi_all] and [pypi] groups list each identifier once and count the
    identifiers they list; the [github] group counts the distinct
    identifiers of the list it holds. *)
Theorem python_groups_counts repo fs :
  requirements repo = Some fs →
  ∃ log out gh all prod,
    read repo = (log, Ok out)
    ∧ PyDict.get "github" out = Some (group (len_set gh) (dumps_strings gh))
    ∧ PyDict.get "pypi_all" out
      = Some (group (Z.of_nat (length all)) (dumps_strings all))
    ∧ PyDict.get "pypi" out
      = Some (group (Z.of_nat (length prod)) (dumps_strings prod))
    ∧ NoDup all ∧ NoDup prod
    ∧ (∀ x, x ∈ all ↔ x ∈ (scanned repo).2)
    ∧ (∀ x, x ∈ prod ↔ x ∈ production_packages repo)
    ∧ gh = (scanned repo).1.
Proof.
  intros Hreq.
  eexists (logged repo), _, (scanned repo).1, (list_of_set (scanned repo).2),
    (list_of_set (production_packages repo)).
  rewrite (read_with_requirements _ _ Hreq), read_dependencies_eq.
  split; [reflexivity|]. simpl.
  rewrite (len_set_list_of_set (scanned repo).1),
    (len_set_list_of_set (scanned repo).2),
    (len_set_list_of_set (production_packages repo)).
  repeat split; auto using list_of_set_NoDup; by apply elem_of_list_of_set.
Qed.

Lemma python_groups_counts_witness :
  ∃ log out,
    read shared_github_line = (log, Ok out)
    ∧ group_count "pypi_all" out = Some 2
    ∧ group_count "github" out = Some 1.
Proof.
  destruct (python_groups_counts shared_github_line _ eq_refl)
    as (log & out & gh & all & prod & Hread & _).
  exists log, out. split; [done|].
  vm_compute in Hread. injection Hread as <- <-. by vm_compute.
Defined.

Lemma flat_map_ext_in {A B} (f g : A → list B) (xs : list A) :
  (∀ x, x ∈ xs → f x = g x) → flat_map f xs = flat_map g xs.
Proof.
  induction xs as [|x xs IH]; intros Heq; [done|]. simpl.
  rewrite (Heq x) by left. f_equal. apply IH. intros y Hy. apply Heq. by right.
Qed.

(** The read depends on the candidate files only. *)
Lemma read_congruence_candidates repo1 repo2 :
  repo_path repo1 = repo_path repo2 →
  requirements repo1 = requirements repo2 →
  (∀ f, f ∈ candidate_files repo2 →
        github_of (get_file_lines repo1 f) = github_of (get_file_lines repo2 f)
        ∧ pypi_of (get_file_lines repo1 f) = pypi_of (get_file_lines repo2 f)) →
  read repo1 = read repo2.
Proof.
  intros Hpath Hreq Hsame.
  assert (Hcand : candidate_files repo1 = candidate_files repo2)
    by (unfold candidate_files, files; by rewrite Hreq).
  assert (Hprod : production_files repo1 = production_files repo2)
    by (unfold production_files, files; by rewrite Hcand, Hreq).
  unfold read, _is_python_repo. rewrite Hreq.
  destruct (negb (path_exists (requirements repo2))); [done|].
  rewrite !read_dependencies_eq, !production_packages_eq, !scanned_eq.
  unfold logged, no_production_message. rewrite Hprod, Hcand, Hpath.
  rewrite (flat_map_ext_in (λ f, github_of (get_file_lines repo1 f))
             (λ f, github_of (get_file_lines repo2 f)))
    by (intros f Hf; by apply Hsame).
  rewrite (flat_map_ext_in (λ f, pypi_of (get_file_lines repo1 f))
             (λ f, pypi_of (get_file_lines repo2 f)) (candidate_files repo2))
    by (intros f Hf; by apply Hsame).
  rewrite (flat_map_ext_in (λ f, pypi_of (get_file_lines repo1 f))
             (λ f, pypi_of (get_file_lines repo2 f)) (production_files repo2)).
  - done.
  - intros f Hf. by apply Hsame, production_files_candidates.
Qed.

(** X13.  What a constraint file holds is never read: for a path that ends
    with [constraints.txt] or [pins.txt], the Python reader returns the same
    whatever the lines of the file at that path. *)
Theorem constraint_file_ignored repo path lines :
  PyStr.endswith_any path constraints_files = true →
  read (with_lines repo path lines) = read repo.
Proof.
  intros Hconstraint. apply read_congruence_candidates; [done..|].
  intros f Hf. rewrite get_file_lines_with_lines.
  case_decide as Heq; [|done]. subst f.
  apply list_elem_of_In, List.filter_In in Hf as [_ Hf].
  by rewrite Hconstraint in Hf.
Qed.

Lemma constraint_file_ignored_witness :
  read (with_lines python_js_repository "/r/requirements/constraints.txt"
          ["celery==5.0.0"; "kombu==4.6.11"])
  = read python_js_repository.
Proof. by apply constraint_file_ignored. Defined.

Lemma startswith_hash_spaces line :
  PyStr.startswith line "#" = true → PyStr.spaces_then_hash line = true.
Proof.
  destruct line as [|c line]; [done|]. cbn [PyStr.startswith].
  rewrite startswith_empty, andb_true_r. intros <-%Ascii.eqb_eq. done.
Qed.

Lemma re_sub_comment_editable line :
  PyStr.re_sub_comment (editable line)
  = if PyStr.spaces_then_hash line
    then "-e" +:+ PyStr.re_sub_comment_from true line
    else editable (PyStr.re_sub_comment line).
Proof.
  unfold editable, PyStr.re_sub_comment.
  assert (Hstep : ∀ c rest,
    PyStr.re_sub_comment_from false (String c rest)
    = if Ascii.eqb c " " && PyStr.spaces_then_hash rest
      then PyStr.re_sub_comment_from true rest
      else String c (PyStr.re_sub_comment_from false rest)) by done.
  change ("-e " +:+ line) with (String "-" (String "e" (String " " line))).
  rewrite (Hstep "-"%char), (Hstep "e"%char), (Hstep " "%char).
  change (Ascii.eqb "-" " ") with false.
  change (Ascii.eqb "e" " ") with false.
  change (Ascii.eqb " " " ") with true.
  cbn [andb].
  by destruct (PyStr.spaces_then_hash line).
Qed.

(** What the editable line leaves behind. *)
Lemma strip_editable line :
  single_line line = true →
  List.filter PyStr.re_match_git (strip_lines [editable line])
  = List.filter PyStr.re_match_git (strip_lines [line])
  ∧ List.filter is_pinned (strip_lines [editable line])
    = List.filter is_pinned (strip_lines [line]).
Proof.
  intros Hsingle.
  assert (Hed : strip_lines [editable line]
                = [PyStr.replace_dash_e (PyStr.re_sub_comment (editable line))])
    by done.
  rewrite Hed, re_sub_comment_editable.
  destruct (PyStr.spaces_then_hash line) eqn:Hhash.
  - rewrite (re_sub_comment_skips line Hsingle).
    assert (ignored line = true) as Hign
      by (unfold ignored; rewrite Hhash; apply orb_true_r).
    destruct (strip_ignored line Hsingle Hign) as [-> ->]. done.
  - assert (PyStr.replace_dash_e (editable (PyStr.re_sub_comment line))
            = PyStr.replace_dash_e (PyStr.re_sub_comment line)) as -> by done.
    unfold strip_lines. cbn [List.filter].
    destruct (PyStr.truthy line && negb (PyStr.startswith line "#")) eqn:Hkeep;
      [done|].
    apply andb_false_iff in Hkeep as [Hempty|Hcomment].
    + destruct line; [done|discriminate].
    + apply negb_false_iff, startswith_hash_spaces in Hcomment. congruence.
Qed.

(** X14.  The editable marker does not change what a line contributes: a
    line with [-e ] before it adds to the github and pypi lists what the
    line itself adds, and the reader returns the same for both. *)
Theorem editable_same_contribution repo path before line after :
  single_line line = true →
  same_contribution (editable line) line
  ∧ read (with_lines repo path (before ++ editable line :: after))
    = read (with_lines repo path (before ++ line :: after)).
Proof.
  intros Hsingle.
  assert (Hsame : same_contribution (editable line) line).
  { intros b a. destruct (strip_editable line Hsingle) as [Hgit Hpin].
    unfold github_of, pypi_of.
    change (editable line :: a) with ([editable line] ++ a).
    change (line :: a) with ([line] ++ a).
    by rewrite !strip_lines_app, !List.filter_app, Hgit, Hpin. }
  split; [done|].
  apply read_congruence; try done; intros f;
    rewrite !get_file_lines_with_lines; case_decide; try done;
    by destruct (Hsame before after).
Qed.

Lemma editable_same_contribution_witness :
  read (with_lines shared_github_line "/r/requirements/base.txt"
          (["django==2.2.20"] ++ editable credentials_themes :: []))
  = read shared_github_line.
Proof.
  destruct (editable_same_contribution shared_github_line
              "/r/requirements/base.txt" ["django==2.2.20"]
              credentials_themes [] eq_refl) as [_ ->].
  by vm_compute.
Defined.

End python_reader_more.

(** ** More on the JavaScript reader and on the check *)

Section javascript_reader_more.
Import JavascriptDependencyReader JsLocals.

Implicit Types (repo : repository).

(** The loop over the lockfile, when every package has a version: the
    assignments [js_dependencies_all[name] = version]. *)
Lemma lock_loop_eq (deps : pydict (pydict value)) (acc : pydict value) :
  forallb (λ item : string * pydict value, PyDict.has_key "version" item.2) deps
  = true →
  for_each deps lock_step acc
  = (([] : list string),
     Ok (fold_left
           (λ out (item : string * pydict value),
              PyDict.set item.1 (locked_version item).2 out)
           deps acc)).
Proof.
  revert acc. induction deps as [|[name details] deps IH]; intros acc Hall;
    [done|].
  simpl in Hall. apply andb_prop in Hall as [Hv Hall].
  apply has_key_get in Hv as [version Hv].
  rewrite for_each_cons.
  assert (lock_step acc (name, details)
          = mret (PyDict.set name version acc)) as ->
    by (unfold lock_step; by rewrite Hv).
  rewrite bind_ret, (IH _ Hall). simpl. unfold locked_version. simpl.
  by rewrite Hv.
Qed.

(** X15.  For a well-formed [package.json] and a lockfile whose packages
    have distinct names and a version each, the read succeeds, [js.all]
    lists the packages of the lockfile in its order, each with its version,
    and counts them; [js] and [js.dev] hold the two objects of the manifest
    as they are, with their sizes; and [count] is the sum of these two
    sizes, the lockfile not counted. *)
Theorem js_groups repo package_json_data package_lock_data :
  package_json repo = Some (Json.Valid package_json_data) →
  package_lock repo = Some (Json.Valid package_lock_data) →
  PyDict.wf (locked package_lock_data) →
  versions_given package_lock_data = true →
  let js := default [] (pj_dependencies package_json_data) in
  let dev := default [] (pj_devDependencies package_json_data) in
  let all := locked_version <$> locked package_lock_data in
  read repo
  = ([],
     Ok [ ("count", VInt (PyDict.len js + PyDict.len dev));
          ("js", group (PyDict.len js) (Json.dumps (VDict js)));
          ("js.dev", group (PyDict.len dev) (Json.dumps (VDict dev)));
          ("js.all", group (PyDict.len (locked package_lock_data))
                       (Json.dumps (VDict all))) ]).
Proof.
  intros Hpj Hpl Hwf Hversions.
  unfold read, _is_js_repo, _read_dependencies. rewrite Hpj, Hpl. simpl.
  fold (locked package_lock_data).
  rewrite (lock_loop_eq _ [] Hversions).
  rewrite (assign_map_fresh
             (λ item : string * pydict value, (locked_version item).2))
    by done.
  simpl. unfold PyDict.len. by rewrite length_fmap.
Qed.

Lemma js_groups_witness :
  ∃ out,
    read python_js_repository = ([], Ok out)
    ∧ PyDict.get "count" out = Some (VInt 2)
    ∧ group_count "js.all" out = Some 2.
Proof.
  eexists. split.
  - apply (js_groups python_js_repository _ _ eq_refl eq_refl);
      [apply (bool_decide_unpack _); by vm_compute|done].
  - by vm_compute.
Defined.

End javascript_reader_more.

Section dependency_check.

Implicit Types (repo : repository) (all_results : pydict value).

(** What the JavaScript reader returns: nothing, or its count and its
    three groups. *)
Lemma js_read_groups repo log out :
  JavascriptDependencyReader.read repo = (log, Ok out) →
  out = []
  ∨ ∃ c c1 l1 c2 l2 c3 l3,
      out = [("count", VInt c); ("js", group c1 l1); ("js.dev", group c2 l2);
             ("js.all", group c3 l3)].
Proof.
  unfold JavascriptDependencyReader.read,
    JavascriptDependencyReader._read_dependencies,
    JavascriptDependencyReader._is_js_repo.
  destruct (package_json repo) as [[| |package_json_data]|]; simpl;
    try discriminate.
  - destruct (if Json.truthy _ then _ else _) as [log' [all|e]]; simpl;
      [|discriminate].
    intros [= _ <-]. right. eauto 10.
  - intros [= _ <-]. by left.
Qed.

Lemma python_read_groups repo :
  ∃ log out,
    PythonDependencyReader.read repo = (log, Ok out)
    ∧ (out = []
       ∨ ∃ c1 l1 c2 l2 c3 l3 c,
           out = [("github", group c1 l1); ("pypi_all", group c2 l2);
                  ("pypi", group c3 l3); ("count", VInt c)]).
Proof.
  unfold PythonDependencyReader.read.
  destruct (negb (PythonDependencyReader._is_python_repo repo)).
  - exists [], []. split; [done|by left].
  - rewrite read_dependencies_eq. eexists _, _. split; [done|].
    right. eauto 10.
Qed.

(** What the aggregator returns: the default schema, filled in. *)
Lemma get_dependencies_groups repo log out :
  get_dependencies repo = (log, Ok out) →
  ∃ c c1 l1 c2 l2 c3 l3 c4 l4 c5 l5 c6 l6,
    out = [("count", VInt c); ("github", group c1 l1);
           ("pypi_all", group c2 l2); ("pypi", group c3 l3);
           ("js", group c4 l4); ("js.dev", group c5 l5);
           ("js.all", group c6 l6)].
Proof.
  destruct (JavascriptDependencyReader.read repo) as [logj [outj|e]] eqn:Hjs.
  2:{ rewrite (get_dependencies_raise _ _ _ Hjs). discriminate. }
  destruct (python_read_groups repo) as (logp & outp & Hpy & Hshapep).
  rewrite (get_dependencies_ok _ _ _ _ _ Hjs Hpy).
  apply js_read_groups in Hjs as [->|(c & c1 & l1 & c2 & l2 & c3 & l3 & ->)];
    destruct Hshapep as [->|(d1 & m1 & d2 & m2 & d3 & m3 & cp & ->)];
    intros [= _ <-]; cbn -[Z.add group]; eauto 20.
Qed.

(** X16.  Whenever [check_dependencies] returns, it has left the other
    checks' results as they were, and what it stored under [dependencies]
    flattens to the same thirteen columns for every repository: the total
    count, then the count and the list of each of the six groups. *)
Theorem check_dependencies_columns repo all_results log results :
  check_dependencies repo all_results = (log, Ok results) →
  ∃ dependencies,
    get_dependencies repo = (log, Ok dependencies)
    ∧ PyDict.get module_dict_key results = Some (VDict dependencies)
    ∧ (∀ k, k ≠ module_dict_key →
            PyDict.get k results = PyDict.get k all_results)
    ∧ PyDict.keys
        (squash_dict [(module_dict_key, VDict dependencies)] default_delimiter)
      = dependency_columns.
Proof.
  unfold check_dependencies.
  destruct (get_dependencies repo) as [log' [dependencies|e]] eqn:Hget;
    [|discriminate].
  rewrite bind_ok. simpl. rewrite app_nil_r. intros [= -> <-].
  exists dependencies. split; [done|]. split; [apply get_set_eq|].
  split; [intros k Hk; by apply get_set_ne|].
  apply get_dependencies_groups in Hget
    as (c & c1 & l1 & c2 & l2 & c3 & l3 & c4 & l4 & c5 & l5 & c6 & l6 & ->).
  reflexivity.
Qed.

Lemma check_dependencies_columns_witness :
  ∃ log results,
    check_dependencies python_js_repository [("readme", VDict [])]
    = (log, Ok results)
    ∧ PyDict.keys results = ["readme"; "dependencies"].
Proof.
  destruct (check_dependencies python_js_repository [("readme", VDict [])])
    as [log [results|e]] eqn:Hcheck; [|by vm_compute in Hcheck].
  destruct (check_dependencies_columns _ _ _ _ Hcheck)
    as (dependencies & Hget & _).
  exists log, results. split; [done|].
  vm_compute in Hcheck. by simplify_eq.
Defined.

End dependency_check.

(** ** The regular expressions of [repo_health/utils.py] *)

Section regex.

Implicit Types (s part rest : string) (parts : list string)
  (pattern : list Re.atom) (m : Re.matched).

Lemma append_cons c part s : String c part +:+ s = String c (part +:+ s).
Proof. done. Qed.

Lemma append_empty_r s : s +:+ EmptyString = s.
Proof.
  induction s as [|c s IH]; [done|]. by rewrite append_cons, IH.
Qed.

Lemma append_assoc s1 s2 s3 : (s1 +:+ s2) +:+ s3 = s1 +:+ (s2 +:+ s3).
Proof.
  induction s1 as [|c s1 IH]; [done|]. by rewrite !append_cons, IH.
Qed.

Lemma all_chars_app accepts s1 s2 :
  Re.all_chars accepts (s1 +:+ s2)
  = Re.all_chars accepts s1 && Re.all_chars accepts s2.
Proof.
  induction s1 as [|c s1 IH]; [done|].
  rewrite append_cons. simpl. rewrite IH. by destruct (accepts c).
Qed.

Lemma text_app parts1 parts2 :
  Re.text (parts1 ++ parts2) = Re.text parts1 +:+ Re.text parts2.
Proof.
  induction parts1 as [|part parts1 IH]; [done|].
  simpl. by rewrite IH, append_assoc.
Qed.

(** What a repetition returns: the characters it took are in its class, and
    the rest of the pattern matched what was left. *)
Lemma repeat_inv accepts k s m :
  Re.repeat accepts k s = Some m →
  ∃ part parts rest s',
    m = (part :: parts, rest) ∧ s = part +:+ s'
    ∧ Re.all_chars accepts part = true ∧ k s' = Some (parts, rest).
Proof.
  assert (Hstop : ∀ s m, Re.stop k s = Some m →
    ∃ part parts rest s',
      m = (part :: parts, rest) ∧ s = part +:+ s'
      ∧ Re.all_chars accepts part = true ∧ k s' = Some (parts, rest)).
  { intros s0 m0. unfold Re.stop.
    destruct (k s0) as [[parts rest]|] eqn:Hk; [|done].
    intros [= <-]. by exists EmptyString, parts, rest, s0. }
  revert m. induction s as [|c s IH]; intros m; simpl; [apply Hstop|].
  destruct (accepts c) eqn:Hc; [|apply Hstop].
  destruct (Re.repeat accepts k s) as [[[|part parts] rest]|] eqn:Hrep;
    simpl; try apply Hstop.
  intros [= <-].
  destruct (IH _ eq_refl) as (part' & parts' & rest' & s' & [= -> -> ->] & -> & Hall & Hk).
  exists (String c part'), parts', rest', s'.
  rewrite append_cons. simpl. by rewrite Hc, Hall.
Qed.

(** A repetition finds a match whenever the rest of the pattern matches after
    some characters of its class. *)
Lemma repeat_complete accepts k part s' :
  Re.all_chars accepts part = true → is_Some (k s') →
  is_Some (Re.repeat accepts k (part +:+ s')).
Proof.
  intros Hall [[parts rest] Hk].
  assert (Hstop : is_Some (Re.stop k s')).
  { unfold Re.stop. rewrite Hk. by eexists. }
  induction part as [|c part IH].
  - change (EmptyString +:+ s') with s'.
    destruct s' as [|c s']; simpl; [done|].
    destruct (accepts c); [|done].
    by destruct (Re.take c (Re.repeat accepts k s')).
  - rewrite append_cons. simpl in *.
    destruct (accepts c); [|done]. simpl in Hall.
    destruct (IH Hall) as [m Hm]. rewrite Hm.
    destruct (repeat_inv _ _ _ _ Hm) as (? & ? & ? & ? & -> & _).
    simpl. by eexists.
Qed.

(** A repetition at the end of a pattern takes all it can. *)
Lemma repeat_last accepts s m :
  Re.repeat accepts (Re.match_here []) s = Some m →
  ∃ part rest,
    m = ([part], rest) ∧ s = part +:+ rest
    ∧ Re.all_chars accepts part = true
    ∧ match rest with
      | EmptyString => True
      | String c _ => accepts c = false
      end.
Proof.
  set (k := Re.match_here []).
  assert (Hk : ∀ s, k s = Some ([], s)) by done.
  clearbody k.
  revert m. induction s as [|c s IH]; intros m; simpl.
  - unfold Re.stop. rewrite Hk. intros [= <-].
    by exists EmptyString, EmptyString.
  - destruct (accepts c) eqn:Hc.
    + destruct (Re.repeat accepts k s) as [m'|] eqn:Hrep.
      * destruct (IH _ eq_refl) as (part & rest & -> & -> & Hall & Hrest).
        simpl. intros [= <-]. exists (String c part), rest.
        rewrite append_cons. simpl. by rewrite Hc, Hall.
      * (* the repetition after [c] cannot fail at the end of a pattern *)
        destruct (repeat_complete accepts k EmptyString s)
          as [? Hsome]; [done|by rewrite Hk|].
        change (EmptyString +:+ s) with s in Hsome. congruence.
    + unfold Re.stop. rewrite Hk. intros [= <-].
      exists EmptyString, (String c s). by rewrite Hc.
Qed.

(** One atom of a match: its part is one it can take, and the atoms after it
    match what is left. *)
Lemma match_here_inv a pattern s m :
  Re.match_here (a :: pattern) s = Some m →
  ∃ part parts rest s',
    m = (part :: parts, rest) ∧ s = part +:+ s'
    ∧ Re.part_ok a part ∧ Re.match_here pattern s' = Some (parts, rest).
Proof.
  unfold Re.part_ok. simpl. destruct (Re.quantifier a).
  - destruct s as [|c s]; [done|].
    destruct (Re.accepts a c) eqn:Hc; [|done].
    unfold Re.stop.
    destruct (Re.match_here pattern s) as [[parts rest]|] eqn:Hrest; [|done].
    simpl. intros [= <-]. exists (String c EmptyString), parts, rest, s.
    simpl. by rewrite Hc.
  - intros (part & parts & rest & s' & -> & -> & Hall & Hk)%repeat_inv.
    by exists part, parts, rest, s'.
  - destruct s as [|c s]; [done|].
    destruct (Re.accepts a c) eqn:Hc; [|done].
    destruct (Re.repeat (Re.accepts a) (Re.match_here pattern) s)
      as [m'|] eqn:Hrep; [|done].
    destruct (repeat_inv _ _ _ _ Hrep)
      as (part & parts & rest & s' & -> & -> & Hall & Hk).
    simpl. intros [= <-]. exists (String c part), parts, rest, s'.
    rewrite append_cons. simpl. by rewrite Hc, Hall.
Qed.

(** A match splits the text along the pattern. *)
Lemma match_here_sound pattern s m :
  Re.match_here pattern s = Some m → Re.splits pattern s m.
Proof.
  revert s m. induction pattern as [|a pattern IH]; intros s m.
  - intros [= <-]. by split; [constructor|].
  - intros (part & parts & rest & s' & -> & -> & Hpart & Hrest)%match_here_inv.
    destruct (IH _ _ Hrest) as [Hparts Hs']. simpl in *.
    split; [by constructor|]. simpl. by rewrite append_assoc, <- Hs'.
Qed.

(** Whenever the text can be split along the pattern, there is a match. *)
Lemma match_here_complete pattern s m :
  Re.splits pattern s m → is_Some (Re.match_here pattern s).
Proof.
  destruct m as [parts rest]. intros [Hparts ->]. simpl in *.
  induction Hparts as [|a part pattern parts [Hall Hq] Hparts IH];
    [by eexists|].
  simpl. rewrite append_assoc. destruct (Re.quantifier a).
  - destruct part as [|c [|??]]; try done.
    rewrite append_cons. simpl in Hall. destruct (Re.accepts a c); [|done].
    change (EmptyString +:+ ?x) with x. unfold Re.stop.
    destruct IH as [[??] ->]. simpl. by eexists.
  - by apply repeat_complete.
  - destruct part as [|c part]; [done|].
    rewrite append_cons. simpl in Hall. destruct (Re.accepts a c); [|done].
    destruct (repeat_complete (Re.accepts a) (Re.match_here pattern) part
                (Re.text parts +:+ rest) Hall IH) as [m Hm].
    rewrite Hm.
    destruct (repeat_inv _ _ _ _ Hm) as (? & ? & ? & ? & -> & _).
    simpl. by eexists.
Qed.

(** The match of a pattern made of two: the first matched a start of the
    text, the second what was left. *)
Lemma match_here_app pattern1 pattern2 s m :
  Re.match_here (pattern1 ++ pattern2) s = Some m →
  ∃ parts1 parts2 s2,
    m.1 = parts1 ++ parts2 ∧ Forall2 Re.part_ok pattern1 parts1
    ∧ s = Re.text parts1 +:+ s2
    ∧ Re.match_here pattern2 s2 = Some (parts2, m.2).
Proof.
  revert s m. induction pattern1 as [|a pattern1 IH]; intros s m.
  - intros Hm. exists [], m.1, s. by destruct m.
  - simpl app.
    intros (part & parts & rest & s' & -> & -> & Hpart & Hrest)%match_here_inv.
    destruct (IH _ _ Hrest) as (parts1 & parts2 & s2 & Hparts & Hok & -> & Hm2).
    simpl in *. subst parts.
    exists (part :: parts1), parts2, s2. simpl.
    by rewrite append_assoc; repeat split; [constructor|..].
Qed.

(** Literal atoms take their own text. *)
Lemma lits_text w parts :
  Forall2 Re.part_ok (Re.lits w) parts → Re.text parts = w.
Proof.
  revert parts. induction w as [|c w IH]; intros parts; simpl.
  - by intros ->%Forall2_nil_inv_l.
  - intros (part & parts' & [Hall Hone] & Hparts & ->)%Forall2_cons_inv_l.
    simpl in *. destruct part as [|c' [|??]]; try done.
    simpl in Hall. destruct (Ascii.eqb_spec c c'); [subst c'|done].
    by rewrite (IH _ Hparts).
Qed.

(** A search finds a match at some position of the text. *)
Lemma search_sound pattern s m :
  Re.search pattern s = Some m →
  ∃ before s', s = before +:+ s' ∧ Re.match_here pattern s' = Some m.
Proof.
  induction s as [|c s IH]; simpl.
  - destruct (Re.match_here pattern EmptyString) eqn:Hm; [|done].
    intros [= <-]. by exists EmptyString, EmptyString.
  - destruct (Re.match_here pattern (String c s)) eqn:Hm.
    + intros [= <-]. by exists EmptyString, (String c s).
    + intros (before & s' & -> & Hm')%IH.
      by exists (String c before), s'.
Qed.

Lemma search_complete pattern before s' :
  is_Some (Re.match_here pattern s') →
  is_Some (Re.search pattern (before +:+ s')).
Proof.
  intros Hm. induction before as [|c before IH].
  - change (EmptyString +:+ s') with s'.
    destruct s'; simpl; by destruct (Re.match_here pattern _).
  - rewrite append_cons. simpl.
    by destruct (Re.match_here pattern (String c (before +:+ s'))).
Qed.

Lemma length_append s1 s2 :
  String.length (s1 +:+ s2) = (String.length s1 + String.length s2)%nat.
Proof.
  induction s1 as [|c s1 IH]; [done|]. rewrite append_cons. simpl. by rewrite IH.
Qed.

(** A greedy repetition takes the most characters it can: no longer run of
    its class leaves a text the rest of the pattern matches. *)
Lemma repeat_longest accepts k s part parts rest :
  Re.repeat accepts k s = Some (part :: parts, rest) →
  ∀ part' s'',
    s = part' +:+ s'' → Re.all_chars accepts part' = true → is_Some (k s'') →
    (String.length part' ≤ String.length part)%nat.
Proof.
  revert part parts rest. induction s as [|c s IH];
    intros part parts rest Hrep [|c' part'] s'' Hs Hall Hk;
    try (simpl; lia); [done|].
  rewrite append_cons in Hs. injection Hs as <- ->.
  simpl in Hall. apply andb_prop in Hall as [Hc Hall].
  simpl in Hrep. rewrite Hc in Hrep.
  destruct (repeat_complete accepts k part' s'' Hall Hk) as [m Hm].
  rewrite Hm in Hrep.
  destruct (repeat_inv _ _ _ _ Hm) as (part1 & parts1 & rest1 & ? & -> & _).
  simpl in Hrep. injection Hrep as <- <- <-.
  pose proof (IH _ _ _ Hm part' s'' eq_refl Hall Hk). simpl. lia.
Qed.

(** The same for a repetition that takes one character at least. *)
Lemma plus_longest accepts pattern s part parts rest :
  Re.match_here (Re.Atom accepts Re.Plus :: pattern) s
  = Some (part :: parts, rest) →
  ∀ part' s'',
    s = part' +:+ s'' → Re.all_chars accepts part' = true →
    is_Some (Re.match_here pattern s'') →
    (String.length part' ≤ String.length part)%nat.
Proof.
  change (Re.match_here (Re.Atom accepts Re.Plus :: pattern) s)
    with (match s with
          | String c s' =>
              if accepts c
              then Re.take c (Re.repeat accepts (Re.match_here pattern) s')
              else None
          | EmptyString => None
          end).
  destruct s as [|c s]; [done|]. destruct (accepts c) eqn:Hc; [|done].
  destruct (Re.repeat accepts (Re.match_here pattern) s) as [m|] eqn:Hm;
    [|done].
  destruct (repeat_inv _ _ _ _ Hm) as (part1 & parts1 & rest1 & ? & -> & _).
  simpl. intros [= <- <- <-] [|c' part'] s'' Hs Hall Hk; [simpl; lia|].
  rewrite append_cons in Hs. injection Hs as <- ->.
  simpl in Hall. apply andb_prop in Hall as [_ Hall].
  pose proof (repeat_longest _ _ _ _ _ _ Hm part' s'' eq_refl Hall Hk).
  simpl. lia.
Qed.

(** A text that starts a text of its own length or less is that text. *)
Lemma append_length_le s1 s2 s :
  s1 +:+ s2 = s → (String.length s ≤ String.length s1)%nat →
  s1 = s ∧ s2 = EmptyString.
Proof.
  intros <-. rewrite length_append. intros Hlen.
  destruct s2; [by rewrite append_empty_r|]. simpl in Hlen. lia.
Qed.

Lemma startswith_app (s t : string) : PyStr.startswith (s +:+ t) s = true.
Proof.
  induction s as [|c s IH]; [apply startswith_empty|].
  rewrite append_cons. simpl. by rewrite Ascii.eqb_refl.
Qed.

Lemma contains_app (before s after : string) :
  PyStr.contains (before +:+ s +:+ after) s = true.
Proof.
  induction before as [|c before IH].
  - change (EmptyString +:+ ?x) with x.
    pose proof (startswith_app s after) as Hstart.
    destruct (s +:+ after); cbn [PyStr.contains]; by rewrite Hstart.
  - rewrite append_cons. cbn [PyStr.contains]. rewrite IH.
    apply orb_true_r.
Qed.

Lemma contains_startswith (before s v : string) :
  PyStr.startswith s v = true → PyStr.contains (before +:+ s) v = true.
Proof.
  intros Hstart. induction before as [|c before IH].
  - change (EmptyString +:+ s) with s.
    destruct s; cbn [PyStr.contains]; by rewrite Hstart.
  - rewrite append_cons. cbn [PyStr.contains]. rewrite IH.
    apply orb_true_r.
Qed.

(** What starts a text starts every start of it that is long enough. *)
Lemma startswith_trunc (s y v : string) :
  PyStr.startswith (s +:+ y) v = true →
  (String.length v ≤ String.length s)%nat →
  PyStr.startswith s v = true.
Proof.
  revert s. induction v as [|a v IH]; intros s; [by destruct s|].
  destruct s as [|c s]; [simpl; lia|].
  rewrite append_cons. simpl.
  intros [-> Hv]%andb_prop Hlen. rewrite (IH s) by (done || lia).
  apply andb_true_r.
Qed.

(** Two ways to cut one text: one cut is before the other. *)
Lemma append_split (s1 s2 t1 t2 : string) :
  s1 +:+ s2 = t1 +:+ t2 →
  (∃ e, t1 = s1 +:+ e ∧ s2 = e +:+ t2) ∨ (∃ e, s1 = t1 +:+ e ∧ t2 = e +:+ s2).
Proof.
  revert t1. induction s1 as [|c s1 IH]; intros t1.
  - intros Heq. left. by exists t1.
  - destruct t1 as [|c' t1].
    + intros Heq. right. by exists (String c s1).
    + rewrite !append_cons. intros [= <- Heq].
      destruct (IH _ Heq) as [(e & -> & ->)|(e & -> & ->)];
        [left|right]; by exists e.
Qed.

Lemma append_inj_length (s1 s2 t1 t2 : string) :
  s1 +:+ s2 = t1 +:+ t2 → String.length s1 = String.length t1 →
  s1 = t1 ∧ s2 = t2.
Proof.
  revert t1. induction s1 as [|c s1 IH]; intros [|c' t1]; try done.
  rewrite !append_cons. intros [= <- Heq] [= Hlen].
  by destruct (IH _ Heq Hlen) as [-> ->].
Qed.

(** A search finds the first position that has a match. *)
Lemma search_leftmost pattern s m :
  Re.search pattern s = Some m →
  ∃ before s',
    s = before +:+ s' ∧ Re.match_here pattern s' = Some m
    ∧ ∀ before1 before2,
        before = before1 +:+ before2 → before2 ≠ EmptyString →
        Re.match_here pattern (before2 +:+ s') = None.
Proof.
  induction s as [|c s IH]; simpl.
  - destruct (Re.match_here pattern EmptyString) eqn:Hm; [|done].
    intros [= <-]. exists EmptyString, EmptyString.
    repeat split; try done. by intros [|??] [|??].
  - destruct (Re.match_here pattern (String c s)) eqn:Hm.
    + intros [= <-]. exists EmptyString, (String c s).
      repeat split; try done. by intros [|??] [|??].
    + intros (before & s' & -> & Hm' & Hfirst)%IH.
      exists (String c before), s'. repeat split; try done.
      intros [|c1 before1] before2.
      * change (EmptyString +:+ before2) with before2. by intros <- _.
      * rewrite append_cons. intros [= <- ->]. by apply (Hfirst before1).
Qed.

(** A pattern that starts with literal characters matches texts that start
    with them. *)
Lemma match_here_lits w pattern s m :
  Re.match_here (Re.lits w ++ pattern) s = Some m →
  PyStr.startswith s w = true.
Proof.
  intros (parts1 & parts2 & s2 & _ & Hok & -> & _)%match_here_app.
  rewrite (lits_text _ _ Hok). apply startswith_app.
Qed.

(** The part an atom without repetition takes. *)
Lemma part_ok_one accepts part :
  Re.part_ok (Re.Atom accepts Re.One) part →
  ∃ c, part = String c EmptyString ∧ accepts c = true.
Proof.
  intros [Hall Hone]. simpl in *. destruct part as [|c [|??]]; try done.
  exists c. simpl in Hall. by destruct (accepts c).
Qed.

End regex.

(** ** The Django dependency reader *)

Section django_reader.
Import DjangoDependencyReader.

Implicit Types (repo : repository) (line name version rest : string)
  (dependencies : pydict string).

(** A repetition once or more, at the end of a pattern, takes all it can. *)
Lemma match_here_last_plus accepts s m :
  Re.match_here [Re.Atom accepts Re.Plus] s = Some m →
  ∃ part rest,
    m = ([part], rest) ∧ s = part +:+ rest ∧ part ≠ EmptyString
    ∧ Re.all_chars accepts part = true
    ∧ match rest with
      | EmptyString => True
      | String c _ => accepts c = false
      end.
Proof.
  change (Re.match_here [Re.Atom accepts Re.Plus] s)
    with (match s with
          | String c s' =>
              if accepts c
              then Re.take c (Re.repeat accepts (Re.match_here []) s')
              else None
          | EmptyString => None
          end).
  destruct s as [|c s]; [done|]. destruct (accepts c) eqn:Hc; [|done].
  destruct (Re.repeat accepts (Re.match_here []) s) as [m'|] eqn:Hrep; [|done].
  destruct (repeat_last _ _ _ Hrep) as (part & rest & -> & -> & Hall & Hrest).
  simpl. intros [= <-]. exists (String c part), rest.
  rewrite append_cons. simpl. by rewrite Hc, Hall.
Qed.

(** The part a literal atom takes. *)
Lemma part_ok_lit c part : Re.part_ok (Re.lit c) part → part = String c EmptyString.
Proof.
  intros [Hall Hone]. simpl in *. destruct part as [|c' [|??]]; try done.
  simpl in Hall. by destruct (Ascii.eqb_spec c c') as [->|].
Qed.

(** What a match of the pypi pattern is. *)
Lemma pypi_match s m :
  Re.match_here PYPI_PACKAGE_PATTERN s = Some m →
  ∃ name version rest,
    m = ([name; "="; "="; version], rest)
    ∧ s = name +:+ "==" +:+ version +:+ rest
    ∧ name ≠ EmptyString ∧ version ≠ EmptyString
    ∧ no_slash name = true ∧ no_slash version = true
    ∧ match rest with
      | EmptyString => True
      | String c _ => c = "/"%char
      end.
Proof.
  unfold PYPI_PACKAGE_PATTERN.
  intros (name & parts1 & rest1 & s1 & -> & -> & [Hname Hne] & H1)%match_here_inv.
  apply match_here_inv in H1
    as (eq1 & parts2 & rest2 & s2 & [= -> ->] & -> & ->%part_ok_lit & H2).
  apply match_here_inv in H2
    as (eq2 & parts3 & rest3 & s3 & [= -> ->] & -> & ->%part_ok_lit & H3).
  apply match_here_last_plus in H3
    as (version & rest & [= -> ->] & -> & Hne' & Hversion & Hrest).
  exists name, version, rest. repeat split; try done.
  destruct rest as [|c rest]; [done|].
  unfold Re.none_of in Hrest. simpl in Hrest.
  destruct (Ascii.eqb_spec c "/"); [done|discriminate].
Qed.

(** The text of a match of the pypi pattern. *)
Lemma pypi_groups name version rest :
  Re.group 0 1 ([name; "="; "="; version], rest) = name
  ∧ Re.group 3 1 ([name; "="; "="; version], rest) = version.
Proof. unfold Re.group. simpl. by rewrite !append_empty_r. Qed.

(** The pypi pattern matches every text of that form. *)
Lemma pypi_complete name version rest :
  name ≠ EmptyString → version ≠ EmptyString →
  no_slash name = true → no_slash version = true →
  is_Some (Re.match_here PYPI_PACKAGE_PATTERN
             (name +:+ "==" +:+ version +:+ rest)).
Proof.
  intros Hn Hv Hname Hversion.
  apply (match_here_complete _ _ ([name; "="; "="; version], rest)).
  split; simpl.
  - repeat constructor; done.
  - by rewrite append_empty_r, !append_assoc.
Qed.

(** Where the first [==] of a text is, when what is before it has no equals
    sign, and what is after it has none. *)
Lemma pin_unique name version name' t :
  Re.all_chars (Re.none_of "/=") name = true →
  Re.all_chars (Re.none_of "/=") version = true →
  name +:+ "==" +:+ version = name' +:+ "==" +:+ t →
  name = name' ∧ version = t.
Proof.
  assert (Hpin : ∀ x, "==" +:+ x = String "=" (String "=" x)) by done.
  assert (Hnil : ∀ x, EmptyString +:+ x = x) by done.
  intros Hname Hversion. revert name'.
  induction name as [|c name IH]; intros name'.
  - destruct name' as [|c1 [|c2 name']];
      rewrite ?append_cons, ?Hnil, ?Hpin.
    + by intros [= ->].
    + intros [= ? ?]. subst. done.
    + intros [= ? ? ?]. subst.
      rewrite all_chars_app, andb_comm in Hversion. done.
  - simpl in Hname. apply andb_prop in Hname as [Hc Hname].
    destruct name' as [|c' name']; rewrite ?append_cons, ?Hnil, ?Hpin.
    + intros [= ? _]. subst. done.
    + intros [= ? Heq]. subst.
      by destruct (IH Hname _ Heq) as [-> ->].
Qed.

Lemma all_chars_weaken (accepts accepts' : ascii → bool) s :
  (∀ c, accepts c = true → accepts' c = true) →
  Re.all_chars accepts s = true → Re.all_chars accepts' s = true.
Proof.
  intros Himp. induction s as [|c s IH]; [done|]. simpl.
  intros [Hc Hs]%andb_prop. by rewrite (Himp _ Hc), IH.
Qed.

Lemma plain_no_slash s :
  Re.all_chars (Re.none_of "/=") s = true → no_slash s = true.
Proof.
  apply all_chars_weaken. intros c. unfold Re.none_of. simpl.
  by destruct (Ascii.eqb c "/").
Qed.

(** X17.  A pinned requirement is read back: for a dependency that, its
    white space left out, is [name==version] with a name and a version that
    are not empty and have no slash and no equals sign,
    [extract_from_pypi_package] returns the name and the version. *)
Theorem pypi_package_round_trip pypi_dependency name version :
  plain name = true → plain version = true →
  join_split pypi_dependency = name +:+ "==" +:+ version →
  extract_from_pypi_package pypi_dependency = (name, version).
Proof.
  unfold plain.
  intros [Hn Hname]%andb_prop [Hv Hversion]%andb_prop Hdep.
  unfold extract_from_pypi_package. rewrite Hdep.
  destruct (pypi_complete name version EmptyString) as [m Hm];
    [by destruct name|by destruct version|by apply plain_no_slash..|].
  rewrite append_empty_r in Hm. rewrite Hm.
  destruct (pypi_match _ _ Hm)
    as (name' & version' & rest & -> & Heq & _ & _ & _ & _ & Hrest).
  destruct (pypi_groups name' version' rest) as [-> ->].
  destruct (pin_unique _ _ _ _ Hname Hversion Heq) as [<- Htail].
  rewrite Htail, all_chars_app in Hversion.
  destruct rest as [|c rest]; [by rewrite append_empty_r in Htail; subst|].
  subst c. by rewrite andb_comm in Hversion.
Qed.

Lemma pypi_package_round_trip_witness :
  extract_from_pypi_package " Django == 3.2.1 " = ("Django", "3.2.1").
Proof. by apply pypi_package_round_trip. Defined.

(** X18.  When nothing is extracted: [extract_from_pypi_package] returns a
    pair of empty strings exactly when the dependency, its white space left
    out, does not start with a name, [==] and a version, the two not empty
    and without a slash.  Otherwise it returns such a name and version, the
    version running up to the first slash or the end. *)
Theorem pypi_package_extracted pypi_dependency :
  let starts name version rest :=
    name ≠ EmptyString ∧ version ≠ EmptyString
    ∧ no_slash name = true ∧ no_slash version = true
    ∧ join_split pypi_dependency = name +:+ "==" +:+ version +:+ rest in
  (extract_from_pypi_package pypi_dependency = (EmptyString, EmptyString)
   ↔ ¬ ∃ name version rest, starts name version rest)
  ∧ (∀ name version,
       extract_from_pypi_package pypi_dependency = (name, version) →
       name ≠ EmptyString →
       ∃ rest, starts name version rest
         ∧ match rest with
           | EmptyString => True
           | String c _ => c = "/"%char
           end).
Proof.
  intros starts. unfold extract_from_pypi_package.
  destruct (Re.match_here PYPI_PACKAGE_PATTERN (join_split pypi_dependency))
    as [m|] eqn:Hm.
  - destruct (pypi_match _ _ Hm)
      as (name & version & rest & -> & Heq & Hn & Hv & Hname & Hversion & Hrest).
    destruct (pypi_groups name version rest) as [-> ->].
    split; [split|].
    + by intros [= -> ->].
    + intros []. by exists name, version, rest.
    + intros ?? [= <- <-] _. by exists rest.
  - split; [split; [|done]|by intros ?? [= <- <-]].
    intros _ (name & version & rest & Hn & Hv & Hname & Hversion & Heq).
    destruct (pypi_complete name version rest) as [? Hsome]; try done.
    rewrite <- Heq in Hsome. congruence.
Qed.

(** What a match of the github pattern is: the package stands after a
    [#egg=], and is as long as it can be. *)
Lemma github_match s m :
  Re.search GITHUB_URL_PATTERN s = Some m →
  ∃ before package after,
    Re.group (length BEFORE_PACKAGE) 1 m = package
    ∧ s = before +:+ "#egg=" +:+ package +:+ after
    ∧ package ≠ EmptyString ∧ no_slash package = true
    ∧ PyStr.contains before "github" = true
    ∧ ∀ package' after',
        package +:+ after = package' +:+ after' →
        no_slash package' = true →
        is_Some (Re.match_here [Re.Atom Re.dot Re.Star] after') →
        (String.length package' ≤ String.length package)%nat.
Proof.
  intros (before & s' & -> & Hm)%search_sound.
  unfold GITHUB_URL_PATTERN in Hm.
  apply match_here_app in Hm as (parts1 & parts2 & s2 & Hparts & Hok & -> & Hm).
  pose proof Hm as Hlongest.
  apply match_here_inv in Hm
    as (package & parts3 & rest & s3 & [= -> _] & -> & [Hall Hne] & _).
  pose proof (Forall2_length _ _ _ Hok) as Hlen.
  unfold BEFORE_PACKAGE in Hok.
  apply Forall2_app_inv_l in Hok as (partsA & partsL & HA & HL & ->).
  apply lits_text in HL.
  unfold ORG_AND_REPO, HOST in HA. rewrite <- !app_assoc in HA.
  apply Forall2_app_inv_l in HA as (partsG & partsB & HG & _ & ->).
  apply lits_text in HG.
  exists (before +:+ Re.text (partsG ++ partsB)), package, s3.
  repeat split; try done.
  - unfold Re.group. rewrite Hparts, drop_app_length' by done.
    simpl. apply append_empty_r.
  - by rewrite !text_app, HL, !append_assoc.
  - rewrite text_app, HG. apply contains_app.
  - intros package' after'. by apply (plus_longest _ _ _ _ _ _ Hlongest).
Qed.

(** Where the hash sign of a text is, when there is none before it and none
    after it. *)
Lemma hash_unique s t s' t' :
  no_hash s = true → no_hash t = true →
  s +:+ "#" +:+ t = s' +:+ "#" +:+ t' →
  s = s' ∧ t = t'.
Proof.
  assert (Hhash : ∀ x, "#" +:+ x = String "#" x) by done.
  assert (Hnil : ∀ x, EmptyString +:+ x = x) by done.
  unfold no_hash. intros Hs Ht. revert s'.
  induction s as [|c s IH]; intros [|c' s'];
    rewrite ?append_cons, ?Hnil, ?Hhash.
  - by intros [= ->].
  - intros [= ? ?]. subst.
    rewrite all_chars_app, andb_comm in Ht. done.
  - intros [= ? _]. subst. done.
  - intros [= ? Heq]. subst. simpl in Hs. apply andb_prop in Hs as [_ Hs].
    by destruct (IH Hs _ Heq) as [-> ->].
Qed.

(** X19.  The package of a github link is read back: for a link made of a
    host [github.com], a slash or a colon, an organisation, a slash and the
    rest of the address on one line, all without hash sign, and then
    [#egg=] and a package without slash and hash sign,
    [extract_from_github_link] returns the package, whole, and no version:
    a version pinned after the package name stays in the name. *)
Theorem github_link_round_trip before sep org rest package :
  sep = "/" ∨ sep = ":" →
  no_hash before = true →
  PyStr.truthy org && no_slash org && no_hash org = true →
  address_rest rest && no_hash rest = true →
  PyStr.truthy package && no_slash package && no_hash package = true →
  extract_from_github_link (github_link before sep org rest package)
  = (package, EmptyString).
Proof.
  intros Hsep Hbefore [[Horg Hslash]%andb_prop Horg']%andb_prop
    [Hrest Hrest']%andb_prop [[Hpkg Hpackage]%andb_prop Hpackage']%andb_prop.
  assert (Hnil : ∀ x, EmptyString +:+ x = x) by done.
  assert (Hsome : is_Some (Re.search GITHUB_URL_PATTERN
                             (github_link before sep org rest package))).
  { unfold github_link. apply search_complete.
    destruct rest as [|c rest']; [done|].
    apply andb_prop in Hrest as [Hc Hline].
    apply (match_here_complete _ _
             (["g"; "i"; "t"; "h"; "u"; "b"; "."; "c"; "o"; "m"; sep; org; "/";
               String c EmptyString; rest'; "#"; "e"; "g"; "g"; "=";
               package; EmptyString], EmptyString)).
    split.
    - cbn [fst]. unfold GITHUB_URL_PATTERN, BEFORE_PACKAGE, ORG_AND_REPO, HOST.
      cbn [Re.lits app].
      repeat (apply Forall2_cons_2; [split; simpl|]);
        try apply Forall2_nil_2; try done.
      + by destruct Hsep as [->| ->].
      + by destruct Hsep as [->| ->].
      + by destruct org.
      + by rewrite Hc.
      + by destruct package.
    - cbn [fst snd Re.text].
      by rewrite ?append_cons, ?Hnil, ?append_empty_r. }
  destruct Hsome as [m Hm]. unfold extract_from_github_link. rewrite Hm.
  destruct (github_match _ _ Hm)
    as (head & package' & after & -> & Heq & _ & _ & _ & Hlongest).
  assert (Hlink : github_link before sep org rest package
                  = (before +:+ "github.com" +:+ sep +:+ org +:+ "/" +:+ rest)
                    +:+ "#" +:+ ("egg=" +:+ package))
    by (unfold github_link; by rewrite !append_assoc).
  rewrite Hlink in Heq.
  change (head +:+ "#egg=" +:+ package' +:+ after)
    with (head +:+ "#" +:+ ("egg=" +:+ package' +:+ after)) in Heq.
  apply hash_unique in Heq as [_ Heq].
  - rewrite ?append_cons, ?Hnil in Heq. injection Heq as Heq.
    destruct (append_length_le package' after package) as [-> _]; [done| |done].
    apply (Hlongest package EmptyString);
      [by rewrite append_empty_r|done|by eexists].
  - unfold no_hash in *. rewrite !all_chars_app, Hbefore, Horg', Hrest'.
    by destruct Hsep as [->| ->].
  - unfold no_hash in *. by rewrite all_chars_app, Hpackage'.
Qed.

Lemma github_link_round_trip_witness :
  extract_from_github_link credentials_themes
  = ("edx_credentials_themes==0.1.62", EmptyString).
Proof.
  by apply (github_link_round_trip "git+https://" "/" "edx"
              "credentials-themes.git@0.1.62"
              "edx_credentials_themes==0.1.62"); [left|..].
Defined.

(** X20.  What is taken from a github link: [extract_from_github_link]
    never returns a version, and the name it returns is empty or is a text
    without slash that stands in the link right after a [#egg=], with
    [github] somewhere before it. *)
Theorem github_link_extracted github_dep :
  (extract_from_github_link github_dep).2 = EmptyString
  ∧ ((extract_from_github_link github_dep).1 = EmptyString
     ∨ ∃ before after,
         no_slash (extract_from_github_link github_dep).1 = true
         ∧ github_dep
           = before +:+ "#egg="
             +:+ (extract_from_github_link github_dep).1 +:+ after
         ∧ PyStr.contains before "github" = true).
Proof.
  unfold extract_from_github_link.
  destruct (Re.search GITHUB_URL_PATTERN github_dep) as [m|] eqn:Hm;
    [|by split; [|left]].
  destruct (github_match _ _ Hm)
    as (before & package & after & -> & Heq & _ & Hpackage & Hgithub & _).
  split; [done|]. right. by exists before, after.
Qed.

Lemma extract_from_github_link_ok github_dep :
  entry_ok (extract_from_github_link github_dep).
Proof.
  unfold extract_from_github_link.
  destruct (Re.search GITHUB_URL_PATTERN github_dep) as [m|] eqn:Hm; [|done].
  destruct (github_match _ _ Hm)
    as (before & package & after & -> & Heq & Hne & Hpackage & _ & _).
  by repeat split.
Qed.

Lemma extract_from_pypi_package_ok pypi_dependency :
  entry_ok (extract_from_pypi_package pypi_dependency).
Proof.
  unfold extract_from_pypi_package.
  destruct (Re.match_here PYPI_PACKAGE_PATTERN (join_split pypi_dependency))
    as [m|] eqn:Hm; [|done].
  destruct (pypi_match _ _ Hm)
    as (name & version & rest & -> & _ & Hn & _ & Hname & Hversion & _).
  destruct (pypi_groups name version rest) as [-> ->].
  by repeat split.
Qed.

(** The step of the loop over the lines either leaves the dictionary as it
    is or assigns what an extractor returned. *)
Lemma read_line_cases dependencies line :
  read_line dependencies line = dependencies
  ∨ ∃ name version,
      entry_ok (name, version)
      ∧ read_line dependencies line = PyDict.set name version dependencies.
Proof.
  unfold read_line.
  destruct (strip_requirement line) as [[|c stripped]|]; [by left| |by left].
  right.
  destruct (PyStr.contains (String c stripped) "git+http").
  - pose proof (extract_from_github_link_ok (String c stripped)) as Hok.
    destruct (extract_from_github_link _) as [name version].
    by exists name, version.
  - pose proof (extract_from_pypi_package_ok (String c stripped)) as Hok.
    destruct (extract_from_pypi_package _) as [name version].
    by exists name, version.
Qed.

Lemma strip_requirement_dropped line :
  dropped line = true → strip_requirement line = None.
Proof.
  unfold dropped, strip_requirement.
  destruct line as [|c line]; [done|].
  assert (Hstart : ∀ a, PyStr.startswith (String c line) (String a EmptyString)
                        = Ascii.eqb a c).
  { intros a. cbn [PyStr.startswith].
    by rewrite startswith_empty, andb_true_r. }
  rewrite !Hstart.
  assert (Hoption : ∀ a, Re.one_of "#-" a = true →
            is_Some (Re.match_here OPTION_PATTERN (String a line))).
  { intros a Ha. unfold OPTION_PATTERN.
    cbn [Re.match_here Re.quantifier Re.accepts]. rewrite Ha. by eexists. }
  intros Hc. rewrite bool_decide_eq_true_2; [by rewrite andb_false_r|].
  apply Hoption. cbn [Re.one_of].
  change (PyStr.truthy (String c line)) with true in Hc. cbn [negb orb] in Hc.
  rewrite !(Ascii.eqb_sym c). by rewrite orb_false_r.
Qed.

(** X21.  Comments, options and editable installs are dropped: a line that
    is empty or starts with [#] or [-] adds nothing to what the Django reader
    returns, wherever it stands in a file. *)
Theorem django_dropped_line repo path before line after :
  dropped line = true →
  read (with_lines repo path (before ++ line :: after))
  = read (with_lines repo path (before ++ after)).
Proof.
  intros Hdropped. unfold read, _is_python_repo, _read_dependencies. simpl.
  destruct (negb (path_exists (requirements repo))); [done|].
  apply fold_left_ext_in. intros dependencies file _.
  rewrite !get_file_lines_with_lines. case_decide; [|done].
  rewrite !fold_left_app. simpl. unfold read_line at 2.
  by rewrite (strip_requirement_dropped _ Hdropped).
Qed.

Lemma django_dropped_line_witness :
  read (with_lines python_js_repository "/r/requirements/base.txt"
          (["django==2.2.20"] ++ editable credentials_themes :: ["-r other.txt"]))
  = read (with_lines python_js_repository "/r/requirements/base.txt"
            (["django==2.2.20"] ++ ["-r other.txt"])).
Proof. by apply django_dropped_line. Defined.

(** X22.  A file whose path has [constraints] in it is never read: the
    Django reader returns the same whatever the lines of the file at such a
    path. *)
Theorem django_constraints_ignored repo path lines :
  PyStr.contains path "constraints" = true →
  read (with_lines repo path lines) = read repo.
Proof.
  intros Hpath. unfold read, _is_python_repo, _read_dependencies. simpl.
  destruct (negb (path_exists (requirements repo))); [done|].
  apply fold_left_ext_in. intros dependencies file Hfile.
  rewrite get_file_lines_with_lines. case_decide as Heq; [|done]. subst file.
  apply list_elem_of_In, List.filter_In in Hfile as [_ Hfile].
  by rewrite Hpath in Hfile.
Qed.

Lemma django_constraints_ignored_witness :
  read (with_lines python_js_repository "/r/requirements/constraints.txt"
          ["celery==5.0.0"; "kombu==4.6.11"])
  = read python_js_repository.
Proof. by apply django_constraints_ignored. Defined.

(** X23.  What the Django reader returns: a dictionary with one entry for a
    name, in which no name and no version has a slash, and only the empty
    name can have an empty name's version: an entry with an empty name has
    an empty version. *)
Theorem django_read_entries repo :
  PyDict.wf (read repo) ∧ Forall entry_ok (read repo).
Proof.
  unfold read, _read_dependencies.
  destruct (negb (_is_python_repo repo)); [by split; [constructor|]|].
  generalize (List.filter (λ file, negb (PyStr.contains file "constraints"))
                (default [] (requirements repo))).
  intros files.
  assert (Hstart : PyDict.wf (@nil (string * string))
                   ∧ Forall entry_ok (@nil (string * string)))
    by (by split; [constructor|]).
  revert Hstart. generalize (@nil (string * string)).
  induction files as [|file files IH]; intros dependencies Hdeps; [done|].
  simpl. apply IH. clear IH.
  generalize (get_file_lines repo file). intros lines.
  revert dependencies Hdeps.
  induction lines as [|line lines IH]; intros dependencies [Hwf Hok]; [done|].
  simpl. apply IH.
  destruct (read_line_cases dependencies line)
    as [->|(name & version & Hentry & ->)]; [done|].
  split; [by apply wf_set|].
  apply Forall_forall. intros entry [->|Hin]%elem_of_set; [done|].
  by apply (proj1 (Forall_forall _ _) Hok).
Qed.

End django_reader.

(** ** The origin of a checkout *)

Section origin.

Implicit Types (url before sep org repo rest : string).

(** Where the first slash of a text is. *)
Lemma slash_unique s t s' t' :
  no_slash s = true → no_slash s' = true →
  s +:+ "/" +:+ t = s' +:+ "/" +:+ t' →
  s = s' ∧ t = t'.
Proof.
  assert (Hslash : ∀ x, "/" +:+ x = String "/" x) by done.
  assert (Hnil : ∀ x, EmptyString +:+ x = x) by done.
  unfold no_slash. revert s'.
  induction s as [|c s IH]; intros [|c' s'] Hs Hs';
    rewrite ?append_cons, ?Hnil, ?Hslash.
  - by intros [= ->].
  - intros [= ? _]. subst. done.
  - intros [= ? _]. subst. done.
  - intros [= ? Heq]. subst. simpl in Hs, Hs'.
    apply andb_prop in Hs as [_ Hs]. apply andb_prop in Hs' as [_ Hs'].
    by destruct (IH _ Hs Hs' Heq) as [-> ->].
Qed.

(** What a match of the origin pattern is: the host, an organisation and a
    repository without slash, any character and [git]; the repository is as
    long as it can be. *)
Lemma url_match s m :
  Re.match_here URL_PATTERN s = Some m →
  ∃ c0 sep org repo c rest,
    Re.group (length HOST) 1 m = org
    ∧ Re.group (length HOST + 2) 1 m = repo
    ∧ s = "github" +:+ String c0 "com" +:+ sep +:+ org +:+ "/" +:+ repo
          +:+ String c "git" +:+ rest
    ∧ (sep = "/" ∨ sep = ":")
    ∧ org ≠ EmptyString ∧ no_slash org = true
    ∧ repo ≠ EmptyString ∧ no_slash repo = true
    ∧ ∀ repo' s'',
        repo +:+ String c "git" +:+ rest = repo' +:+ s'' →
        no_slash repo' = true →
        is_Some (Re.match_here ([Re.Atom Re.dot Re.One] ++ Re.lits "git") s'') →
        (String.length repo' ≤ String.length repo)%nat.
Proof.
  assert (Hnil : ∀ x, EmptyString +:+ x = x) by done.
  change URL_PATTERN
    with ((HOST ++ [Re.Atom (Re.none_of "/") Re.Plus; Re.lit "/"])
          ++ Re.Atom (Re.none_of "/") Re.Plus
             :: ([Re.Atom Re.dot Re.One] ++ Re.lits "git")).
  intros (parts1 & parts2 & s2 & Hparts & Hok & -> & Hm)%match_here_app.
  pose proof Hm as Hlongest.
  apply match_here_inv in Hm
    as (repo & parts3 & rest0 & s3 & [= -> _] & -> & [Hrepo Hne] & Htail).
  apply match_here_inv in Htail
    as (dot & parts4 & rest1 & s4 & [= -> ->] & ->
        & (c & -> & Hc)%part_ok_one & Htail).
  change (Re.match_here (Re.lits "git") s4 = Some (parts4, rest1))
    with (Re.match_here (Re.lits "git" ++ []) s4 = Some (parts4, rest1))
    in Htail.
  apply match_here_app in Htail
    as (partsT & partsE & rest & _ & HT%lits_text & -> & Hend).
  apply Forall2_app_inv_l in Hok as (partsH & partsO & HH & HO & ->).
  pose proof (Forall2_length _ _ _ HH) as Hlen.
  apply Forall2_cons_inv_l in HO as (org & partsS & [Horg Hne'] & HS & ->).
  apply Forall2_cons_inv_l in HS as (slash & ? & ->%part_ok_lit & ->%Forall2_nil_inv_l & ->).
  unfold HOST in HH.
  apply Forall2_app_inv_l in HH as (partsG & partsH' & HG%lits_text & HH & ->).
  apply Forall2_app_inv_l in HH as (partsD & partsH'' & HD & HH & ->).
  apply Forall2_cons_inv_l in HD
    as (dot0 & ? & (c0 & -> & Hc0)%part_ok_one & ->%Forall2_nil_inv_l & ->).
  apply Forall2_app_inv_l in HH as (partsC & partsP & HC%lits_text & HP & ->).
  apply Forall2_cons_inv_l in HP
    as (sep & ? & (csep & -> & Hsep)%part_ok_one & ->%Forall2_nil_inv_l & ->).
  exists c0, (String csep EmptyString), org, repo, c, rest.
  simpl in Hrepo, Horg, Hne, Hne'.
  repeat split; try done.
  - unfold Re.group. rewrite Hparts, <- app_assoc.
    rewrite drop_app_length' by done. simpl. apply append_empty_r.
  - unfold Re.group. rewrite Hparts.
    rewrite drop_app_length' by (by rewrite length_app, <- Hlen).
    simpl. apply append_empty_r.
  - rewrite !text_app, HG, HC. cbn [Re.text].
    rewrite HT, ?append_empty_r, !append_assoc.
    by rewrite ?append_cons, ?Hnil.
  - simpl in Hsep.
    destruct (Ascii.eqb_spec csep "/") as [->|]; [by left|].
    destruct (Ascii.eqb_spec csep ":") as [->|]; [by right|done].
  - intros repo' s'' Heq. apply (plus_longest _ _ _ _ _ _ Hlongest).
    rewrite <- Heq, HT. by rewrite ?append_cons, ?Hnil.
Qed.

(** X24.  What [github_org_repo] returns, when it returns: an organisation
    and a repository that are not empty and have no slash, and that stand
    in the address after [github], any character, [com] and a slash or a
    colon, the repository followed by any character and [git]. *)
Theorem github_org_repo_sound url org repo :
  github_org_repo url = Some (org, repo) →
  org ≠ EmptyString ∧ no_slash org = true
  ∧ repo ≠ EmptyString ∧ no_slash repo = true
  ∧ ∃ before c0 sep c rest,
      (sep = "/" ∨ sep = ":")
      ∧ url = before +:+ "github" +:+ String c0 "com" +:+ sep +:+ org
              +:+ "/" +:+ repo +:+ String c "git" +:+ rest.
Proof.
  unfold github_org_repo.
  destruct (Re.search URL_PATTERN url) as [m|] eqn:Hm; [|done].
  apply search_sound in Hm as (before & s' & -> & Hm).
  destruct (url_match _ _ Hm)
    as (c0 & sep & org' & repo' & c & rest & <- & <- & -> & Hsep & Hne & Horg
        & Hne' & Hrepo & _).
  intros [= <- <-]. repeat split; try done.
  by exists before, c0, sep, c, rest.
Qed.

Lemma github_org_repo_sound_witness :
  "edx" ≠ EmptyString ∧ no_slash "edx" = true
  ∧ "my-d" ≠ EmptyString ∧ no_slash "my-d" = true
  ∧ ∃ before c0 sep c rest,
      (sep = "/" ∨ sep = ":")
      ∧ "https://github.com/edx/my-digit"
        = before +:+ "github" +:+ String c0 "com" +:+ sep +:+ "edx"
          +:+ "/" +:+ "my-d" +:+ String c "git" +:+ rest.
Proof. by apply github_org_repo_sound. Defined.

(** X25.  The origin of a checkout is read back: for an address made of
    the host [github.com], a slash or a colon, an organisation, a slash, a
    repository and [.git], the two not empty and without slash, and with no
    [github] before that of the host, [github_org_repo] returns the
    organisation and the repository. *)
Theorem github_org_repo_round_trip before sep org repo :
  PyStr.contains (before +:+ "githu") "github" = false →
  sep = "/" ∨ sep = ":" →
  PyStr.truthy org && no_slash org = true →
  PyStr.truthy repo && no_slash repo = true →
  github_org_repo (origin_url before sep org repo) = Some (org, repo).
Proof.
  intros Hfirst Hsep [Horg Hslash]%andb_prop [Hrepo Hslash']%andb_prop.
  assert (Hnil : ∀ x, EmptyString +:+ x = x) by done.
  set (address := "github.com" +:+ sep +:+ org +:+ "/" +:+ repo +:+ ".git").
  assert (Hhere : is_Some (Re.match_here URL_PATTERN address)).
  { apply (match_here_complete _ _
             (["g"; "i"; "t"; "h"; "u"; "b"; "."; "c"; "o"; "m"; sep; org; "/";
               repo; "."; "g"; "i"; "t"], EmptyString)).
    split.
    - cbn [fst]. unfold URL_PATTERN, ORG_AND_REPO, HOST. cbn [Re.lits app].
      repeat (apply Forall2_cons_2; [split; simpl|]);
        try apply Forall2_nil_2; try done.
      + by destruct Hsep as [->| ->].
      + by destruct Hsep as [->| ->].
      + by destruct org.
      + by destruct repo.
    - cbn [fst snd Re.text]. unfold address.
      by rewrite ?append_cons, ?Hnil, ?append_empty_r. }
  assert (Hsome : is_Some (Re.search URL_PATTERN
                             (origin_url before sep org repo)))
    by (by apply search_complete).
  destruct Hsome as [m Hm]. unfold github_org_repo. rewrite Hm.
  apply search_leftmost in Hm as (before' & s' & Hcut & Hm & Hleft).
  assert (before' = before ∧ s' = address) as [-> ->].
  { fold address in Hcut. change (origin_url before sep org repo)
      with (before +:+ address) in Hcut.
    apply append_split in Hcut as [(e & -> & ->)|(e & -> & Hs')].
    - destruct e as [|c e]; [by rewrite append_empty_r|].
      rewrite (Hleft before (String c e)) in Hhere by done.
      by destruct Hhere.
    - destruct e as [|c e]; [by rewrite append_empty_r|].
      exfalso. subst s'.
      change URL_PATTERN with (Re.lits "github" ++ skipn 6 URL_PATTERN) in Hm.
      apply match_here_lits in Hm.
      rewrite append_assoc, (contains_startswith before') in Hfirst; [done|].
      apply (startswith_trunc _ ("b.com" +:+ sep +:+ org +:+ "/" +:+ repo
                                   +:+ ".git")); [|simpl; rewrite length_append; simpl; lia].
      rewrite append_assoc. by rewrite ?append_cons, ?Hnil. }
  destruct (url_match _ _ Hm)
    as (c0 & sep' & org' & repo' & c & rest & -> & -> & Heq & Hsep' & Hne
        & Horg' & Hne' & Hrepo' & Hlongest).
  unfold address in Heq.
  assert (Hsep1 : ∃ csep, sep = String csep EmptyString
                          ∧ sep' = String csep EmptyString
                          ∧ org +:+ "/" +:+ repo +:+ ".git"
                            = org' +:+ "/" +:+ repo' +:+ String c "git" +:+ rest).
  { destruct Hsep as [->| ->]; destruct Hsep' as [->| ->];
      rewrite ?append_cons, ?Hnil in Heq; injection Heq as ??; try done;
      eexists; by repeat split. }
  destruct Hsep1 as (csep & _ & _ & Heq').
  apply slash_unique in Heq' as [<- Heq']; [|done..].
  assert (Hlen : (String.length repo ≤ String.length repo')%nat).
  { apply (Hlongest repo ".git"); [done..|]. vm_compute. by eexists. }
  pose proof (f_equal String.length Heq') as Hlens.
  rewrite !length_append in Hlens. simpl in Hlens.
  destruct (append_inj_length repo ".git" repo' (String c "git" +:+ rest))
    as [<- _]; [done|lia|done].
Qed.

Lemma github_org_repo_round_trip_witness :
  github_org_repo "git@github.com:edx/repo-health.git"
  = Some ("edx", "repo-health").
Proof.
  by apply (github_org_repo_round_trip "git@" ":" "edx" "repo-health");
    [|right|..].
Defined.

End origin.

(** ** The requirements of the package *)

Section setup.
Import Setup.

Implicit Types (s line r : string) (lines paths : list string)
  (files : gmap string (list string)).

(** What is left of a text stripped on the right starts as the text does. *)
Lemma rstrip_head c s :
  Wording.is_space c = false → ∃ s', rstrip (String c s) = String c s'.
Proof.
  intros Hc. simpl. destruct (rstrip s); rewrite ?Hc; by eexists.
Qed.

Lemma lstrip_head c s :
  Wording.is_space c = false → lstrip (String c s) = String c s.
Proof. intros Hc. simpl. by rewrite Hc. Qed.

(** Stripping on the two sides, in either order. *)
Lemma strip_commute s : lstrip (rstrip s) = rstrip (lstrip s).
Proof.
  induction s as [|c s IH]; [done|].
  destruct (Wording.is_space c) eqn:Hc.
  - cbn [lstrip rstrip]. rewrite Hc, <- IH.
    destruct (rstrip s) as [|c' s'] eqn:Hr; [done|].
    change (lstrip (String c (String c' s')))
      with (if Wording.is_space c then lstrip (String c' s')
            else String c (String c' s')).
    by rewrite Hc.
  - rewrite (lstrip_head _ _ Hc).
    destruct (rstrip_head c s Hc) as [s' ->]. by apply lstrip_head.
Qed.

Lemma rstrip_idempotent s : rstrip (rstrip s) = rstrip s.
Proof.
  induction s as [|c s IH]; [done|]. simpl.
  destruct (rstrip s) as [|c' s'] eqn:Hr.
  - destruct (Wording.is_space c) eqn:Hc; [done|]. simpl. by rewrite Hc.
  - cbn [rstrip]. cbn [rstrip] in IH. by rewrite IH.
Qed.

(** What comes before the first hash sign has none. *)
Lemma split_hash_0_no_hash s : no_hash (split_hash_0 s) = true.
Proof.
  unfold no_hash. induction s as [|c s IH]; [done|]. simpl.
  destruct (Ascii.eqb c "#") eqn:Hc; [done|]. simpl.
  unfold Re.none_of at 1. simpl. by rewrite Hc, IH.
Qed.

(** Stripping on the right leaves a start of the text. *)
Lemma rstrip_prefix s : PyStr.startswith s (rstrip s) = true.
Proof.
  induction s as [|c s IH]; [done|]. simpl.
  destruct (rstrip s) as [|c' s'] eqn:Hr.
  - destruct (Wording.is_space c); simpl; [done|].
    by rewrite Ascii.eqb_refl, startswith_empty.
  - change (PyStr.startswith (String c s) (String c (String c' s')))
      with (Ascii.eqb c c && PyStr.startswith s (String c' s')).
    by rewrite Ascii.eqb_refl, IH.
Qed.

Lemma startswith_no_hash s p :
  PyStr.startswith s p = true → no_hash s = true → no_hash p = true.
Proof.
  unfold no_hash. revert s. induction p as [|a p IH]; intros [|c s]; try done.
  simpl. intros [->%Ascii.eqb_eq Hp]%andb_prop [Hc Hs]%andb_prop.
  by rewrite Hc, (IH s).
Qed.

Lemma startswith_trans s p q :
  PyStr.startswith s p = true → PyStr.startswith p q = true →
  PyStr.startswith s q = true.
Proof.
  revert s p. induction q as [|a q IH]; intros [|c s] [|b p]; try done.
  simpl. intros [->%Ascii.eqb_eq Hp]%andb_prop [->%Ascii.eqb_eq Hq]%andb_prop.
  by rewrite Ascii.eqb_refl, (IH s p).
Qed.

(** Without a comment, and then stripped on the right, a text is a start
    of the text stripped on the right. *)
Lemma rstrip_split_prefix s :
  PyStr.startswith (rstrip s) (rstrip (split_hash_0 s)) = true.
Proof.
  induction s as [|c s IH]; [done|]. cbn [split_hash_0].
  destruct (Ascii.eqb c "#"); [apply startswith_empty|].
  cbn [rstrip].
  destruct (rstrip (split_hash_0 s)) as [|c1 s1] eqn:Hsplit.
  - destruct (Wording.is_space c); [apply startswith_empty|].
    destruct (rstrip s); simpl; by rewrite Ascii.eqb_refl, ?startswith_empty.
  - destruct (rstrip s) as [|c2 s2] eqn:Hr; [done|].
    change (PyStr.startswith (String c ?x) (String c ?y))
      with (Ascii.eqb c c && PyStr.startswith x y).
    by rewrite Ascii.eqb_refl, IH.
Qed.

(** What [load_requirements] makes of a line of white space and then [s]. *)
Lemma strip_split_lstrip line :
  strip (split_hash_0 line) = strip (split_hash_0 (lstrip line))
  ∧ strip line = strip (lstrip line).
Proof.
  unfold strip. induction line as [|c line [IH1 IH2]]; [done|].
  destruct (Wording.is_space c) eqn:Hc; [|by rewrite (lstrip_head _ _ Hc)].
  cbn [lstrip split_hash_0]. rewrite Hc, (is_space_not_hash _ Hc).
  rewrite <- IH1, <- IH2. rewrite !strip_commute. cbn [lstrip].
  by rewrite Hc.
Qed.

(** A requirement [load_requirements] keeps is a requirement. *)
Lemma requirement_kept line :
  is_requirement (strip line) = true →
  let r := strip (split_hash_0 line) in
  r ≠ EmptyString ∧ no_hash r = true ∧ stripped r ∧ is_requirement r = true.
Proof.
  destruct (strip_split_lstrip line) as [-> ->].
  destruct (lstrip line) as [|c s] eqn:Hl; [done|].
  assert (Hc : Wording.is_space c = false).
  { clear -Hl. induction line as [|c' line IH]; [done|]. simpl in Hl.
    destruct (Wording.is_space c') eqn:Hc'; [by apply IH|]. by injection Hl as -> _. }
  unfold strip, stripped. rewrite !strip_commute, (lstrip_head _ _ Hc).
  destruct (rstrip_head c s Hc) as [s' Hs']. rewrite Hs'.
  unfold is_requirement at 1. cbn [PyStr.truthy andb].
  intros Hreq%negb_true_iff.
  assert (Hhash : Ascii.eqb c "#" = false).
  { pose proof Hreq as Hh. unfold startswith_any in Hh. cbn [existsb] in Hh.
    apply orb_false_elim in Hh as [_ Hh].
    apply orb_false_elim in Hh as [Hh _].
    change (PyStr.startswith (String c s') "#")
      with (Ascii.eqb "#" c && PyStr.startswith s' EmptyString) in Hh.
    by rewrite startswith_empty, andb_true_r, Ascii.eqb_sym in Hh. }
  cbn [split_hash_0]. rewrite Hhash.
  destruct (rstrip_head c (split_hash_0 s) Hc) as [r' Hr']. cbn zeta.
  unfold strip. rewrite strip_commute, (lstrip_head _ _ Hc), Hr'.
  split; [done|]. split; [|split].
  - apply (startswith_no_hash (String c (split_hash_0 s))).
    + rewrite <- Hr'. apply rstrip_prefix.
    + pose proof (split_hash_0_no_hash (String c s)) as Hsplit.
      cbn [split_hash_0] in Hsplit. by rewrite Hhash in Hsplit.
  - rewrite (lstrip_head _ _ Hc). by rewrite <- Hr', rstrip_idempotent.
  - unfold is_requirement. cbn [PyStr.truthy andb]. apply negb_true_iff.
    pose proof (rstrip_split_prefix (String c s)) as Hprefix.
    cbn [split_hash_0] in Hprefix. rewrite Hhash, Hs', Hr' in Hprefix.
    unfold startswith_any in *.
    apply not_true_is_false. intros (p & Hp & Hstart)%existsb_exists.
    apply not_true_iff_false in Hreq. apply Hreq, existsb_exists.
    exists p. split; [done|]. by apply (startswith_trans _ (String c r')).
Qed.

(** The loop over the paths: all the files are read, or the first one that
    is missing raises. *)
Lemma load_loop files paths (acc : list string) :
  for_each paths
    (λ requirements path,
       lines ← readlines files path;
       mret (requirements ++ requirements_of lines))
    acc
  = if forallb (λ path, bool_decide (is_Some (files !! path))) paths
    then (([] : list string),
          Ok (acc ++ flat_map
                       (λ path, requirements_of (default [] (files !! path)))
                       paths))
    else ([], Raise FileNotFoundError).
Proof.
  revert acc. induction paths as [|path paths IH]; intros acc.
  - simpl. by rewrite app_nil_r.
  - rewrite for_each_cons. cbn [forallb flat_map].
    assert (Hbody :
      (readlines files path
         ≫= λ lines, mret (acc ++ requirements_of lines) : Eff string _)
      = match files !! path with
        | Some lines => ([], Ok (acc ++ requirements_of lines))
        | None => ([], Raise FileNotFoundError)
        end)
      by (unfold readlines; by destruct (files !! path)).
    rewrite Hbody. clear Hbody.
    destruct (files !! path) as [lines|] eqn:Hpath.
    + rewrite bool_decide_eq_true_2 by done.
      rewrite bind_ok, IH. cbn [andb default].
      rewrite app_assoc. by destruct (forallb _ paths).
    + rewrite bool_decide_eq_false_2 by (by intros [??]). done.
Qed.

Lemma load_requirements_eq files paths :
  load_requirements files paths
  = if forallb (λ path, bool_decide (is_Some (files !! path))) paths
    then ([],
          Ok (list_of_set
                (flat_map (λ path, requirements_of (default [] (files !! path)))
                   paths)))
    else ([], Raise FileNotFoundError).
Proof.
  unfold load_requirements. rewrite load_loop.
  by destruct (forallb _ paths).
Qed.

(** X26.  What [load_requirements] returns is a list of requirements: it
    has no entry twice, and every entry is not empty, has no hash sign and
    no white space at either end, and is a requirement as [is_requirement]
    tells it: not a comment, an option [-r], [-c] or [-e], or a [git+]
    address. *)
Theorem load_requirements_kept files paths log requirements :
  load_requirements files paths = (log, Ok requirements) →
  NoDup requirements
  ∧ ∀ r, r ∈ requirements →
         r ≠ EmptyString ∧ no_hash r = true ∧ stripped r
         ∧ is_requirement r = true.
Proof.
  rewrite load_requirements_eq.
  destruct (forallb _ paths); [|done]. intros [= _ <-].
  split; [apply list_of_set_NoDup|].
  intros r Hr. apply (proj1 (elem_of_list_of_set _ _)) in Hr.
  apply list_elem_of_In, in_flat_map in Hr as (path & _ & Hr).
  apply list_elem_of_In, list_elem_of_fmap in Hr as (line & -> & Hline).
  apply list_elem_of_In, List.filter_In in Hline as [_ Hline].
  by apply requirement_kept.
Qed.

Lemma load_requirements_kept_witness :
  match load_requirements base_in ["requirements/base.in"] with
  | (_, Ok requirements) =>
      NoDup requirements
      ∧ Forall (λ r, r ≠ EmptyString ∧ no_hash r = true ∧ stripped r
                     ∧ is_requirement r = true) requirements
  | _ => False
  end.
Proof.
  destruct (load_requirements base_in ["requirements/base.in"])
    as [log [requirements|e]] eqn:Hload; [|by vm_compute in Hload].
  destruct (load_requirements_kept _ _ _ _ Hload) as [Hnd Hall].
  split; [done|]. by apply Forall_forall.
Defined.


End setup.
